(** * The benchmark execution engine of graphql-client-benchmarks

    A shallow embedding of [src/execution.ts]: the suite orchestrator
    ([runSuite], [_runSuite]), the client-benchmark pairing
    ([runClientBenchmark]), the single-pass runner
    ([runSingleBenchmarkPass]), the convergence predicate
    ([isFinalIteration]) and the persistence hook ([saveData]).

    JavaScript numbers are IEEE-754 doubles: they are Rocq's primitive
    floats.  The asynchronous functions run on one thread; they are state
    transformers over a [World] that holds the run context, the events
    handed to the reporter, the calls made on the injected classes and on
    the ambient facilities, and the findings file.  What the outside world
    decides (step outcomes, clock readings, heap readings, when the handle's
    [cancel] is called, what the statistics library computes) is read from an
    [Env]. *)

From Stdlib Require Import ZArith List String Ascii Bool Lia Floats DecimalString DecimalN.
From stdpp Require Import base option gmap strings.
Import ListNotations.

Local Open Scope string_scope.

(** ** Values *)

Definition Number := float.

Inductive Phase := VERIFY | WARMUP | ITERATION.
Inductive Subject := SUITE | BENCHMARK | CLIENT_BENCHMARK | CLIENT_BENCHMARK_PHASE.
Inductive EventType := START | END.

(** What a [catch] clause can receive: a value thrown by an injected class,
    or the engine's own [TypeError]. *)
Inductive Error :=
| Thrown (what : string)
| TypeError (message : string).

Record Failure := { f_error : Error; f_phase : Phase }.

Record BenchmarkMetadata := { bm_name : string }.
Record ClientMetadata := { cm_name : string }.

(** A raw example: [title], [schema], the operation and its [partials],
    themselves raw examples. *)
#[warnings="-register-all"]
Inductive RawExample :=
| Raw (title schema operation : string) (partials : list RawExample).

Definition raw_title (r : RawExample) := let 'Raw t _ _ _ := r in t.
Definition raw_schema (r : RawExample) := let 'Raw _ s _ _ := r in s.
Definition raw_partials (r : RawExample) := let 'Raw _ _ _ ps := r in ps.

(** [{ ...p, schema }] *)
Definition with_schema (p : RawExample) (schema : string) : RawExample :=
  let 'Raw t _ o ps := p in Raw t schema o ps.

(** What a client makes of one raw example is opaque to the engine. *)
Definition SingleExample := string.

Record Example := {
  ex_root : SingleExample;
  ex_title : string;
  ex_partials : list SingleExample;
}.

Record MemoryUsage := { heapUsed : Number; heapTotal : Number }.

Record Configuration := {
  verifyPasses : nat;
  warmups : nat;
  minSamples : nat;
  maxDurationMs : Number;
  targetRelativeMarginOfError : Number;
}.

Definition DEFAULT_CONFIG : Configuration := {|
  verifyPasses := 2;
  warmups := 10;
  minSamples := 25;
  maxDurationMs := (15 * 1e3)%float;
  targetRelativeMarginOfError := 5.0%float;
|}.

Definition customConfig : Configuration := {|
  verifyPasses := 1;
  warmups := 0;
  minSamples := 2;
  maxDurationMs := (1 * 1e3)%float;
  targetRelativeMarginOfError := 15.0%float;
|}.

(** ** Events *)

Record SuiteValues := {
  sv_clients : list ClientMetadata;
  sv_benchmarks : list BenchmarkMetadata;
  sv_example : RawExample;
  sv_canceled : bool;
}.

Record HeapSummary := {
  hs_heapUsed : Number;
  hs_heapTotal : Number;
  hs_heapUsedBase : option Number;
  hs_heapTotalBase : option Number;
}.

Record ClientBenchmarkStats := {
  iterations : nat;
  st_min : Number;
  st_mean : Number;
  st_max : Number;
  marginOfError : Number;
  st_percentRelativeMarginOfError : Number;
  st_memoryUsage : HeapSummary;
}.

Record Event := {
  ev_common : SuiteValues;
  ev_subject : Subject;
  ev_type : EventType;
  ev_benchmark : option BenchmarkMetadata;
  ev_client : option ClientMetadata;
  ev_phase : option Phase;
  ev_duration : option Number;
  ev_stats : option ClientBenchmarkStats;
  ev_failure : option Failure;
}.

(** ** The injected classes *)

(** How one lifecycle step ends: its promise fulfils, the call throws before
    returning a promise, or the promise rejects. *)
Inductive StepOutcome :=
| Fulfils
| ThrowsSync (e : Error)
| Rejects (e : Error).

(** [Err] is an exception, [Ok] a normal completion. *)
Inductive Try (A : Type) :=
| Ok (a : A)
| Err (e : Error).
Arguments Ok {A} a.
Arguments Err {A} e.

(** A client class.  [c_new k] is how the [k]-th [new ClientClass()] of the
    run ends ([None]: an instance). *)
Record ClientConstructor := {
  c_metadata : ClientMetadata;
  c_name : string;
  c_new : nat -> option Error;
  transformRawExample : RawExample -> Try SingleExample;
}.

(** A benchmark class.  The behaviour of the instance built for the [k]-th
    single pass of the run is read at index [k]. *)
Record BenchmarkConstructor := {
  b_metadata : BenchmarkMetadata;
  b_new : nat -> option Error;
  b_setup : nat -> StepOutcome;
  b_run : nat -> StepOutcome;
  b_verify : nat -> StepOutcome;
  b_teardown : nat -> StepOutcome;
}.

(** ** The run context and the world *)

Record Context := {
  config : Configuration;
  rawExample : RawExample;
  eventCommon : SuiteValues;
  canceled : bool;
  failure : option Failure;
}.

(** Calls the engine makes on what it was handed and on the ambient
    facilities, in the order it makes them. *)
Inductive Call :=
| NewClient (class : string)
| NewBenchmark (class : string)
| Setup
| Run
| Verify
| Teardown
| GlobalGc
| ProcessMemoryUsage
| PerformanceNow
| SetTimeout (ms : nat).

Inductive ConsoleLine :=
| LogPassError (e : Error)
| LogReadError
| LogWriteError.

(** A JSON value, as [JSON.parse] returns it: an object is a map from its
    own keys to their values. *)
#[warnings="-register-all"]
Inductive Json :=
| JNull
| JBool (b : bool)
| JNumber (x : Number)
| JString (s : string)
| JArray (items : list Json)
| JObject (members : gmap string Json).

(** [findings.json]: absent, holding a text that [JSON.parse] rejects, or
    holding a text that [JSON.parse] turns into [data], of whatever shape. *)
Inductive FindingsFile :=
| NoFile
| Unparsable (text : string)
| Findings (data : Json).

(** What [saveData] and its callbacks do: [readFile] is called; [writeFile]
    is called with the text of [data]; the callback of [readFile] throws,
    and nothing catches the exception. *)
Inductive FileOp :=
| ReadFile
| WriteFile (data : Json)
| CallbackThrows (e : Error).

Record World := {
  (* the run context *)
  context : Context;
  (* the events handed to the reporter, oldest first *)
  reported : list Event;
  (* the calls made so far, oldest first *)
  calls : list Call;
  (* the invocations of the single-pass runner so far, each with its phase
     and its [verify] flag *)
  invocations : list (Phase * bool);
  (* what was written to the console *)
  console : list ConsoleLine;
  (* how many times the run has been suspended *)
  suspensions : nat;
  (* how many times the clock, the heap and the findings file were read,
     and how many clients were constructed *)
  clockReads : nat;
  heapReads : nat;
  constructions : nat;
  fileReads : nat;
  (* the operations on the findings file, and the file *)
  fileOps : list FileOp;
  findings : FindingsFile;
}.

(** What the engine does not decide. *)
Record Env := {
  (* [global.gc] is defined *)
  gcAvailable : bool;
  (* the handle's [cancel()] is called while the run is suspended for the
     [k]-th time *)
  cancelAt : nat -> bool;
  (* the [k]-th reading of [performanceNow()] *)
  clockAt : nat -> Number;
  (* the [k]-th reading of [process.memoryUsage()] *)
  memoryAt : nat -> MemoryUsage;
  (* the [k]-th [readFile] of the findings file fails *)
  readFails : nat -> bool;
  (* the [writeFile] that follows the [k]-th [readFile] fails *)
  writeFails : nat -> bool;
  (* fast-stats: [amean], [moe], [range] and [iqr] of the pushed samples *)
  amean : list Number -> Number;
  moe : list Number -> Number;
  range : list Number -> Number * Number;
  iqr : list Number -> list Number;
  (* [Number::toString] of a finite number of magnitude at least 1e21 *)
  exponentialString : Number -> string;
  (* [name in Array.prototype], besides what [Object.prototype] has: the
     methods of arrays, which differ from one version of the language to
     the next; none of them has a [push] method of its own *)
  arrayPrototypeHas : string -> bool;
  (* the findings file after the [k]-th [readFile], or the [writeFile] that
     follows it, has failed, given the file before *)
  fileAfterError : nat -> FindingsFile -> FindingsFile;
}.

(** ** Asynchronous computations *)

(** A computation returns, throws (an [async] function rejects), or is still
    running when the model's bound on the iteration loop is used up. *)
Inductive Outcome (A : Type) :=
| Returns (a : A)
| Throws (e : Error)
| Unfinished.
Arguments Returns {A} a.
Arguments Throws {A} e.
Arguments Unfinished {A}.

Definition Async (A : Type) := World -> Outcome A * World.

Definition ret {A} (a : A) : Async A := fun w => (Returns a, w).
Definition throw {A} (e : Error) : Async A := fun w => (Throws e, w).
Definition unfinished {A} : Async A := fun w => (Unfinished, w).

Definition bind {A B} (m : Async A) (k : A -> Async B) : Async B :=
  fun w =>
    match m w with
    | (Returns a, w') => k a w'
    | (Throws e, w') => (Throws e, w')
    | (Unfinished, w') => (Unfinished, w')
    end.

Declare Scope async_scope.
Delimit Scope async_scope with async.
Bind Scope async_scope with Async.
Notation "x <- m ;; k" := (bind m (fun x => k))
  (at level 20, m at level 99, k at level 200, format "x  <-  m  ;;  '/' k") : async_scope.
Notation "m ;; k" := (bind m (fun _ => k))
  (at level 100, k at level 200, right associativity, format "m  ;;  '/' k") : async_scope.
Local Open Scope async_scope.

(** [try { body } catch (error) { handler }] *)
Definition tryCatch {A} (body : Async A) (handler : Error -> Async A) : Async A :=
  fun w =>
    match body w with
    | (Throws e, w') => handler e w'
    | r => r
    end.

Definition gets {A} (f : World -> A) : Async A := fun w => (Returns (f w), w).
Definition modify (f : World -> World) : Async unit := fun w => (Returns tt, f w).

(** *** Field updates *)

Definition set_context (f : Context -> Context) (w : World) : World :=
  {| context := f (context w); reported := reported w; calls := calls w;
     invocations := invocations w; console := console w;
     suspensions := suspensions w; clockReads := clockReads w;
     heapReads := heapReads w; constructions := constructions w;
     fileReads := fileReads w; fileOps := fileOps w; findings := findings w |}.

Definition set_reported (f : list Event -> list Event) (w : World) : World :=
  {| context := context w; reported := f (reported w); calls := calls w;
     invocations := invocations w; console := console w;
     suspensions := suspensions w; clockReads := clockReads w;
     heapReads := heapReads w; constructions := constructions w;
     fileReads := fileReads w; fileOps := fileOps w; findings := findings w |}.

Definition set_calls (f : list Call -> list Call) (w : World) : World :=
  {| context := context w; reported := reported w; calls := f (calls w);
     invocations := invocations w; console := console w;
     suspensions := suspensions w; clockReads := clockReads w;
     heapReads := heapReads w; constructions := constructions w;
     fileReads := fileReads w; fileOps := fileOps w; findings := findings w |}.

Definition set_invocations (f : list (Phase * bool) -> list (Phase * bool))
    (w : World) : World :=
  {| context := context w; reported := reported w; calls := calls w;
     invocations := f (invocations w); console := console w;
     suspensions := suspensions w; clockReads := clockReads w;
     heapReads := heapReads w; constructions := constructions w;
     fileReads := fileReads w; fileOps := fileOps w; findings := findings w |}.

Definition set_console (f : list ConsoleLine -> list ConsoleLine) (w : World) : World :=
  {| context := context w; reported := reported w; calls := calls w;
     invocations := invocations w; console := f (console w);
     suspensions := suspensions w; clockReads := clockReads w;
     heapReads := heapReads w; constructions := constructions w;
     fileReads := fileReads w; fileOps := fileOps w; findings := findings w |}.

Definition set_suspensions (f : nat -> nat) (w : World) : World :=
  {| context := context w; reported := reported w; calls := calls w;
     invocations := invocations w; console := console w;
     suspensions := f (suspensions w); clockReads := clockReads w;
     heapReads := heapReads w; constructions := constructions w;
     fileReads := fileReads w; fileOps := fileOps w; findings := findings w |}.

Definition set_clockReads (f : nat -> nat) (w : World) : World :=
  {| context := context w; reported := reported w; calls := calls w;
     invocations := invocations w; console := console w;
     suspensions := suspensions w; clockReads := f (clockReads w);
     heapReads := heapReads w; constructions := constructions w;
     fileReads := fileReads w; fileOps := fileOps w; findings := findings w |}.

Definition set_heapReads (f : nat -> nat) (w : World) : World :=
  {| context := context w; reported := reported w; calls := calls w;
     invocations := invocations w; console := console w;
     suspensions := suspensions w; clockReads := clockReads w;
     heapReads := f (heapReads w); constructions := constructions w;
     fileReads := fileReads w; fileOps := fileOps w; findings := findings w |}.

Definition set_constructions (f : nat -> nat) (w : World) : World :=
  {| context := context w; reported := reported w; calls := calls w;
     invocations := invocations w; console := console w;
     suspensions := suspensions w; clockReads := clockReads w;
     heapReads := heapReads w; constructions := f (constructions w);
     fileReads := fileReads w; fileOps := fileOps w; findings := findings w |}.

Definition set_file (reads : nat -> nat) (ops : list FileOp -> list FileOp)
    (f : FindingsFile -> FindingsFile) (w : World) : World :=
  {| context := context w; reported := reported w; calls := calls w;
     invocations := invocations w; console := console w;
     suspensions := suspensions w; clockReads := clockReads w;
     heapReads := heapReads w; constructions := constructions w;
     fileReads := reads (fileReads w); fileOps := ops (fileOps w);
     findings := f (findings w) |}.

(** The handle's [cancel()] when [called], nothing otherwise:
    [context.canceled = true; context.eventCommon.canceled = true]. *)
Definition cancel (called : bool) (c : Context) : Context :=
  {| config := config c; rawExample := rawExample c;
     eventCommon :=
       {| sv_clients := sv_clients (eventCommon c);
          sv_benchmarks := sv_benchmarks (eventCommon c);
          sv_example := sv_example (eventCommon c);
          sv_canceled := if called then true else sv_canceled (eventCommon c) |};
     canceled := if called then true else canceled c;
     failure := failure c |}.

Definition set_failure (f : option Failure) (c : Context) : Context :=
  {| config := config c; rawExample := rawExample c;
     eventCommon := eventCommon c; canceled := canceled c; failure := f |}.

(** [context.failure] read as a condition: an object is truthy, [undefined]
    is not. *)
Definition truthy {A} (o : option A) : bool :=
  match o with Some _ => true | None => false end.

Fixpoint mapTry {A B} (f : A -> Try B) (l : list A) : Try (list B) :=
  match l with
  | [] => Ok []
  | x :: l' =>
      match f x with
      | Err e => Err e
      | Ok y =>
          match mapTry f l' with
          | Err e => Err e
          | Ok ys => Ok (y :: ys)
          end
      end
  end.

(** The body of the [try] of lines 165-171: the root example, then each
    partial with the root's schema. *)
Definition transformExample (ClientClass : ClientConstructor) (raw : RawExample)
    : Try Example :=
  match transformRawExample ClientClass raw with
  | Err e => Err e
  | Ok rootExample =>
      match mapTry (fun p => transformRawExample ClientClass
                               (with_schema p (raw_schema raw)))
                   (raw_partials raw) with
      | Err e => Err e
      | Ok ps => Ok {| ex_root := rootExample; ex_title := raw_title raw;
                       ex_partials := ps |}
      end
  end.

(** The three fast-stats accumulators of a pairing, as the samples pushed
    so far, oldest first. *)
Record Samples := {
  stats : list Number;
  heapUsedStats : list Number;
  heapTotalStats : list Number;
}.

Definition noSamples : Samples :=
  {| stats := []; heapUsedStats := []; heapTotalStats := [] |}.

(** What a single pass returns on success. *)
Record PassResult := {
  duration : Number;
  memoryUsage : option MemoryUsage;
}.

Definition plainEvent (common : SuiteValues) (s : Subject) (t : EventType)
    (b : option BenchmarkMetadata) : Event :=
  {| ev_common := common; ev_subject := s; ev_type := t; ev_benchmark := b;
     ev_client := None; ev_phase := None; ev_duration := None;
     ev_stats := None; ev_failure := None |}.

(** An event of a pairing: [{ ...eventCommon, subject, type, ... }] where
    [eventCommon] already holds the benchmark's and the client's metadata. *)
Definition pairingEvent (common : SuiteValues)
    (BenchmarkClass : BenchmarkConstructor) (ClientClass : ClientConstructor)
    (s : Subject) (t : EventType) (p : option Phase) (d : option Number)
    (st : option ClientBenchmarkStats) (f : option Failure) : Event :=
  {| ev_common := common; ev_subject := s; ev_type := t;
     ev_benchmark := Some (b_metadata BenchmarkClass);
     ev_client := Some (c_metadata ClientClass);
     ev_phase := p; ev_duration := d; ev_stats := st; ev_failure := f |}.

(** ** [Number.prototype.toFixed] *)

(** The decimal digits of a natural number, ["0"] for zero. *)
Definition decimalDigits (n : Z) : list ascii :=
  list_ascii_of_string (NilZero.string_of_uint (N.to_uint (Z.to_N n))).

(** A finite non-zero double has magnitude [m * 2 ^ e]. *)
Definition magnitudeAtLeast (m : positive) (e : Z) (bound : Z) : bool :=
  if (0 <=? e)%Z then (bound <=? Z.pos m * 2 ^ e)%Z
  else (bound * 2 ^ (- e) <=? Z.pos m)%Z.

(** The integer [n] for which [n / 10 ^ f - m * 2 ^ e] is closest to zero,
    the larger one of two. *)
Definition nearestScaled (m : positive) (e : Z) (f : nat) : Z :=
  let scaled := (Z.pos m * 10 ^ Z.of_nat f)%Z in
  if (0 <=? e)%Z then (scaled * 2 ^ e)%Z
  else ((2 * scaled + 2 ^ (- e)) / (2 * 2 ^ (- e)))%Z.

(** The digits of [n] with the decimal point before the last [f] of them,
    padded with leading zeros to [f + 1] digits. *)
Definition fixedDigits (n : Z) (f : nat) : list ascii :=
  let m := decimalDigits n in
  match f with
  | O => m
  | _ =>
      let m := (repeat "0"%char (f + 1 - length m) ++ m)%list in
      let k := length m in
      (firstn (k - f) m ++ "."%char :: skipn (k - f) m)%list
  end.

(** [x.toFixed(f)] for [0 <= f <= 100].  [big] stands for [Number::toString]
    on finite numbers of magnitude at least 1e21. *)
Definition toFixed (big : Number -> string) (x : Number) (f : nat) : string :=
  match Prim2SF x with
  | S754_nan => "NaN"
  | S754_infinity false => "Infinity"
  | S754_infinity true => "-Infinity"
  | S754_zero _ => string_of_list_ascii (fixedDigits 0 f)
  | S754_finite s m e =>
      if magnitudeAtLeast m e (10 ^ 21) then big x
      else
        (if s then "-" else "")
          ++ string_of_list_ascii (fixedDigits (nearestScaled m e f) f)
  end.

(** ** JSON values and the findings file *)

(** What the text [JSON.stringify(v, null, 2)] parses to: [v], but for the
    numbers that have no text of their own: [-0] is written [0], and an
    infinite number or [NaN] is written [null]. *)
Fixpoint reparsed (v : Json) : Json :=
  match v with
  | JNumber x =>
      match Prim2SF x with
      | S754_zero _ => JNumber 0%float
      | S754_finite _ _ _ => v
      | _ => JNull
      end
  | JArray items => JArray (map reparsed items)
  | JObject members => JObject (reparsed <$> members)
  | _ => v
  end.

(** [name] as the index of an array element: a decimal numeral without a
    leading zero, below [2 ^ 32 - 1]. *)
Definition arrayIndex (name : string) : option nat :=
  match NilZero.uint_of_string name with
  | Some u =>
      let n := N.of_uint u in
      if String.eqb (NilZero.string_of_uint (N.to_uint n)) name
         && (n <? 2 ^ 32 - 1)%N
      then Some (N.to_nat n)
      else None
  | None => None
  end.

(** [name in Object.prototype]: the names every object inherits.  What
    they name is a function, or the prototype itself: nothing with a [push]
    method. *)
Definition objectPrototypeHas (name : string) : bool :=
  bool_decide
    (name ∈ ["constructor"; "hasOwnProperty"; "isPrototypeOf";
             "propertyIsEnumerable"; "toLocaleString"; "toString"; "valueOf";
             "__defineGetter__"; "__defineSetter__"; "__lookupGetter__";
             "__lookupSetter__"; "__proto__"]).

(** [name in v]: a [TypeError] when [v] is not an object.  An object has its
    own keys and what it inherits; an array has its indices, [length] and
    what it inherits. *)
Definition hasProperty (env : Env) (name : string) (v : Json) : Try bool :=
  match v with
  | JObject members =>
      Ok (bool_decide (is_Some (members !! name)) || objectPrototypeHas name)
  | JArray items =>
      Ok (match arrayIndex name with
          | Some i => (i <? length items)%nat
          | None => false
          end
          || String.eqb name "length"
          || arrayPrototypeHas env name
          || objectPrototypeHas name)
  | _ => Err (TypeError "Cannot use 'in' operator to search in a value that is not an object")
  end.

(** [v[name]] where it is a JSON value: an own member of an object, an
    element of an array. *)
Definition ownProperty (name : string) (v : Json) : option Json :=
  match v with
  | JObject members => members !! name
  | JArray items =>
      match arrayIndex name with
      | Some i => items !! i
      | None => None
      end
  | _ => None
  end.

(** [v[name] = x], as [JSON.stringify] sees [v] afterwards: an array is
    extended up to a new index, the holes reading [null]; any other new
    property of an array is left out of its text. *)
Definition setProperty (name : string) (x : Json) (v : Json) : Json :=
  match v with
  | JObject members => JObject (<[name := x]> members)
  | JArray items =>
      match arrayIndex name with
      | Some i =>
          if (i <? length items)%nat then JArray (<[i := x]> items)
          else JArray (items ++ repeat JNull (i - length items) ++ [x])
      | None => v
      end
  | _ => v
  end.

(** [updatedData[name].push(normalized)], for a [name] found in
    [updatedData]: only an array has a [push] method. *)
Definition pushRecord (name normalized : string) (updatedData : Json)
    : Try Json :=
  match ownProperty name updatedData with
  | Some (JArray records) =>
      Ok (setProperty name (JArray (records ++ [JString normalized]))
            updatedData)
  | _ => Err (TypeError "updatedData[name].push is not a function")
  end.

(** How the callback of [readFile] ends: it logs and returns, it throws, or
    it calls [writeFile] with the text of [data]. *)
Inductive CallbackResult :=
| Logs (line : ConsoleLine)
| ThrowsUncaught (e : Error)
| Writes (data : Json).

(** The callback of [readFile], lines 381-404, called with an error ([err])
    or with the text of [file]; a file that is absent was created empty by
    the flag [a+]. *)
Definition readFileCallback (env : Env) (name : string) (stat : Number)
    (err : bool) (file : FindingsFile) : CallbackResult :=
  if err then Logs LogReadError
  else
    let normalized := toFixed (exponentialString env) stat 3 in
    let updatedData :=
      match file with
      | Findings data => data
      | _ => JObject ∅
      end in
    match hasProperty env name updatedData with
    | Err e => ThrowsUncaught e
    | Ok true =>
        match pushRecord name normalized updatedData with
        | Err e => ThrowsUncaught e
        | Ok data => Writes data
        end
    | Ok false =>
        Writes (setProperty name (JArray [JString normalized]) updatedData)
    end.

(** The file once [readFile] has opened it with the flag [a+]. *)
Definition created (file : FindingsFile) : FindingsFile :=
  match file with
  | NoFile => Unparsable ""
  | _ => file
  end.

(** ** The engine *)

Section Engine.

Variable env : Env.

(** *** What the engine calls *)

(** The run is suspended once; [cancel()], when it is called meanwhile, sets
    [context.canceled] and [context.eventCommon.canceled]. *)
Definition suspend : Async unit :=
  k <- gets suspensions ;;
  modify (set_suspensions S) ;;
  modify (set_context (cancel (cancelAt env k))).

(** [await step()] *)
Definition await (o : StepOutcome) : Async unit :=
  match o with
  | Fulfils => suspend
  | ThrowsSync e => throw e
  | Rejects e => suspend ;; throw e
  end.

(** [await f(...)] for an [async] function [f]: its body runs, then the
    caller is suspended until the promise settles. *)
Definition awaitCall {A} (m : Async A) : Async A :=
  fun w =>
    match m w with
    | (Returns a, w') => (suspend ;; ret a) w'
    | (Throws e, w') => (suspend ;; throw e) w'
    | (Unfinished, w') => (Unfinished, w')
    end.

Definition call (c : Call) : Async unit :=
  modify (set_calls (fun l => l ++ [c])%list).

Definition reporter (e : Event) : Async unit :=
  modify (set_reported (fun l => l ++ [e])%list).

Definition consoleLog (l : ConsoleLine) : Async unit :=
  modify (set_console (fun c => c ++ [l])%list).

Definition performanceNow : Async Number :=
  call PerformanceNow ;;
  k <- gets clockReads ;;
  modify (set_clockReads S) ;;
  ret (clockAt env k).

Definition readMemoryUsage : Async MemoryUsage :=
  call ProcessMemoryUsage ;;
  k <- gets heapReads ;;
  modify (set_heapReads S) ;;
  ret (memoryAt env k).

(** [await new Promise(resolve => setTimeout(resolve, ms))] *)
Definition pause (ms : nat) : Async unit :=
  call (SetTimeout ms) ;;
  suspend.

(** [new ClientClass()] *)
Definition newClient (ClientClass : ClientConstructor) : Async unit :=
  call (NewClient (c_name ClientClass)) ;;
  k <- gets constructions ;;
  modify (set_constructions S) ;;
  match c_new ClientClass k with
  | None => ret tt
  | Some e => throw e
  end.

(** [new BenchmarkClass(client, example)], for the [k]-th pass of the run *)
Definition newBenchmark (BenchmarkClass : BenchmarkConstructor) (k : nat)
    : Async unit :=
  call (NewBenchmark (bm_name (b_metadata BenchmarkClass))) ;;
  match b_new BenchmarkClass k with
  | None => ret tt
  | Some e => throw e
  end.

Definition setFailure (f : option Failure) : Async unit :=
  modify (set_context (set_failure f)).

(** *** Statistics *)

Definition percentRelativeMarginOfError (stats : list Number) : Number :=
  (moe env stats / amean env stats * 100)%float.

Definition statsSummary (stats heapUsedStats heapTotalStats : list Number)
    (heapUsedBase heapTotalBase : option Number) : ClientBenchmarkStats :=
  let '(min, max) := range env stats in
  {| iterations := length stats;
     st_min := min;
     st_mean := amean env stats;
     st_max := max;
     marginOfError := moe env stats;
     st_percentRelativeMarginOfError := percentRelativeMarginOfError stats;
     st_memoryUsage :=
       {| hs_heapUsed := amean env heapUsedStats;
          hs_heapTotal := amean env heapTotalStats;
          hs_heapUsedBase := heapUsedBase;
          hs_heapTotalBase := heapTotalBase |} |}.

Definition isFinalIteration (config : Configuration) (runStart : Number)
    (stats : list Number) : Async bool :=
  if (length stats <? minSamples config)%nat then ret false
  else
    now <- performanceNow ;;
    if (maxDurationMs config <? now - runStart)%float then ret true
    else if (percentRelativeMarginOfError stats
               <=? targetRelativeMarginOfError config)%float then ret true
    else ret false.

(** *** The single-pass runner *)

Definition runSingleBenchmarkPass (BenchmarkClass : BenchmarkConstructor)
    (ClientClass : ClientConstructor) (example : option Example)
    (phase : Phase) (verify : bool) : Async (option PassResult) :=
  k <- gets (fun w => length (invocations w)) ;;
  modify (set_invocations (fun l => l ++ [(phase, verify)])%list) ;;
  tryCatch
    (newClient ClientClass ;;
     newBenchmark BenchmarkClass k ;;
     call Setup ;;
     await (b_setup BenchmarkClass k) ;;
     (if gcAvailable env then call GlobalGc else ret tt) ;;
     start <- performanceNow ;;
     call Run ;;
     await (b_run BenchmarkClass k) ;;
     stop <- performanceNow ;;
     let duration := (stop - start)%float in
     memoryReadings <-
       (if gcAvailable env
        then call GlobalGc ;; m <- readMemoryUsage ;; ret (Some m)
        else ret None) ;;
     (if verify
      then call Verify ;; await (b_verify BenchmarkClass k)
      else ret tt) ;;
     call Teardown ;;
     await (b_teardown BenchmarkClass k) ;;
     pause 0 ;;
     ret (Some {| duration := duration; memoryUsage := memoryReadings |}))
    (fun error =>
       setFailure (Some {| f_error := error; f_phase := phase |}) ;;
       consoleLog (LogPassError error) ;;
       ret None).

(** *** The persistence hook *)

(** [saveData] returns at once; the callbacks of [readFile] and [writeFile]
    run later.  The model runs them to completion at the call, one
    [saveData] after the other, and goes on with the run also when the
    callback of [readFile] has thrown: the exception, which nothing
    catches, is recorded among the file operations. *)
Definition saveData (name : string) (stat : Number) : Async unit :=
  if negb (gcAvailable env) then ret tt
  else
    k <- gets fileReads ;;
    modify (set_file S (fun l => l ++ [ReadFile])%list id) ;;
    file <- gets findings ;;
    match readFileCallback env name stat (readFails env k) file with
    | Logs line =>
        modify (set_file id id (fileAfterError env k)) ;;
        consoleLog line
    | ThrowsUncaught e =>
        modify (set_file id (fun l => l ++ [CallbackThrows e])%list created)
    | Writes data =>
        modify (set_file id (fun l => l ++ [WriteFile data])%list id) ;;
        if writeFails env k
        then
          modify (set_file id id (fileAfterError env k)) ;;
          consoleLog LogWriteError
        else modify (set_file id id (fun _ => Findings (reparsed data)))
    end.

(** *** One client-benchmark pairing *)

(** [const { duration, memoryUsage } = value]: a [TypeError] when [value]
    is [undefined]. *)
Definition destructure (value : option PassResult)
    : Async (option Number * option MemoryUsage) :=
  match value with
  | None => throw (TypeError "Cannot destructure property 'duration' of undefined")
  | Some r => ret (Some (duration r), memoryUsage r)
  end.

Definition stopped (ctx : Context) : bool :=
  canceled ctx || truthy (failure ctx).

Section Pairing.

Variable BenchmarkClass : BenchmarkConstructor.
Variable ClientClass : ClientConstructor.
(* [{ ...eventCommon, subject, type, ... }], [eventCommon] being the copy
   made when the pairing starts *)
Variable event : Subject -> EventType -> option Phase -> option Number ->
                 option ClientBenchmarkStats -> option Failure -> Event.

(** The [for] loop of lines 176-181, with [n] rounds to go. *)
Fixpoint verifyLoop (example : option Example) (n : nat) : Async unit :=
  match n with
  | O => ret tt
  | S n' =>
      ctx <- gets context ;;
      if stopped ctx then ret tt
      else
        awaitCall (runSingleBenchmarkPass BenchmarkClass ClientClass example
                     VERIFY true) ;;
        verifyLoop example n'
  end.

(** Lines 156-189. *)
Definition verifyPhase : Async (option Example) :=
  reporter (event CLIENT_BENCHMARK_PHASE START (Some VERIFY) None None None) ;;
  verifyStart <- performanceNow ;;
  ctx <- gets context ;;
  example <-
    match transformExample ClientClass (rawExample ctx) with
    | Ok example => ret (Some example)
    | Err error =>
        setFailure (Some {| f_error := error; f_phase := VERIFY |}) ;;
        ret None
    end ;;
  verifyLoop example (verifyPasses (config ctx)) ;;
  now <- performanceNow ;;
  ctx <- gets context ;;
  reporter (event CLIENT_BENCHMARK_PHASE END (Some VERIFY)
              (Some (now - verifyStart)%float) None (failure ctx)) ;;
  ret example.

(** The [for] loop of lines 204-207. *)
Fixpoint warmupLoop (example : option Example) (n : nat) : Async unit :=
  match n with
  | O => ret tt
  | S n' =>
      ctx <- gets context ;;
      if stopped ctx then ret tt
      else
        awaitCall (runSingleBenchmarkPass BenchmarkClass ClientClass example
                     WARMUP false) ;;
        warmupLoop example n'
  end.

(** Lines 196-216. *)
Definition warmupPhase (example : option Example) : Async unit :=
  ctx <- gets context ;;
  if negb (canceled ctx) && negb (truthy (failure ctx)) then
    reporter (event CLIENT_BENCHMARK_PHASE START (Some WARMUP) None None None) ;;
    warmupStart <- performanceNow ;;
    warmupLoop example (warmups (config ctx)) ;;
    now <- performanceNow ;;
    ctx <- gets context ;;
    reporter (event CLIENT_BENCHMARK_PHASE END (Some WARMUP)
                (Some (now - warmupStart)%float) None (failure ctx))
  else ret tt.

Definition pushSample (samples : list Number) (x : option Number) : list Number :=
  match x with
  | Some v => (samples ++ [v])%list
  | None => samples
  end.

(** One round of the [while (true)] loop, from the START event (line 231)
    to the test of line 263; [true] when the loop is to be left. *)
Definition iterationRound (example : option Example)
    (heapUsedBase heapTotalBase : option Number) (runStart : Number)
    (s : Samples) : Async (bool * Samples) :=
  reporter (event CLIENT_BENCHMARK_PHASE START (Some ITERATION) None None None) ;;
  value <- awaitCall (runSingleBenchmarkPass BenchmarkClass ClientClass example
                        ITERATION false) ;;
  fields <- destructure value ;;
  let '(duration, memoryUsage) := fields in
  let s' :=
    {| stats := pushSample (stats s) duration;
       heapUsedStats := pushSample (heapUsedStats s) (heapUsed <$> memoryUsage);
       heapTotalStats := pushSample (heapTotalStats s) (heapTotal <$> memoryUsage) |} in
  ctx <- gets context ;;
  reporter (event CLIENT_BENCHMARK_PHASE END (Some ITERATION) duration
              (Some (statsSummary (stats s') (heapUsedStats s') (heapTotalStats s')
                       heapUsedBase heapTotalBase))
              (failure ctx)) ;;
  final <- isFinalIteration (config ctx) runStart (stats s') ;;
  ret (final, s').

(** The [while (true)] loop of lines 228-264, for at most [fuel] rounds. *)
Fixpoint iterationLoop (fuel : nat) (example : option Example)
    (heapUsedBase heapTotalBase : option Number) (runStart : Number)
    (s : Samples) : Async Samples :=
  match fuel with
  | O => unfinished
  | S fuel' =>
      ctx <- gets context ;;
      if stopped ctx then ret s
      else
        r <- iterationRound example heapUsedBase heapTotalBase runStart s ;;
        if fst r then ret (snd r)
        else iterationLoop fuel' example heapUsedBase heapTotalBase runStart (snd r)
  end.

(** Lines 223-265. *)
Definition iterationPhase (fuel : nat) (example : option Example)
    (heapUsedBase heapTotalBase : option Number) : Async Samples :=
  runStart <- performanceNow ;;
  ctx <- gets context ;;
  if negb (canceled ctx) && negb (truthy (failure ctx)) then
    iterationLoop fuel example heapUsedBase heapTotalBase runStart noSamples
  else ret noSamples.

End Pairing.

Definition runClientBenchmark (fuel : nat) (BenchmarkClass : BenchmarkConstructor)
    (ClientClass : ClientConstructor) : Async ClientBenchmarkStats :=
  ctx <- gets context ;;
  let event := pairingEvent (eventCommon ctx) BenchmarkClass ClientClass in
  reporter (event CLIENT_BENCHMARK START None None None None) ;;
  (* Establish a memory baseline for the client *)
  base <-
    (if gcAvailable env
     then call GlobalGc ;; m <- readMemoryUsage ;; ret (Some m)
     else ret None) ;;
  let heapUsedBase := heapUsed <$> base in
  let heapTotalBase := heapTotal <$> base in
  newClient ClientClass ;;
  (* Preprocess & Verify *)
  example <- verifyPhase BenchmarkClass ClientClass event ;;
  pause 50 ;;
  (* Warmup *)
  warmupPhase BenchmarkClass ClientClass event example ;;
  pause 50 ;;
  (* Iterations *)
  s <- iterationPhase BenchmarkClass ClientClass event fuel example
         heapUsedBase heapTotalBase ;;
  pause 10 ;;
  (* Remove outliers. *)
  let finalStats :=
    statsSummary (iqr env (stats s)) (iqr env (heapUsedStats s))
      (iqr env (heapTotalStats s)) heapUsedBase heapTotalBase in
  ctx <- gets context ;;
  reporter (event CLIENT_BENCHMARK END None None (Some finalStats) (failure ctx)) ;;
  (* And we're done with the failure *)
  setFailure None ;;
  saveData (c_name ClientClass) (amean env (stats s)) ;;
  ret finalStats.

(** *** The suite *)

(** The loop over the client classes, lines 106-109. *)
Fixpoint clientsLoop (fuel : nat) (BenchmarkClass : BenchmarkConstructor)
    (clientClasses : list ClientConstructor) : Async unit :=
  match clientClasses with
  | [] => ret tt
  | ClientClass :: rest =>
      ctx <- gets context ;;
      if canceled ctx then ret tt
      else
        awaitCall (runClientBenchmark fuel BenchmarkClass ClientClass) ;;
        clientsLoop fuel BenchmarkClass rest
  end.

(** The loop over the benchmark classes, lines 97-117. *)
Fixpoint benchmarksLoop (fuel : nat) (benchmarkClasses : list BenchmarkConstructor)
    (clientClasses : list ClientConstructor) : Async unit :=
  match benchmarkClasses with
  | [] => ret tt
  | BenchmarkClass :: rest =>
      ctx <- gets context ;;
      if canceled ctx then ret tt
      else
        reporter (plainEvent (eventCommon ctx) BENCHMARK START
                    (Some (b_metadata BenchmarkClass))) ;;
        clientsLoop fuel BenchmarkClass clientClasses ;;
        ctx <- gets context ;;
        reporter (plainEvent (eventCommon ctx) BENCHMARK END
                    (Some (b_metadata BenchmarkClass))) ;;
        benchmarksLoop fuel rest clientClasses
  end.

Definition _runSuite (fuel : nat) (benchmarkClasses : list BenchmarkConstructor)
    (clientClasses : list ClientConstructor) : Async unit :=
  ctx <- gets context ;;
  reporter (plainEvent (eventCommon ctx) SUITE START None) ;;
  benchmarksLoop fuel benchmarkClasses clientClasses ;;
  ctx <- gets context ;;
  reporter (plainEvent (eventCommon ctx) SUITE END None).

Definition initialContext (benchmarkClasses : list BenchmarkConstructor)
    (clientClasses : list ClientConstructor) (rawExample : RawExample)
    (config : Configuration) : Context :=
  {| config := config;
     rawExample := rawExample;
     eventCommon :=
       {| sv_clients := map c_metadata clientClasses;
          sv_benchmarks := map b_metadata benchmarkClasses;
          sv_example := rawExample;
          sv_canceled := false |};
     canceled := false;
     failure := None |}.

Definition initialWorld (ctx : Context) (file : FindingsFile) : World :=
  {| context := ctx; reported := []; calls := []; invocations := [];
     console := []; suspensions := 0; clockReads := 0; heapReads := 0;
     constructions := 0; fileReads := 0; fileOps := []; findings := file |}.

(** [runSuite]: the outcome of the returned promise (what it resolves with,
    [context.canceled]) and the world it leaves.  [config] defaults to
    [customConfig]; [fuel] bounds each pairing's iteration loop; [file] is
    the findings file before the run.  The caller gets the handle when
    [_runSuite] is first suspended, so a [cancel()] called right after
    [runSuite] returns is [cancelAt env 0]. *)
Definition runSuite (benchmarkClasses : list BenchmarkConstructor)
    (clientClasses : list ClientConstructor) (rawExample : RawExample)
    (config : option Configuration) (fuel : nat) (file : FindingsFile)
    : Outcome bool * World :=
  let ctx0 :=
    initialContext benchmarkClasses clientClasses rawExample
      (default customConfig config) in
  (_runSuite fuel benchmarkClasses clientClasses ;;
   suspend ;;
   ctx <- gets context ;;
   ret (canceled ctx))
    (initialWorld ctx0 file).

End Engine.

(** ** Observations on a run *)

(** The reporter's events of one subject, type and phase. *)
Definition isEvent (s : Subject) (t : EventType) (p : option Phase) (e : Event) : bool :=
  match ev_subject e, s with
  | SUITE, SUITE | BENCHMARK, BENCHMARK | CLIENT_BENCHMARK, CLIENT_BENCHMARK
  | CLIENT_BENCHMARK_PHASE, CLIENT_BENCHMARK_PHASE => true
  | _, _ => false
  end
  && match ev_type e, t with
     | START, START | END, END => true
     | _, _ => false
     end
  && match ev_phase e, p with
     | None, None | Some VERIFY, Some VERIFY | Some WARMUP, Some WARMUP
     | Some ITERATION, Some ITERATION => true
     | _, _ => false
     end.

Definition countEvents (s : Subject) (t : EventType) (p : option Phase)
    (l : list Event) : nat :=
  length (filter (isEvent s t p) l).

(** The final world is the initial one up to [R]. *)
Definition respects {A} (R : relation World) (m : Async A) : Prop :=
  forall w, R w (m w).2.

(** A computation that never leaves the model's bound. *)
Definition finishes {A} (m : Async A) : Prop :=
  forall w, (m w).1 <> Unfinished.

(** A computation that always returns. *)
Definition returns {A} (m : Async A) : Prop :=
  forall w, exists a, (m w).1 = Returns a.

(** The observation [f] of the world is left as it was. *)
Definition keeps {X} (f : World -> X) : relation World :=
  fun w w' => f w' = f w.

(** Once canceled, canceled for good. *)
Definition stickyCancel : relation World :=
  fun w w' =>
    (canceled (context w) = true -> canceled (context w') = true)
    /\ (sv_canceled (eventCommon (context w)) = true ->
        sv_canceled (eventCommon (context w')) = true).

(** With [cancel()] called during the first suspension: a run that has been
    suspended is canceled. *)
Definition canceledOnceSuspended (w : World) : Prop :=
  0 < suspensions w ->
  canceled (context w) = true /\ sv_canceled (eventCommon (context w)) = true.

Definition suspendedOnce : relation World :=
  fun w w' =>
    suspensions w <= suspensions w'
    /\ (canceledOnceSuspended w -> canceledOnceSuspended w').

(** What the phases of a pairing leave alone: the configuration, the raw
    example, the findings file; and they neither undo a cancellation nor a
    suspension. *)
Definition calm : relation World :=
  fun w w' =>
    config (context w') = config (context w)
    /\ rawExample (context w') = rawExample (context w)
    /\ fileReads w' = fileReads w
    /\ fileOps w' = fileOps w
    /\ findings w' = findings w
    /\ (canceled (context w) = true -> canceled (context w') = true)
    /\ suspensions w <= suspensions w'.

(** A single pass, a loop of passes and the pauses are calm and report
    nothing. *)
Definition quiet : relation World :=
  fun w w' => reported w' = reported w /\ calm w w'.

(** The calls of a single pass in which no step fails. *)
Definition passCalls (env : Env) (BenchmarkClass : BenchmarkConstructor)
    (ClientClass : ClientConstructor) (verify : bool) : list Call :=
  ([NewClient (c_name ClientClass);
    NewBenchmark (bm_name (b_metadata BenchmarkClass));
    Setup]
   ++ (if gcAvailable env then [GlobalGc] else [])
   ++ [PerformanceNow; Run; PerformanceNow]
   ++ (if gcAvailable env then [GlobalGc; ProcessMemoryUsage] else [])
   ++ (if verify then [Verify] else [])
   ++ [Teardown; SetTimeout 0])%list.

(** The world after one suspension. *)
Definition afterSuspend (env : Env) (w : World) : World :=
  set_context (cancel (cancelAt env (suspensions w))) (set_suspensions S w).

(** The [for] loops of the VERIFY and WARMUP phases are one loop, run with
    a different phase tag and [verify] flag. *)
Fixpoint passLoop (env : Env) (BenchmarkClass : BenchmarkConstructor)
    (ClientClass : ClientConstructor) (phase : Phase) (verify : bool)
    (example : option Example) (n : nat) : Async unit :=
  match n with
  | O => ret tt
  | S n' =>
      bind (gets context) (fun ctx =>
        if stopped ctx then ret tt
        else
          bind (awaitCall env
                  (runSingleBenchmarkPass env BenchmarkClass ClientClass example
                     phase verify))
               (fun _ => passLoop env BenchmarkClass ClientClass phase verify
                           example n'))
  end.

(** The convergence predicate in the words of its description: below
    [minSamples] never; else past [maxDurationMs] always; else when the
    relative margin of error is at most the target.  [now] is the clock's
    reading at the test. *)
Definition convergencePredicate (env : Env) (config : Configuration)
    (runStart : Number) (stats : list Number) (now : Number) : bool :=
  if (length stats <? minSamples config)%nat then false
  else if (maxDurationMs config <? now - runStart)%float then true
  else (percentRelativeMarginOfError env stats
          <=? targetRelativeMarginOfError config)%float.

(** The accumulators after one more pass. *)
Definition pushResult (s : Samples) (res : PassResult) : Samples :=
  {| stats := (stats s ++ [duration res])%list;
     heapUsedStats := pushSample (heapUsedStats s) (heapUsed <$> memoryUsage res);
     heapTotalStats := pushSample (heapTotalStats s) (heapTotal <$> memoryUsage res) |}.

(** The events of the ITERATION phase. *)
Definition iterationEvent (e : Event) : Prop :=
  ev_subject e = CLIENT_BENCHMARK_PHASE /\ ev_phase e = Some ITERATION.

(** ** Example runs *)

Definition numberOfNat (n : nat) : Number :=
  PrimFloat.of_uint63 (Uint63.of_Z (Z.of_nat n)).

Definition sumOf (l : list Number) : Number :=
  fold_left PrimFloat.add l 0%float.

(** A statistics library for the example runs: the arithmetic mean, 1.96
    standard errors as the margin of error, the extremes as the range, and
    no sample taken for an outlier. *)
Definition exampleMean (l : list Number) : Number :=
  (sumOf l / numberOfNat (length l))%float.

#[warnings="-inexact-float"]
Definition exampleMoe (l : list Number) : Number :=
  let n := numberOfNat (length l) in
  let squares := sumOf (map (fun x => x * x)%float l) in
  (1.96 * PrimFloat.sqrt ((n * squares - sumOf l * sumOf l) / (n * n))
   / PrimFloat.sqrt n)%float.

Definition exampleRange (l : list Number) : Number * Number :=
  (fold_left (fun a x => if (x <? a)%float then x else a) l infinity,
   fold_left (fun a x => if (a <? x)%float then x else a) l neg_infinity).

(** An environment without [global.gc] in which nobody cancels; the clock
    advances by 600 ms from one reading to the next. *)
Definition exampleEnv : Env :=
  {| gcAvailable := false;
     cancelAt := fun _ => false;
     clockAt := fun k => (600 * numberOfNat k)%float;
     memoryAt := fun k => {| heapUsed := numberOfNat (1000 + k);
                             heapTotal := 4096%float |};
     readFails := fun _ => false;
     writeFails := fun _ => false;
     amean := exampleMean;
     moe := exampleMoe;
     range := exampleRange;
     iqr := fun l => l;
     exponentialString := fun _ => "1e+21";
     arrayPrototypeHas := fun name =>
       bool_decide (name ∈ ["push"; "pop"; "map"; "join"; "concat"]);
     fileAfterError := fun _ file => file |}.

(** The same with [global.gc] defined. *)
Definition exampleEnvGc : Env :=
  {| gcAvailable := true;
     cancelAt := cancelAt exampleEnv;
     clockAt := clockAt exampleEnv;
     memoryAt := memoryAt exampleEnv;
     readFails := readFails exampleEnv;
     writeFails := writeFails exampleEnv;
     amean := exampleMean;
     moe := exampleMoe;
     range := exampleRange;
     iqr := iqr exampleEnv;
     exponentialString := exponentialString exampleEnv;
     arrayPrototypeHas := arrayPrototypeHas exampleEnv;
     fileAfterError := fileAfterError exampleEnv |}.

(** The same as [exampleEnv], but [cancel()] is called right after
    [runSuite] has returned the handle. *)
Definition exampleEnvCanceled : Env :=
  {| gcAvailable := false;
     cancelAt := fun k => Nat.eqb k 0;
     clockAt := clockAt exampleEnv;
     memoryAt := memoryAt exampleEnv;
     readFails := readFails exampleEnv;
     writeFails := writeFails exampleEnv;
     amean := exampleMean;
     moe := exampleMoe;
     range := exampleRange;
     iqr := iqr exampleEnv;
     exponentialString := exponentialString exampleEnv;
     arrayPrototypeHas := arrayPrototypeHas exampleEnv;
     fileAfterError := fileAfterError exampleEnv |}.

Definition exampleRaw : RawExample :=
  Raw "issues" "schema" "query" [Raw "issue" "" "fragment" []].

Definition exampleClient : ClientConstructor :=
  {| c_metadata := {| cm_name := "Example client" |};
     c_name := "ExampleClient";
     c_new := fun _ => None;
     transformRawExample := fun r => Ok (raw_title r) |}.

Definition otherClient : ClientConstructor :=
  {| c_metadata := {| cm_name := "Other client" |};
     c_name := "OtherClient";
     c_new := fun _ => None;
     transformRawExample := fun r => Ok (raw_title r) |}.

(** A client that cannot transform a partial. *)
Definition pickyClient : ClientConstructor :=
  {| c_metadata := {| cm_name := "Picky client" |};
     c_name := "PickyClient";
     c_new := fun _ => None;
     transformRawExample := fun r =>
       match raw_partials r with
       | [] => Err (Thrown "unsupported fragment")
       | _ => Ok (raw_title r)
       end |}.

Definition exampleBenchmark : BenchmarkConstructor :=
  {| b_metadata := {| bm_name := "Example benchmark" |};
     b_new := fun _ => None;
     b_setup := fun _ => Fulfils;
     b_run := fun _ => Fulfils;
     b_verify := fun _ => Fulfils;
     b_teardown := fun _ => Fulfils |}.

(** A benchmark whose [run] rejects in the second pass of the run: with
    [customConfig], the first pass of the ITERATION phase. *)
Definition flakyBenchmark : BenchmarkConstructor :=
  {| b_metadata := {| bm_name := "Flaky benchmark" |};
     b_new := fun _ => None;
     b_setup := fun _ => Fulfils;
     b_run := fun k => if Nat.eqb k 1 then Rejects (Thrown "boom") else Fulfils;
     b_verify := fun _ => Fulfils;
     b_teardown := fun _ => Fulfils |}.

(** A benchmark whose [run] always throws. *)
Definition brokenBenchmark : BenchmarkConstructor :=
  {| b_metadata := {| bm_name := "Broken benchmark" |};
     b_new := fun _ => None;
     b_setup := fun _ => Fulfils;
     b_run := fun _ => ThrowsSync (Thrown "boom");
     b_verify := fun _ => Fulfils;
     b_teardown := fun _ => Fulfils |}.

Definition exampleContext : Context :=
  initialContext [exampleBenchmark] [exampleClient] exampleRaw customConfig.

Definition exampleWorld : World := initialWorld exampleContext NoFile.

(** [exampleWorld] with a failure of the VERIFY phase recorded. *)
Definition failedWorld : World :=
  set_context
    (set_failure (Some {| f_error := Thrown "boom"; f_phase := VERIFY |}))
    exampleWorld.

(** What a list of events shows of each: subject, type, phase, the
    [canceled] flag and the failure. *)
Definition outline (l : list Event)
    : list (Subject * EventType * option Phase * bool * option Failure) :=
  map (fun e => (ev_subject e, ev_type e, ev_phase e,
                 sv_canceled (ev_common e), ev_failure e)) l.

(** The world in which a pairing starts its VERIFY phase, when the client
    could be constructed: after the START event, the memory baseline and
    [new ClientClass()]. *)
Definition pairingStart (env : Env) (BenchmarkClass : BenchmarkConstructor)
    (ClientClass : ClientConstructor) (w : World) : World :=
  let w1 :=
    set_reported
      (fun l => l ++ [pairingEvent (eventCommon (context w)) BenchmarkClass
                        ClientClass CLIENT_BENCHMARK START None None None None])%list
      w in
  let w2 :=
    if gcAvailable env
    then set_heapReads S
           (set_calls (fun l => l ++ [ProcessMemoryUsage])%list
              (set_calls (fun l => l ++ [GlobalGc])%list w1))
    else w1 in
  set_constructions S
    (set_calls (fun l => l ++ [NewClient (c_name ClientClass)])%list w2).

(** The world after [await new Promise(resolve => setTimeout(resolve, ms))]. *)
Definition afterPause (env : Env) (ms : nat) (w : World) : World :=
  afterSuspend env (set_calls (fun l => l ++ [SetTimeout ms])%list w).

(** Where the pairings of a run start.  [clientsLoopStarts env fuel B cs w C w0]:
    the loop over the clients [cs], run for the benchmark [B] from the
    world [w], starts the pairing of [C] in the world [w0]. *)
Inductive clientsLoopStarts (env : Env) (fuel : nat) (B : BenchmarkConstructor)
    : list ClientConstructor -> World -> ClientConstructor -> World -> Prop :=
| starts_first C cs w :
    canceled (context w) = false ->
    clientsLoopStarts env fuel B (C :: cs) w C w
| starts_later C cs w r w1 C' w0 :
    canceled (context w) = false ->
    awaitCall env (runClientBenchmark env fuel B C) w = (Returns r, w1) ->
    clientsLoopStarts env fuel B cs w1 C' w0 ->
    clientsLoopStarts env fuel B (C :: cs) w C' w0.

Definition reportBenchmark (t : EventType) (B : BenchmarkConstructor)
    (w : World) : World :=
  set_reported
    (fun l => l ++ [plainEvent (eventCommon (context w)) BENCHMARK t
                      (Some (b_metadata B))])%list w.

Definition reportSuite (t : EventType) (w : World) : World :=
  set_reported
    (fun l => l ++ [plainEvent (eventCommon (context w)) SUITE t None])%list w.

(** [benchmarksLoopStarts env fuel cs bs w B C w0]: the loop over the
    benchmarks [bs], run from [w], starts the pairing of [B] and [C] in the
    world [w0]. *)
Inductive benchmarksLoopStarts (env : Env) (fuel : nat)
    (cs : list ClientConstructor)
    : list BenchmarkConstructor -> World -> BenchmarkConstructor ->
      ClientConstructor -> World -> Prop :=
| starts_here B bs w C w0 :
    canceled (context w) = false ->
    clientsLoopStarts env fuel B cs (reportBenchmark START B w) C w0 ->
    benchmarksLoopStarts env fuel cs (B :: bs) w B C w0
| starts_after B bs w w1 B' C w0 :
    canceled (context w) = false ->
    clientsLoop env fuel B cs (reportBenchmark START B w) = (Returns tt, w1) ->
    benchmarksLoopStarts env fuel cs bs (reportBenchmark END B w1) B' C w0 ->
    benchmarksLoopStarts env fuel cs (B :: bs) w B' C w0.

(** [runSuite] starts the pairing of [B] and [C] in the world [w0]. *)
Definition suiteStarts (env : Env) (benchmarkClasses : list BenchmarkConstructor)
    (clientClasses : list ClientConstructor) (rawExample : RawExample)
    (config : option Configuration) (fuel : nat) (file : FindingsFile)
    (B : BenchmarkConstructor) (C : ClientConstructor) (w0 : World) : Prop :=
  benchmarksLoopStarts env fuel clientClasses benchmarkClasses
    (reportSuite START
       (initialWorld
          (initialContext benchmarkClasses clientClasses rawExample
             (default customConfig config)) file))
    B C w0.

Definition isDigit (c : ascii) : bool :=
  (48 <=? nat_of_ascii c)%nat && (nat_of_ascii c <=? 57)%nat.

(** A decimal numeral with exactly [f] digits after the point: digits, at
    least one, the point, [f] digits. *)
Definition fixedPoint (f : nat) (l : list ascii) : Prop :=
  exists int frac,
    l = (int ++ "."%char :: frac)%list
    /\ int <> []
    /\ length frac = f
    /\ Forall (fun c => isDigit c = true) (int ++ frac).

(** The same as [exampleEnvGc], but [findings.json] cannot be read. *)
Definition exampleEnvUnreadable : Env :=
  {| gcAvailable := true;
     cancelAt := cancelAt exampleEnv;
     clockAt := clockAt exampleEnv;
     memoryAt := memoryAt exampleEnv;
     readFails := fun _ => true;
     writeFails := writeFails exampleEnv;
     amean := exampleMean;
     moe := exampleMoe;
     range := exampleRange;
     iqr := iqr exampleEnv;
     exponentialString := exponentialString exampleEnv;
     arrayPrototypeHas := arrayPrototypeHas exampleEnv;
     fileAfterError := fileAfterError exampleEnv |}.

(** [cancel()] was called during one of the suspensions [from], ...,
    [from + count - 1]. *)
Definition cancelCalled (env : Env) (from count : nat) : bool :=
  existsb (cancelAt env) (seq from count).

(** From [w] to [w'] the two [canceled] flags were set exactly when
    [cancel()] was called during a suspension in between. *)
Definition cancelTracked (env : Env) : relation World :=
  fun w w' =>
    suspensions w <= suspensions w'
    /\ canceled (context w')
       = canceled (context w)
         || cancelCalled env (suspensions w) (suspensions w' - suspensions w)
    /\ sv_canceled (eventCommon (context w'))
       = sv_canceled (eventCommon (context w))
         || cancelCalled env (suspensions w) (suspensions w' - suspensions w).

Definition collectorCall (c : Call) : bool :=
  match c with
  | GlobalGc | ProcessMemoryUsage => true
  | _ => false
  end.

(** From [w] to [w'] the heap was not read, the collector was not called
    and the findings file was left alone. *)
Definition noCollector : relation World :=
  fun w w' =>
    heapReads w' = heapReads w
    /\ fileReads w' = fileReads w
    /\ fileOps w' = fileOps w
    /\ findings w' = findings w
    /\ (existsb collectorCall (calls w) = false ->
        existsb collectorCall (calls w') = false).

(** How many START and END events of the suite, of benchmarks and of
    pairings a run has reported. *)
Definition started (s : Subject) (w : World) : nat :=
  countEvents s START None (reported w).

Definition ended (s : Subject) (w : World) : nat :=
  countEvents s END None (reported w).

(** From [w] to [w'], only events of phases were reported. *)
Definition phaseEventsOnly : relation World :=
  fun w w' =>
    forall s, s <> CLIENT_BENCHMARK_PHASE ->
      started s w' = started s w /\ ended s w' = ended s w.

(** From [w] to [w'], no event of the suite itself was reported. *)
Definition noSuiteEvent : relation World :=
  fun w w' => started SUITE w' = started SUITE w /\ ended SUITE w' = ended SUITE w.

(** [0] for a computation that returned, [1] for one that threw or is
    unfinished. *)
Definition pending {A} (o : Outcome A) : nat :=
  match o with
  | Returns _ => 0
  | _ => 1
  end.

(** From [w] to [w'], events were only added, after those of [w]. *)
Definition eventsKept : relation World :=
  fun w w' => reported w `prefix_of` reported w'.

(** The error a step ends with, if any. *)
Definition stepError (o : StepOutcome) : option Error :=
  match o with
  | Fulfils => None
  | ThrowsSync e | Rejects e => Some e
  end.

(** The error of the first step that fails in a pass, in the order of the
    steps: the pass is the [k]-th of the run, and [n] clients were
    constructed before it.  [None] when every step succeeds. *)
Definition passError (BenchmarkClass : BenchmarkConstructor)
    (ClientClass : ClientConstructor) (verify : bool) (n k : nat)
    : option Error :=
  match c_new ClientClass n with
  | Some e => Some e
  | None =>
  match b_new BenchmarkClass k with
  | Some e => Some e
  | None =>
  match stepError (b_setup BenchmarkClass k) with
  | Some e => Some e
  | None =>
  match stepError (b_run BenchmarkClass k) with
  | Some e => Some e
  | None =>
  match (if verify then stepError (b_verify BenchmarkClass k) else None) with
  | Some e => Some e
  | None => stepError (b_teardown BenchmarkClass k)
  end end end end end.

(** A client whose constructor throws. *)
Definition brokenClient : ClientConstructor :=
  {| c_metadata := {| cm_name := "Broken client" |};
     c_name := "BrokenClient";
     c_new := fun _ => Some (Thrown "no client");
     transformRawExample := fun r => Ok (raw_title r) |}.

(** From [w] to [w'], calls were only added, after those of [w]. *)
Definition callsKept : relation World :=
  fun w w' => calls w `prefix_of` calls w'.

(** An event of the pairing of [BenchmarkClass] and [ClientClass] that
    carries the suite's values [common]. *)
Definition ofPairing (common : SuiteValues)
    (BenchmarkClass : BenchmarkConstructor) (ClientClass : ClientConstructor)
    (e : Event) : Prop :=
  ev_common e = common
  /\ ev_benchmark e = Some (b_metadata BenchmarkClass)
  /\ ev_client e = Some (c_metadata ClientClass).

(** The number of iterations in the statistics of each END event of the
    ITERATION phase among [l], in order. *)
Definition endIterations (l : list Event) : list (option nat) :=
  map (fun e => iterations <$> ev_stats e)
    (filter (isEvent CLIENT_BENCHMARK_PHASE END (Some ITERATION)) l).

(** What a run is given: the configuration, the raw example, and the
    clients, the benchmarks and the example of the suite's values. *)
Definition inputsOf (ctx : Context)
    : Configuration * RawExample * list ClientMetadata
      * list BenchmarkMetadata * RawExample :=
  (config ctx, rawExample ctx, sv_clients (eventCommon ctx),
   sv_benchmarks (eventCommon ctx), sv_example (eventCommon ctx)).

(** [env] with [cancel()] called at the suspensions that [f] tells. *)
Definition withCancelAt (env : Env) (f : nat -> bool) : Env :=
  {| gcAvailable := gcAvailable env;
     cancelAt := f;
     clockAt := clockAt env;
     memoryAt := memoryAt env;
     readFails := readFails env;
     writeFails := writeFails env;
     amean := amean env;
     moe := moe env;
     range := range env;
     iqr := iqr env;
     exponentialString := exponentialString env;
     arrayPrototypeHas := arrayPrototypeHas env;
     fileAfterError := fileAfterError env |}.



(** The last END event of a phase among [l]. *)
Definition isPhaseEnd (e : Event) : bool :=
  match ev_subject e, ev_type e with
  | CLIENT_BENCHMARK_PHASE, END => true
  | _, _ => false
  end.

Definition lastPhaseEnd (l : list Event) : option Event :=
  last (List.filter isPhaseEnd l).

(** The last END of a phase among the events [l] carries the failure that
    the context of [w] holds. *)
Definition lastFailure (l : list Event) (w : World) : Prop :=
  ev_failure <$> lastPhaseEnd l = Some (failure (context w)).

(** The object the callback of [readFile] adds a record to, when the file
    gives one: the object its text parses to, the empty object for a file
    that is absent or does not parse. *)
Definition parsedObject (file : FindingsFile) : option (gmap string Json) :=
  match file with
  | Findings (JObject members) => Some members
  | Findings _ => None
  | _ => Some ∅
  end.

(** The records under [name] that one more can be added to: those of an
    own array of [members]; none yet for a name that [members] neither has
    nor inherits. *)
Definition recordsUnder (name : string) (members : gmap string Json)
    : option (list Json) :=
  match members !! name with
  | Some (JArray records) => Some records
  | Some _ => None
  | None => if objectPrototypeHas name then None else Some []
  end.

(** What a list of events shows of each: the client it is about. *)
Definition clientsOf (l : list Event) : list (option ClientMetadata) :=
  map ev_client l.

(** ** Reasoning about asynchronous computations *)

Section Frame.

Context (R : relation World) `{!PreOrder R}.

Lemma respects_ret {A} (a : A) : respects R (ret a).
Proof. intros w. reflexivity. Qed.

Lemma respects_throw {A} (e : Error) : respects R (@throw A e).
Proof. intros w. reflexivity. Qed.

Lemma respects_unfinished {A} : respects R (@unfinished A).
Proof. intros w. reflexivity. Qed.

Lemma respects_gets {A} (f : World -> A) : respects R (gets f).
Proof. intros w. reflexivity. Qed.

Lemma respects_bind {A B} (m : Async A) (k : A -> Async B) :
  respects R m -> (forall a, respects R (k a)) -> respects R (bind m k).
Proof.
  intros Hm Hk w. unfold bind. specialize (Hm w).
  destruct (m w) as [[a|e|] w1]; simpl in *; auto.
  etransitivity; [exact Hm | apply Hk].
Qed.

Lemma respects_tryCatch {A} (body : Async A) (handler : Error -> Async A) :
  respects R body -> (forall e, respects R (handler e)) ->
  respects R (tryCatch body handler).
Proof.
  intros Hb Hh w. unfold tryCatch. specialize (Hb w).
  destruct (body w) as [[a|e|] w1]; simpl in *; auto.
  etransitivity; [exact Hb | apply Hh].
Qed.

End Frame.

#[export] Instance keeps_preorder {X} (f : World -> X) : PreOrder (keeps f).
Proof.
  split.
  - intros w. reflexivity.
  - intros a b c Hab Hbc. unfold keeps in *. congruence.
Qed.

#[export] Instance stickyCancel_preorder : PreOrder stickyCancel.
Proof.
  split.
  - intros w. split; auto.
  - intros a b c [H1 H2] [H3 H4]. split; auto.
Qed.

#[export] Instance quiet_preorder : PreOrder quiet.
Proof.
  split.
  - intros w. unfold quiet, calm. intuition.
  - intros a b c Hab Hbc. unfold quiet, calm in *.
    intuition (try congruence; try lia).
Qed.

#[export] Instance calm_preorder : PreOrder calm.
Proof.
  split.
  - intros w. unfold calm. intuition.
  - intros a b c Hab Hbc. unfold calm in *.
    intuition (try congruence; try lia).
Qed.

#[export] Instance suspendedOnce_preorder : PreOrder suspendedOnce.
Proof.
  split.
  - intros w. split; auto.
  - intros a b c [H1 H2] [H3 H4]. split; [lia | auto].
Qed.

Lemma respects_modify (R : relation World) (f : World -> World) :
  (forall w, R w (f w)) -> respects R (modify f).
Proof. intros H w. apply H. Qed.

Lemma respects_awaitCall (R : relation World) `{!PreOrder R} env {A} (m : Async A) :
  respects R m -> respects R (suspend env) -> respects R (awaitCall env m).
Proof.
  intros Hm Hs w. unfold awaitCall. specialize (Hm w).
  destruct (m w) as [[a|e|] w1]; simpl in *; auto.
  - etransitivity; [exact Hm |].
    apply (respects_bind R (suspend env) (fun _ => ret a)); auto.
    intros _. apply respects_ret; auto.
  - etransitivity; [exact Hm |].
    apply (respects_bind R (suspend env) (fun _ => @throw A e)); auto.
    intros _. apply respects_throw; auto.
Qed.

Create HintDb frame discriminated.

(** [R w (f w)] for a field update [f], by computation. *)
Ltac frame_update :=
  let w := fresh "w" in
  intros w;
  cbv [keeps stickyCancel quiet calm suspendedOnce canceledOnceSuspended];
  simpl;
  repeat match goal with
         | |- context [if ?b then _ else _] => destruct b; simpl
         end;
  solve [ reflexivity | tauto | intuition (auto; lia) ].

#[export] Hint Extern 1 (PreOrder _) => typeclasses eauto : frame.

(** [respects R m] by the structure of [m]. *)
Ltac frame :=
  repeat first
    [ assumption
    | solve [ auto with frame nocore ]
    | apply respects_ret; solve [ typeclasses eauto ]
    | apply respects_throw; solve [ typeclasses eauto ]
    | apply respects_unfinished; solve [ typeclasses eauto ]
    | apply respects_gets; solve [ typeclasses eauto ]
    | apply respects_bind; [ solve [ typeclasses eauto ] | | intros ? ]
    | apply respects_tryCatch; [ solve [ typeclasses eauto ] | | intros ? ]
    | apply respects_awaitCall; [ solve [ typeclasses eauto ] | | ]
    | apply respects_modify; frame_update
    | match goal with
      | |- respects _ (match ?x with _ => _ end) => destruct x
      end
    | progress cbv [suspend await call reporter consoleLog performanceNow
                    readMemoryUsage pause newClient newBenchmark setFailure] ].

(** ** The single-pass runner *)

Section PassFacts.

Variable env : Env.
Variable BenchmarkClass : BenchmarkConstructor.
Variable ClientClass : ClientConstructor.
Variable example : option Example.
Variable phase : Phase.
Variable verify : bool.

Local Abbreviation pass :=
  (runSingleBenchmarkPass env BenchmarkClass ClientClass example phase verify).

Lemma suspend_suspendedOnce :
  cancelAt env 0 = true -> respects suspendedOnce (suspend env).
Proof.
  intros H0 w. unfold suspendedOnce, canceledOnceSuspended. simpl.
  split; [lia |]. intros Hw _.
  destruct (suspensions w) eqn:Hs.
  - rewrite H0. auto.
  - destruct Hw as [-> ->]; [lia |]. destruct (cancelAt env (S n)); auto.
Qed.

Lemma pass_quiet : respects quiet pass.
Proof. unfold runSingleBenchmarkPass. frame. Qed.

Lemma pass_stickyCancel : respects stickyCancel pass.
Proof. unfold runSingleBenchmarkPass. frame. Qed.

Lemma pass_suspendedOnce :
  cancelAt env 0 = true -> respects suspendedOnce pass.
Proof.
  intros H0. pose proof (suspend_suspendedOnce H0).
  unfold runSingleBenchmarkPass, await, pause. frame.
Qed.

(** [pass w], unfolded down to the outcomes of the steps. *)
Ltac unfold_pass :=
  cbv beta iota zeta delta
    [runSingleBenchmarkPass tryCatch bind ret throw gets modify await suspend
     pause newClient newBenchmark performanceNow readMemoryUsage call
     setFailure consoleLog fst snd].

(** What a pass does, by how it ends: with a result when every step
    succeeded, without one when a step failed; it never throws. *)
Lemma pass_outcome w :
  let k := length (invocations w) in
  invocations (pass w).2 = (invocations w ++ [(phase, verify)])%list
  /\ match (pass w).1 with
     | Returns (Some res) =>
         failure (context (pass w).2) = failure (context w)
         /\ calls (pass w).2
            = (calls w ++ passCalls env BenchmarkClass ClientClass verify)%list
         /\ console (pass w).2 = console w
         /\ duration res
            = (clockAt env (S (clockReads w)) - clockAt env (clockReads w))%float
         /\ memoryUsage res
            = (if gcAvailable env then Some (memoryAt env (heapReads w)) else None)
         /\ c_new ClientClass (constructions w) = None
         /\ b_new BenchmarkClass k = None
         /\ b_setup BenchmarkClass k = Fulfils
         /\ b_run BenchmarkClass k = Fulfils
         /\ (verify = true -> b_verify BenchmarkClass k = Fulfils)
         /\ b_teardown BenchmarkClass k = Fulfils
         /\ clockReads (pass w).2 = S (S (clockReads w))
     | Returns None =>
         exists e,
           failure (context (pass w).2)
           = Some {| f_error := e; f_phase := phase |}
           /\ console (pass w).2 = (console w ++ [LogPassError e])%list
     | _ => False
     end.
Proof.
  unfold passCalls. unfold_pass.
  destruct (c_new ClientClass _) eqn:Hc; unfold_pass.
  { simpl. eauto. }
  destruct (b_new BenchmarkClass _) eqn:Hb; unfold_pass.
  { simpl. eauto. }
  destruct (b_setup BenchmarkClass _) eqn:Hs; unfold_pass;
    [| simpl; eauto ..].
  destruct (gcAvailable env); unfold_pass.
  all: destruct (b_run BenchmarkClass _) eqn:Hr; unfold_pass;
    [| simpl; eauto ..].
  all: destruct verify; unfold_pass.
  all: try (destruct (b_verify BenchmarkClass _) eqn:Hv; unfold_pass;
            [| simpl; eauto ..]).
  all: destruct (b_teardown BenchmarkClass _) eqn:Ht; unfold_pass;
    [| simpl; eauto ..].
  all: simpl; rewrite <- ?app_assoc; simpl; intuition congruence.
Qed.

(** A pass in which every step succeeds has a result, with or without
    [global.gc]. *)
Lemma pass_succeeds w :
  let k := length (invocations w) in
  c_new ClientClass (constructions w) = None ->
  b_new BenchmarkClass k = None ->
  b_setup BenchmarkClass k = Fulfils ->
  b_run BenchmarkClass k = Fulfils ->
  (verify = true -> b_verify BenchmarkClass k = Fulfils) ->
  b_teardown BenchmarkClass k = Fulfils ->
  exists res, (pass w).1 = Returns (Some res).
Proof.
  intros k Hc Hb Hs Hr Hv Ht. subst k. unfold_pass. simpl.
  rewrite Hc. unfold_pass. simpl. rewrite Hb. unfold_pass. simpl.
  rewrite Hs. unfold_pass. simpl.
  destruct (gcAvailable env); unfold_pass; simpl; rewrite Hr; unfold_pass;
    simpl; destruct verify; unfold_pass; simpl; rewrite ?Hv by reflexivity;
    unfold_pass; simpl; rewrite Ht; unfold_pass; simpl; eauto.
Qed.

Lemma pass_returns w : exists r, (pass w).1 = Returns r.
Proof.
  pose proof (pass_outcome w) as [_ H].
  destruct (pass w).1 as [r| |]; [eauto | contradiction ..].
Qed.

End PassFacts.

Lemma suspend_eq env w : suspend env w = (Returns tt, afterSuspend env w).
Proof. reflexivity. Qed.

Lemma awaitCall_returns env {A} (m : Async A) w a :
  (m w).1 = Returns a ->
  awaitCall env m w = (Returns a, afterSuspend env (m w).2).
Proof.
  intros H. unfold awaitCall. destruct (m w) as [o w1]. simpl in *.
  subst o. reflexivity.
Qed.

Lemma awaitCall_throws env {A} (m : Async A) w e :
  (m w).1 = Throws e ->
  awaitCall env m w = (Throws e, afterSuspend env (m w).2).
Proof.
  intros H. unfold awaitCall. destruct (m w) as [o w1]. simpl in *.
  subst o. reflexivity.
Qed.

Lemma afterSuspend_quiet env w : quiet w (afterSuspend env w).
Proof.
  unfold quiet, calm, afterSuspend. simpl.
  destruct (cancelAt env (suspensions w)); intuition lia.
Qed.

Lemma afterSuspend_suspendedOnce env w :
  cancelAt env 0 = true -> suspendedOnce w (afterSuspend env w).
Proof. intros H. apply (suspend_suspendedOnce env H w). Qed.

Lemma afterSuspend_suspended env w : 0 < suspensions (afterSuspend env w).
Proof. simpl. lia. Qed.

(** ** The loops of passes *)

Section LoopFacts.

Variable env : Env.
Variable BenchmarkClass : BenchmarkConstructor.
Variable ClientClass : ClientConstructor.
Variable phase : Phase.
Variable verify : bool.
Variable example : option Example.

Local Abbreviation loop :=
  (passLoop env BenchmarkClass ClientClass phase verify example).
Local Abbreviation pass :=
  (runSingleBenchmarkPass env BenchmarkClass ClientClass example phase verify).

Lemma verifyLoop_passLoop B C ex n w :
  verifyLoop env B C ex n w = passLoop env B C VERIFY true ex n w.
Proof.
  revert w. induction n as [|n IH]; intros w; [reflexivity |].
  simpl. unfold bind. simpl.
  destruct (stopped (context w)); [reflexivity |].
  destruct (awaitCall env _ w) as [[r|e|] w1]; auto.
Qed.

Lemma warmupLoop_passLoop B C ex n w :
  warmupLoop env B C ex n w = passLoop env B C WARMUP false ex n w.
Proof.
  revert w. induction n as [|n IH]; intros w; [reflexivity |].
  simpl. unfold bind. simpl.
  destruct (stopped (context w)); [reflexivity |].
  destruct (awaitCall env _ w) as [[r|e|] w1]; auto.
Qed.

(** A stopped run makes no pass. *)
Lemma passLoop_stopped n w :
  stopped (context w) = true -> loop n w = (Returns tt, w).
Proof.
  intros H. destruct n; [reflexivity |].
  simpl. unfold bind. simpl. rewrite H. reflexivity.
Qed.

Lemma passLoop_step n w :
  stopped (context w) = false ->
  loop (S n) w = loop n (afterSuspend env (pass w).2).
Proof.
  intros H. simpl. unfold bind at 1. simpl. rewrite H.
  destruct (pass_returns env BenchmarkClass ClientClass example phase verify w)
    as [r Hr].
  unfold bind. rewrite (awaitCall_returns env _ w r Hr). reflexivity.
Qed.

(** The loop returns; it made [j] passes, all [n] of them unless the run
    was stopped. *)
Lemma passLoop_spec n : forall w,
  exists w' j,
    loop n w = (Returns tt, w')
    /\ quiet w w'
    /\ j <= n
    /\ invocations w' = (invocations w ++ repeat (phase, verify) j)%list
    /\ (stopped (context w') = false -> j = n)
    /\ (failure (context w') = failure (context w)
        \/ exists e, failure (context w')
                     = Some {| f_error := e; f_phase := phase |}).
Proof.
  induction n as [|n IH]; intros w.
  - exists w, 0. simpl. rewrite app_nil_r. repeat split; auto; reflexivity.
  - destruct (stopped (context w)) eqn:Hst.
    + exists w, 0. rewrite passLoop_stopped by assumption. simpl.
      rewrite app_nil_r. repeat split; auto; try reflexivity; try lia.
      congruence.
    + rewrite passLoop_step by assumption.
      set (w1 := afterSuspend env (pass w).2).
      destruct (IH w1) as (w' & j & E & Hq & Hj & Hinv & Hall & Hf).
      assert (Hq1 : quiet w w1).
      { etransitivity;
          [apply (pass_quiet env BenchmarkClass ClientClass example phase verify w)
          | apply afterSuspend_quiet]. }
      pose proof (pass_outcome env BenchmarkClass ClientClass example phase
                    verify w) as [Hi Ho].
      assert (Hf1 : failure (context w1) = failure (context w)
                    \/ exists e, failure (context w1)
                                 = Some {| f_error := e; f_phase := phase |}).
      { subst w1. simpl.
        destruct (pass w).1 as [[res|]| |]; try contradiction.
        - left. tauto.
        - right. destruct Ho as [e [He _]]. eauto. }
      exists w', (S j). split; [exact E |].
      split; [etransitivity; eassumption |].
      split; [lia |].
      split.
      { rewrite Hinv. subst w1. simpl. rewrite Hi, <- app_assoc. reflexivity. }
      split; [intros H; rewrite (Hall H); reflexivity |].
      destruct Hf as [Hf | Hf]; [| right; exact Hf].
      rewrite Hf. exact Hf1.
Qed.

End LoopFacts.

(** ** The phases of a pairing *)

Lemma countEvents_app s t p l1 l2 :
  countEvents s t p (l1 ++ l2) = countEvents s t p l1 + countEvents s t p l2.
Proof. unfold countEvents. rewrite filter_app, length_app. reflexivity. Qed.

Lemma passLoop_quiet env B C ph v ex n :
  respects quiet (passLoop env B C ph v ex n).
Proof.
  intros w. destruct (passLoop_spec env B C ph v ex n w)
    as (w' & j & E & Hq & _). rewrite E. exact Hq.
Qed.

Lemma passLoop_suspendedOnce env B C ph v ex n :
  cancelAt env 0 = true -> respects suspendedOnce (passLoop env B C ph v ex n).
Proof.
  intros H0. induction n as [|n IH]; intros w; [reflexivity |].
  destruct (stopped (context w)) eqn:Hst.
  - rewrite passLoop_stopped by assumption. reflexivity.
  - rewrite passLoop_step by assumption.
    etransitivity; [| apply IH].
    etransitivity; [apply (pass_suspendedOnce env B C ex ph v H0 w) |].
    apply afterSuspend_suspendedOnce; assumption.
Qed.

Section PhaseFacts.

Variable env : Env.
Variable BenchmarkClass : BenchmarkConstructor.
Variable ClientClass : ClientConstructor.
Variable common : SuiteValues.

Local Abbreviation event := (pairingEvent common BenchmarkClass ClientClass).

(** The phases, unfolded down to the loops of passes. *)
Ltac run :=
  cbv beta iota zeta delta
    [verifyPhase warmupPhase iterationPhase iterationRound isFinalIteration
     bind ret throw gets modify reporter performanceNow readMemoryUsage call
     setFailure pause suspend destructure newClient fst snd];
  simpl.

(** The VERIFY phase always returns, with its START and its END event
    reported; a failed transformation is its failure, and no pass is made
    then. *)
Lemma verifyPhase_spec w :
  exists ex w' d j,
    verifyPhase env BenchmarkClass ClientClass event w = (Returns ex, w')
    /\ reported w'
       = (reported w
          ++ [event CLIENT_BENCHMARK_PHASE START (Some VERIFY) None None None;
              event CLIENT_BENCHMARK_PHASE END (Some VERIFY) (Some d) None
                (failure (context w'))])%list
    /\ invocations w' = (invocations w ++ repeat (VERIFY, true) j)%list
    /\ j <= verifyPasses (config (context w))
    /\ calm w w'
    /\ match transformExample ClientClass (rawExample (context w)) with
       | Err e =>
           ex = None /\ j = 0
           /\ failure (context w') = Some {| f_error := e; f_phase := VERIFY |}
       | Ok x =>
           ex = Some x
           /\ (stopped (context w') = false ->
               j = verifyPasses (config (context w)))
           /\ (failure (context w') = failure (context w)
               \/ exists e, failure (context w')
                            = Some {| f_error := e; f_phase := VERIFY |})
       end.
Proof.
  run. destruct (transformExample ClientClass (rawExample (context w))) as [x|e].
  - run. rewrite verifyLoop_passLoop.
    match goal with
    | |- context [passLoop ?e ?B ?C ?ph ?v ?ex ?n ?w0] =>
        destruct (passLoop_spec e B C ph v ex n w0)
          as (w' & j & E & [Hr Hc] & Hj & Hinv & Hall & Hf)
    end.
    rewrite E. run. do 4 eexists. split; [reflexivity |].
    unfold calm in *. simpl in *.
    rewrite Hr, Hinv, <- app_assoc. simpl.
    repeat split; auto; try tauto; try lia; intuition congruence.
  - run. rewrite verifyLoop_passLoop, passLoop_stopped
      by (unfold stopped; simpl; apply orb_true_r).
    run. exists None. do 2 eexists. exists 0.
    split; [reflexivity |]. unfold calm. simpl.
    rewrite <- app_assoc, app_nil_r. simpl.
    repeat split; auto; lia.
Qed.

(** A stopped run skips the WARMUP phase: no event, no pass. *)
Lemma warmupPhase_skipped ex w :
  stopped (context w) = true ->
  warmupPhase env BenchmarkClass ClientClass event ex w = (Returns tt, w).
Proof.
  intros H. run. unfold stopped in H.
  destruct (canceled (context w)), (failure (context w)); simpl in *;
    try discriminate; reflexivity.
Qed.

(** Otherwise it reports its START and END around a loop of passes. *)
Lemma warmupPhase_spec ex w :
  stopped (context w) = false ->
  exists w' d j,
    warmupPhase env BenchmarkClass ClientClass event ex w = (Returns tt, w')
    /\ reported w'
       = (reported w
          ++ [event CLIENT_BENCHMARK_PHASE START (Some WARMUP) None None None;
              event CLIENT_BENCHMARK_PHASE END (Some WARMUP) (Some d) None
                (failure (context w'))])%list
    /\ invocations w' = (invocations w ++ repeat (WARMUP, false) j)%list
    /\ j <= warmups (config (context w))
    /\ (stopped (context w') = false -> j = warmups (config (context w)))
    /\ calm w w'
    /\ (failure (context w') = None
        \/ exists e, failure (context w')
                     = Some {| f_error := e; f_phase := WARMUP |}).
Proof.
  intros H. run. unfold stopped in H.
  destruct (canceled (context w)) eqn:Hc, (failure (context w)) eqn:Hf;
    simpl in *; try discriminate.
  rewrite warmupLoop_passLoop.
  match goal with
  | |- context [passLoop ?e ?B ?C ?ph ?v ?ex ?n ?w0] =>
      destruct (passLoop_spec e B C ph v ex n w0)
        as (w' & j & E & [Hr Hq] & Hj & Hinv & Hall & Hfail)
  end.
  rewrite E. run. do 3 eexists. split; [reflexivity |].
  unfold calm in *. simpl in *.
  rewrite Hr, Hinv, <- app_assoc, Hf in *. simpl.
  repeat split; auto; try tauto; try lia; intuition congruence.
Qed.

(** [isFinalIteration] computes the convergence predicate at the clock's
    next reading, which it takes only when there are [minSamples] samples. *)
Lemma isFinalIteration_eq cfg runStart samples w :
  isFinalIteration env cfg runStart samples w
  = (Returns (convergencePredicate env cfg runStart samples
                (clockAt env (clockReads w))),
     if (length samples <? minSamples cfg)%nat then w
     else set_clockReads S
            (set_calls (fun l => l ++ [PerformanceNow])%list w)).
Proof.
  unfold convergencePredicate. run.
  destruct (length samples <? minSamples cfg)%nat; [reflexivity |].
  run.
  destruct (maxDurationMs cfg <? clockAt env (clockReads w) - runStart)%float;
    [reflexivity |].
  destruct (percentRelativeMarginOfError env samples
              <=? targetRelativeMarginOfError cfg)%float; reflexivity.
Qed.

(** One round of the iteration loop.  When the pass has a result, the round
    reports START and END and tests for convergence; when the pass has
    none, destructuring it throws after the START event alone. *)
Lemma iterationRound_spec ex hub htb runStart s w :
  let START_ := event CLIENT_BENCHMARK_PHASE START (Some ITERATION) None None None in
  let w1 := set_reported (fun l => l ++ [START_])%list w in
  let p := runSingleBenchmarkPass env BenchmarkClass ClientClass ex ITERATION
             false w1 in
  let round := iterationRound env BenchmarkClass ClientClass event ex hub htb
                 runStart s w in
  invocations round.2 = (invocations w ++ [(ITERATION, false)])%list
  /\ calm w round.2
  /\ match p.1 with
     | Returns (Some res) =>
         let s' := pushResult s res in
         round.1
         = Returns (convergencePredicate env (config (context w)) runStart
                      (stats s') (clockAt env (2 + clockReads w)), s')
         /\ reported round.2
            = (reported w
               ++ [START_;
                   event CLIENT_BENCHMARK_PHASE END (Some ITERATION)
                     (Some (duration res))
                     (Some (statsSummary env (stats s') (heapUsedStats s')
                              (heapTotalStats s') hub htb))
                     (failure (context w))])%list
         /\ failure (context round.2) = failure (context w)
     | Returns None =>
         (exists msg, round.1 = Throws (TypeError msg))
         /\ reported round.2 = (reported w ++ [START_])%list
         /\ exists e, failure (context round.2)
                      = Some {| f_error := e; f_phase := ITERATION |}
     | _ => False
     end.
Proof.
  intros START_ w1 p round.
  pose proof (pass_outcome env BenchmarkClass ClientClass ex ITERATION false w1)
    as [Hi Ho].
  pose proof (pass_quiet env BenchmarkClass ClientClass ex ITERATION false w1)
    as [Hr Hq].
  fold p in Hi, Ho, Hr, Hq.
  assert (Hround : round
    = match p.1 with
      | Returns (Some res) =>
          let s' := pushResult s res in
          let w2 := afterSuspend env p.2 in
          let w3 := set_reported (fun l => l ++
                      [event CLIENT_BENCHMARK_PHASE END (Some ITERATION)
                         (Some (duration res))
                         (Some (statsSummary env (stats s') (heapUsedStats s')
                                  (heapTotalStats s') hub htb))
                         (failure (context w2))])%list w2 in
          match isFinalIteration env (config (context w2)) runStart (stats s') w3
          with
          | (Returns final, w4) => (Returns (final, s'), w4)
          | (Throws e, w4) => (Throws e, w4)
          | (Unfinished, w4) => (Unfinished, w4)
          end
      | Returns None =>
          (Throws (TypeError "Cannot destructure property 'duration' of undefined"),
           afterSuspend env p.2)
      | Throws e => (Throws e, afterSuspend env p.2)
      | Unfinished => (Unfinished, p.2)
      end).
  { subst round. unfold iterationRound.
    unfold bind at 1. unfold reporter at 1, modify at 1. fold START_. fold w1.
    unfold bind at 1. unfold awaitCall. fold p.
    destruct p as [[[res|]|e|] wp]; reflexivity. }
  rewrite Hround. clear Hround.
  destruct p as [[[res|]| |] wp]; simpl in *; try contradiction.
  - rewrite isFinalIteration_eq.
    destruct Ho as (Hf & _ & _ & _ & _ & _ & _ & _ & _ & _ & _ & Hclock).
    unfold calm in *. simpl in *.
    destruct Hq as (Hcfg & Hraw & Hfr & Hfo & Hfi & Hcan & Hsus).
    rewrite Hcfg, Hclock.
    destruct (length (stats s ++ [duration res])
                <? minSamples (config (context w)))%nat;
      simpl; rewrite ?Hr, ?Hi, ?Hcfg, ?Hf; simpl;
      rewrite <- ?app_assoc; simpl;
      repeat split; auto; try lia;
      destruct (cancelAt env (suspensions wp)); auto.
  - destruct Ho as (e & He & _). unfold calm in *. simpl in *.
    destruct Hq as (Hcfg & Hraw & Hfr & Hfo & Hfi & Hcan & Hsus).
    rewrite Hr, Hi.
    repeat split; eauto; try lia;
      destruct (cancelAt env (suspensions wp)); auto.
Qed.

Lemma iterationLoop_step ex hub htb runStart fuel s w :
  iterationLoop env BenchmarkClass ClientClass event (S fuel) ex hub htb
    runStart s w
  = if stopped (context w) then (Returns s, w)
    else
      match iterationRound env BenchmarkClass ClientClass event ex hub htb
              runStart s w with
      | (Returns r, w1) =>
          if r.1 then (Returns r.2, w1)
          else iterationLoop env BenchmarkClass ClientClass event fuel ex hub
                 htb runStart r.2 w1
      | (Throws e, w1) => (Throws e, w1)
      | (Unfinished, w1) => (Unfinished, w1)
      end.
Proof.
  simpl. unfold bind at 1. simpl.
  destruct (stopped (context w)); [reflexivity |].
  unfold bind. destruct (iterationRound _ _ _ _ _ _ _ _ _ _) as [[r|e|] w1];
    try reflexivity.
  destruct r.1; reflexivity.
Qed.

(** The iteration loop after at most [fuel] rounds: [j] passes were made,
    each after a START event; each was followed by an END event, but for the
    last one when the loop threw. *)
Lemma iterationLoop_spec ex hub htb runStart fuel : forall s w,
  let r := iterationLoop env BenchmarkClass ClientClass event fuel ex hub htb
             runStart s w in
  exists evs j,
    reported r.2 = (reported w ++ evs)%list
    /\ invocations r.2 = (invocations w ++ repeat (ITERATION, false) j)%list
    /\ calm w r.2
    /\ j <= fuel
    /\ countEvents CLIENT_BENCHMARK_PHASE START (Some ITERATION) evs = j
    /\ Forall iterationEvent evs
    /\ match r.1 with
       | Returns s' =>
           countEvents CLIENT_BENCHMARK_PHASE END (Some ITERATION) evs = j
           /\ length (stats s') = length (stats s) + j
           /\ failure (context r.2) = failure (context w)
       | Throws e =>
           (exists msg, e = TypeError msg)
           /\ S (countEvents CLIENT_BENCHMARK_PHASE END (Some ITERATION) evs) = j
           /\ exists e', failure (context r.2)
                         = Some {| f_error := e'; f_phase := ITERATION |}
       | Unfinished =>
           countEvents CLIENT_BENCHMARK_PHASE END (Some ITERATION) evs = j
           /\ j = fuel
       end.
Proof.
  induction fuel as [|fuel IH]; intros s w r.
  - exists [], 0. subst r. simpl. rewrite !app_nil_r.
    repeat split; auto; reflexivity.
  - subst r. rewrite iterationLoop_step.
    destruct (stopped (context w)) eqn:Hst.
    + exists [], 0. simpl. rewrite !app_nil_r.
      repeat split; auto; try reflexivity; lia.
    + pose proof (iterationRound_spec ex hub htb runStart s w)
        as (Hinv & Hcalm & Hout).
      simpl in Hout.
      destruct (iterationRound env BenchmarkClass ClientClass event ex hub htb
                  runStart s w) as [o w1]. simpl in *.
      destruct (runSingleBenchmarkPass env BenchmarkClass ClientClass ex
                  ITERATION false _).1 as [[res|]| |]; try contradiction.
      * destruct Hout as (-> & Hrep & Hf). simpl.
        destruct (convergencePredicate _ _ _ _ _).
        -- eexists _, 1. simpl. split; [exact Hrep |].
           split; [exact Hinv |]. split; [exact Hcalm |].
           rewrite length_app. simpl.
           repeat split; auto; try lia.
           repeat constructor.
        -- specialize (IH (pushResult s res) w1).
           simpl in IH. destruct IH as (evs & j & Hr' & Hi' & Hc' & Hj & Hs & Hall & Ho).
           eexists _, (S j). rewrite Hr', Hrep, <- app_assoc.
           split; [reflexivity |].
           split; [rewrite Hi', Hinv, <- app_assoc; reflexivity |].
           split; [etransitivity; eassumption |].
           split; [lia |].
           split; [rewrite countEvents_app, Hs; reflexivity |].
           split; [apply Forall_app; split; [repeat constructor | exact Hall] |].
           destruct (iterationLoop _ _ _ _ _ _ _ _ _ _ _).1 as [s'| e |].
           ++ destruct Ho as (He & Hl & Hf'). rewrite countEvents_app, He.
              rewrite Hl, length_app, Hf', Hf. simpl. repeat split; auto; lia.
           ++ destruct Ho as (Hm & He & Hf'). rewrite countEvents_app, <- He.
              repeat split; auto.
           ++ destruct Ho as (He & ->). rewrite countEvents_app, He.
              repeat split; auto.
      * destruct Hout as ((msg & ->) & Hrep & Hf). simpl.
        eexists _, 1. split; [exact Hrep |].
        split; [exact Hinv |]. split; [exact Hcalm |]. split; [lia |].
        split; [reflexivity |]. split; [repeat constructor |].
        repeat split; eauto.
Qed.

(** The ITERATION phase reads the clock, then runs the loop unless the run
    is stopped. *)
Lemma iterationPhase_eq fuel ex hub htb w :
  let w0 := set_clockReads S
              (set_calls (fun l => l ++ [PerformanceNow])%list w) in
  iterationPhase env BenchmarkClass ClientClass event fuel ex hub htb w
  = if stopped (context w) then (Returns noSamples, w0)
    else iterationLoop env BenchmarkClass ClientClass event fuel ex hub htb
           (clockAt env (clockReads w)) noSamples w0.
Proof.
  run. unfold stopped.
  destruct (canceled (context w)), (failure (context w)); reflexivity.
Qed.

End PhaseFacts.

(** ** The persistence hook *)

(** [saveData] returns; it touches the console and the findings file, and
    nothing else. *)
Lemma saveData_spec env name stat w :
  exists w',
    saveData env name stat w = (Returns tt, w')
    /\ context w' = context w
    /\ reported w' = reported w
    /\ calls w' = calls w
    /\ invocations w' = invocations w
    /\ suspensions w' = suspensions w.
Proof.
  unfold saveData.
  destruct (gcAvailable env); simpl; [| eauto 10].
  cbv beta iota zeta delta [bind gets modify consoleLog]. simpl.
  destruct (readFileCallback env name stat _ _); simpl; [eauto 10 .. |].
  destruct (writeFails env (fileReads w)); simpl; eauto 10.
Qed.

(** ** The single pass *)

(** C5.  A successful single pass has made these calls, in this order: a new
    client, a new benchmark, [setup], the clock, [run], the clock, [verify]
    when the flag is set, [teardown], the zero-delay timeout (and the
    collector before the first reading of the clock and after the second,
    when it is there).  The duration is the difference of the two readings
    around [run].  The result holds a memory usage exactly when [global.gc]
    is defined, and a pass whose steps all succeed has a result either
    way. *)
Theorem C5_single_pass_lifecycle env BenchmarkClass ClientClass example phase verify w :
  let pass := runSingleBenchmarkPass env BenchmarkClass ClientClass example
                phase verify w in
  let k := length (invocations w) in
  (forall res,
     pass.1 = Returns (Some res) ->
     calls pass.2
     = (calls w ++ passCalls env BenchmarkClass ClientClass verify)%list
     /\ duration res
        = (clockAt env (S (clockReads w)) - clockAt env (clockReads w))%float
     /\ memoryUsage res
        = (if gcAvailable env then Some (memoryAt env (heapReads w)) else None)
     /\ failure (context pass.2) = failure (context w))
  /\ (c_new ClientClass (constructions w) = None ->
      b_new BenchmarkClass k = None ->
      b_setup BenchmarkClass k = Fulfils ->
      b_run BenchmarkClass k = Fulfils ->
      (verify = true -> b_verify BenchmarkClass k = Fulfils) ->
      b_teardown BenchmarkClass k = Fulfils ->
      exists res, pass.1 = Returns (Some res)).
Proof.
  intros pass k. split.
  - intros res Hres.
    pose proof (pass_outcome env BenchmarkClass ClientClass example phase
                  verify w) as [_ H].
    fold pass in H. rewrite Hres in H. tauto.
  - apply pass_succeeds.
Qed.

Lemma C5_single_pass_lifecycle_witness :
  let pass := runSingleBenchmarkPass exampleEnvGc exampleBenchmark exampleClient
                None VERIFY true exampleWorld in
  (exists res,
     pass.1 = Returns (Some res)
     /\ calls pass.2
        = [NewClient "ExampleClient"; NewBenchmark "Example benchmark"; Setup;
           GlobalGc; PerformanceNow; Run; PerformanceNow; GlobalGc;
           ProcessMemoryUsage; Verify; Teardown; SetTimeout 0]
     /\ duration res = 600%float
     /\ memoryUsage res
        = Some {| heapUsed := 1000%float; heapTotal := 4096%float |}).
Proof.
  intros pass. subst pass.
  destruct (C5_single_pass_lifecycle exampleEnvGc exampleBenchmark exampleClient
              None VERIFY true exampleWorld) as [H1 H2].
  destruct H2 as [res Hres]; try reflexivity.
  exists res. split; [exact Hres |].
  destruct (H1 res Hres) as (Hc & Hd & Hm & _).
  rewrite Hc, Hd, Hm. vm_compute. auto.
Defined.

(** ** Convergence *)

(** C3.  [isFinalIteration] returns the convergence predicate taken at the
    clock's next reading: not below [minSamples]; else always past
    [maxDurationMs]; else exactly when the relative margin of error is at
    most the target.  Every round of the iteration loop whose pass has a
    result ends with this test.  So a round that leaves at least
    [minSamples] samples past [maxDurationMs] is the last one, whatever the
    margin of error and however many rounds were still allowed. *)
Theorem C3_convergence_predicate env BenchmarkClass ClientClass common
    example heapUsedBase heapTotalBase runStart s w res :
  let event := pairingEvent common BenchmarkClass ClientClass in
  let START_ := event CLIENT_BENCHMARK_PHASE START (Some ITERATION) None None None in
  let cfg := config (context w) in
  let now := clockAt env (2 + clockReads w) in
  let s' := pushResult s res in
  (forall runStart samples w0,
     (isFinalIteration env cfg runStart samples w0).1
     = Returns
         (if (length samples <? minSamples cfg)%nat then false
          else if (maxDurationMs cfg
                     <? clockAt env (clockReads w0) - runStart)%float then true
          else (percentRelativeMarginOfError env samples
                  <=? targetRelativeMarginOfError cfg)%float))
  /\ ((runSingleBenchmarkPass env BenchmarkClass ClientClass example ITERATION
         false (set_reported (fun l => l ++ [START_])%list w)).1
      = Returns (Some res) ->
      (iterationRound env BenchmarkClass ClientClass event example heapUsedBase
         heapTotalBase runStart s w).1
      = Returns (convergencePredicate env cfg runStart (stats s') now, s')
      /\ (stopped (context w) = false ->
          minSamples cfg <= length (stats s') ->
          (maxDurationMs cfg <? now - runStart)%float = true ->
          forall fuel,
            (iterationLoop env BenchmarkClass ClientClass event (S fuel) example
               heapUsedBase heapTotalBase runStart s w).1
            = Returns s')).
Proof.
  cbv zeta. split.
  - intros runStart0 samples w0. rewrite isFinalIteration_eq. reflexivity.
  - intros Hpass.
    pose proof (iterationRound_spec env BenchmarkClass ClientClass common
                  example heapUsedBase heapTotalBase runStart s w)
      as (_ & _ & Hout).
    cbv zeta in Hout. rewrite Hpass in Hout.
    destruct Hout as (Hround & _). split; [exact Hround |].
    intros Hst Hmin Hmax fuel. rewrite iterationLoop_step, Hst.
    destruct (iterationRound env BenchmarkClass ClientClass _ example
                heapUsedBase heapTotalBase runStart s w) as [o w1].
    simpl in Hround. subst o. simpl.
    unfold convergencePredicate.
    apply Nat.ltb_ge in Hmin. simpl in Hmin, Hmax |- *.
    rewrite Hmin, Hmax. reflexivity.
Qed.

Lemma C3_convergence_predicate_witness :
  let event := pairingEvent (eventCommon exampleContext) exampleBenchmark
                 exampleClient in
  let s := {| stats := [1%float]; heapUsedStats := []; heapTotalStats := [] |} in
  (percentRelativeMarginOfError exampleEnv [1%float; 600%float] <=? 15)%float
  = false
  /\ (iterationLoop exampleEnv exampleBenchmark exampleClient event 1 None None
        None 0%float s exampleWorld).1
     = Returns {| stats := [1%float; 600%float]; heapUsedStats := [];
                  heapTotalStats := [] |}.
Proof.
  cbv zeta. split; [vm_compute; reflexivity |].
  destruct (C3_convergence_predicate exampleEnv exampleBenchmark exampleClient
              (eventCommon exampleContext) None None None 0%float
              {| stats := [1%float]; heapUsedStats := []; heapTotalStats := [] |}
              exampleWorld {| duration := 600%float; memoryUsage := None |})
    as [_ H].
  destruct H as [_ H]; [vm_compute; reflexivity |].
  apply (H eq_refl); [simpl; lia | vm_compute; reflexivity].
Defined.

(** ** The WARMUP phase *)

(** C4.  Reached by a run that is failed or canceled, the WARMUP phase makes
    no pass (and reports nothing).  Otherwise, when the run is neither
    failed nor canceled at its end, it has made exactly [warmups] passes,
    each for the WARMUP phase with [verify] not set. *)
Theorem C4_warmup_passes env BenchmarkClass ClientClass common example w :
  let event := pairingEvent common BenchmarkClass ClientClass in
  let phase := warmupPhase env BenchmarkClass ClientClass event example w in
  (stopped (context w) = true -> phase = (Returns tt, w))
  /\ (stopped (context w) = false ->
      stopped (context phase.2) = false ->
      phase.1 = Returns tt
      /\ invocations phase.2
         = (invocations w
            ++ repeat (WARMUP, false) (warmups (config (context w))))%list).
Proof.
  cbv zeta. split.
  - apply warmupPhase_skipped.
  - intros Hw Hend.
    destruct (warmupPhase_spec env BenchmarkClass ClientClass common example w Hw)
      as (w' & d & j & E & _ & Hinv & _ & Hall & _).
    rewrite E in *. simpl in *. rewrite (Hall Hend) in Hinv. auto.
Qed.

Lemma C4_warmup_passes_witness :
  let event := pairingEvent (eventCommon exampleContext) exampleBenchmark
                 exampleClient in
  let w := initialWorld
             (initialContext [exampleBenchmark] [exampleClient] exampleRaw
                DEFAULT_CONFIG) NoFile in
  let failed :=
    set_context
      (set_failure (Some {| f_error := Thrown "boom"; f_phase := VERIFY |})) w in
  warmupPhase exampleEnv exampleBenchmark exampleClient event None failed
  = (Returns tt, failed)
  /\ invocations
       (warmupPhase exampleEnv exampleBenchmark exampleClient event None w).2
     = repeat (WARMUP, false) 10.
Proof.
  cbv zeta. split.
  - apply C4_warmup_passes. reflexivity.
  - apply C4_warmup_passes; vm_compute; reflexivity.
Defined.

(** ** One pairing *)

(** A pairing, unfolded down to its phases and the persistence hook. *)
Ltac run_pairing :=
  cbv beta iota zeta delta
    [runClientBenchmark bind ret throw gets modify reporter performanceNow
     readMemoryUsage call setFailure pause suspend newClient fst snd];
  simpl.

Lemma pause_eq env ms w : pause env ms w = (Returns tt, afterPause env ms w).
Proof. reflexivity. Qed.

Lemma afterPause_stopped env ms w :
  stopped (context w) = true -> stopped (context (afterPause env ms w)) = true.
Proof.
  unfold stopped. simpl. intros H.
  destruct (cancelAt env (suspensions w)); [reflexivity | exact H].
Qed.

(** A pairing that cannot construct its client throws, with the START
    event alone reported. *)
Lemma pairing_no_client env fuel BenchmarkClass ClientClass w e :
  c_new ClientClass (constructions w) = Some e ->
  runClientBenchmark env fuel BenchmarkClass ClientClass w
  = (Throws e, pairingStart env BenchmarkClass ClientClass w).
Proof.
  intros Hc. unfold pairingStart.
  destruct (gcAvailable env) eqn:Hgc; run_pairing; rewrite Hgc; run_pairing;
    rewrite Hc; run_pairing; rewrite <- ?app_assoc; reflexivity.
Qed.

(** A pairing that is stopped when its VERIFY phase is over, or during the
    pause that follows, skips the other phases: it returns, with its END
    event reported and the failure cleared. *)
Lemma pairing_short env fuel BenchmarkClass ClientClass w example wv :
  let event := pairingEvent (eventCommon (context w)) BenchmarkClass ClientClass in
  c_new ClientClass (constructions w) = None ->
  verifyPhase env BenchmarkClass ClientClass event
    (pairingStart env BenchmarkClass ClientClass w) = (Returns example, wv) ->
  stopped (context (afterPause env 50 wv)) = true ->
  exists st w',
    runClientBenchmark env fuel BenchmarkClass ClientClass w = (Returns st, w')
    /\ reported w'
       = (reported wv
          ++ [event CLIENT_BENCHMARK END None None (Some st)
                (failure (context wv))])%list
    /\ invocations w' = invocations wv
    /\ failure (context w') = None
    /\ stickyCancel (afterPause env 50 wv) w'
    /\ suspensions wv < suspensions w'.
Proof.
  intros event Hc Hv Hst. subst event. unfold pairingStart in Hv.
  pose proof (afterPause_stopped env 50 _ Hst) as Hst2.
  destruct (gcAvailable env) eqn:Hgc; run_pairing; rewrite Hgc; run_pairing;
    rewrite Hc; run_pairing; simpl in Hv; rewrite <- ?app_assoc; simpl;
    rewrite Hv; run_pairing.
  all: rewrite warmupPhase_skipped by exact Hst; run_pairing.
  all: rewrite iterationPhase_eq; cbv zeta.
  all: match goal with
       | |- context [stopped ?c] =>
           replace (stopped c) with true by (symmetry; exact Hst2)
       end.
  all: run_pairing.
  all: match goal with
       | |- context [saveData ?e ?n ?x ?w0] =>
           destruct (saveData_spec e n x w0)
             as (w' & E & Hctx & Hrep & _ & Hinv & Hsus)
       end.
  all: rewrite E; simpl; do 2 eexists; split; [reflexivity |].
  all: unfold stickyCancel; rewrite Hctx, Hrep, Hinv, Hsus; simpl.
  all: repeat split; try lia;
    repeat match goal with
           | |- context [if ?b then _ else _] => destruct b
           end; auto.
Qed.

Lemma pairingStart_spec env BenchmarkClass ClientClass w :
  let w0 := pairingStart env BenchmarkClass ClientClass w in
  context w0 = context w
  /\ reported w0
     = (reported w
        ++ [pairingEvent (eventCommon (context w)) BenchmarkClass ClientClass
              CLIENT_BENCHMARK START None None None None])%list
  /\ invocations w0 = invocations w
  /\ suspensions w0 = suspensions w.
Proof. unfold pairingStart. destruct (gcAvailable env); simpl; auto. Qed.

(** C7.  When the client fails to transform the raw example (the example
    itself or one of its partials), the pairing still returns.  It reports
    its START, the START and the END of the VERIFY phase and its END, both
    END events carrying the error tagged with VERIFY; no single pass is
    made, in any phase. *)
Theorem C7_transformation_failure env fuel BenchmarkClass ClientClass w e :
  let event := pairingEvent (eventCommon (context w)) BenchmarkClass ClientClass in
  let f := Some {| f_error := e; f_phase := VERIFY |} in
  c_new ClientClass (constructions w) = None ->
  transformExample ClientClass (rawExample (context w)) = Err e ->
  exists st d w',
    runClientBenchmark env fuel BenchmarkClass ClientClass w = (Returns st, w')
    /\ reported w'
       = (reported w
          ++ [event CLIENT_BENCHMARK START None None None None;
              event CLIENT_BENCHMARK_PHASE START (Some VERIFY) None None None;
              event CLIENT_BENCHMARK_PHASE END (Some VERIFY) (Some d) None f;
              event CLIENT_BENCHMARK END None None (Some st) f])%list
    /\ invocations w' = invocations w.
Proof.
  intros event f Hc Ht.
  pose proof (pairingStart_spec env BenchmarkClass ClientClass w)
    as (Hctx & Hrep0 & Hinv0 & _).
  destruct (verifyPhase_spec env BenchmarkClass ClientClass
              (eventCommon (context w))
              (pairingStart env BenchmarkClass ClientClass w))
    as (ex & wv & d & j & E & Hrep & Hinv & _ & _ & Hcase).
  rewrite Hctx, Ht in Hcase. destruct Hcase as (-> & -> & Hf).
  destruct (pairing_short env fuel BenchmarkClass ClientClass w None wv Hc E)
    as (st & w' & Hrun & Hrep' & Hinv' & _).
  { apply afterPause_stopped. unfold stopped. rewrite Hf. apply orb_true_r. }
  exists st, d, w'. split; [exact Hrun |].
  rewrite Hrep', Hrep, Hrep0, Hinv', Hinv, Hinv0, Hf.
  simpl. rewrite app_nil_r, <- !app_assoc. auto.
Qed.

Lemma C7_transformation_failure_witness :
  let r := runClientBenchmark exampleEnv 5 exampleBenchmark pickyClient
             exampleWorld in
  let f := Some {| f_error := Thrown "unsupported fragment"; f_phase := VERIFY |} in
  (exists st, r.1 = Returns st)
  /\ outline (reported r.2)
     = [(CLIENT_BENCHMARK, START, None, false, None);
        (CLIENT_BENCHMARK_PHASE, START, Some VERIFY, false, None);
        (CLIENT_BENCHMARK_PHASE, END, Some VERIFY, false, f);
        (CLIENT_BENCHMARK, END, None, false, f)]
  /\ invocations r.2 = [].
Proof.
  cbv zeta.
  destruct (C7_transformation_failure exampleEnv 5 exampleBenchmark pickyClient
              exampleWorld (Thrown "unsupported fragment") eq_refl eq_refl)
    as (st & d & w' & Hrun & Hrep & Hinv).
  rewrite Hrun. simpl. rewrite Hrep, Hinv. simpl. eauto.
Defined.

Lemma warmupPhase_returns env BenchmarkClass ClientClass common example w :
  exists w',
    warmupPhase env BenchmarkClass ClientClass
      (pairingEvent common BenchmarkClass ClientClass) example w
    = (Returns tt, w').
Proof.
  destruct (stopped (context w)) eqn:Hst.
  - exists w. apply warmupPhase_skipped. exact Hst.
  - destruct (warmupPhase_spec env BenchmarkClass ClientClass common example w Hst)
      as (w' & d & j & E & _). eauto.
Qed.

(** A pairing that returns has reported its END event last, with the
    failure the context then held, and has cleared that failure. *)
Lemma pairing_end env fuel BenchmarkClass ClientClass w st w' :
  runClientBenchmark env fuel BenchmarkClass ClientClass w = (Returns st, w') ->
  exists w_end,
    reported w'
    = (reported w_end
       ++ [pairingEvent (eventCommon (context w)) BenchmarkClass ClientClass
             CLIENT_BENCHMARK END None None (Some st)
             (failure (context w_end))])%list
    /\ context w' = set_failure None (context w_end).
Proof.
  intros H.
  destruct (c_new ClientClass (constructions w)) eqn:Hc.
  { rewrite (pairing_no_client _ _ _ _ _ _ Hc) in H. discriminate. }
  revert H.
  destruct (gcAvailable env) eqn:Hgc; run_pairing; rewrite Hgc; run_pairing;
    rewrite Hc; run_pairing.
  all: match goal with
       | |- context [verifyPhase ?e ?B ?C (pairingEvent ?c _ _) ?w0] =>
           destruct (verifyPhase_spec e B C c w0) as (ex & wv & d & j & E & _)
       end; rewrite E; run_pairing.
  all: match goal with
       | |- context [warmupPhase ?e ?B ?C (pairingEvent ?c _ _) ?x ?w0] =>
           destruct (warmupPhase_returns e B C c x w0) as (ww & Ew)
       end; rewrite Ew; run_pairing.
  all: match goal with
       | |- context [iterationPhase ?e ?B ?C ?ev ?f ?x ?hu ?ht ?w0] =>
           destruct (iterationPhase e B C ev f x hu ht w0) as [[s|err|] wi]
       end; run_pairing; try discriminate.
  all: match goal with
       | |- context [saveData ?e ?n ?x ?w0] =>
           destruct (saveData_spec e n x w0) as (wf & Ef & Hctx & Hrep & _)
       end; rewrite Ef; simpl.
  all: intros H; inversion H; subst; clear H.
  all: exists (afterPause env 10 wi); rewrite Hctx, Hrep; simpl;
    split; reflexivity.
Qed.

(** ** The suite *)

Lemma clientsLoop_step env fuel B C cs w :
  clientsLoop env fuel B (C :: cs) w
  = if canceled (context w) then (Returns tt, w)
    else
      match awaitCall env (runClientBenchmark env fuel B C) w with
      | (Returns _, w1) => clientsLoop env fuel B cs w1
      | (Throws e, w1) => (Throws e, w1)
      | (Unfinished, w1) => (Unfinished, w1)
      end.
Proof.
  simpl. unfold bind at 1. simpl.
  destruct (canceled (context w)); reflexivity.
Qed.

Lemma benchmarksLoop_step env fuel B bs cs w :
  benchmarksLoop env fuel (B :: bs) cs w
  = if canceled (context w) then (Returns tt, w)
    else
      match clientsLoop env fuel B cs (reportBenchmark START B w) with
      | (Returns _, w1) =>
          benchmarksLoop env fuel bs cs (reportBenchmark END B w1)
      | (Throws e, w1) => (Throws e, w1)
      | (Unfinished, w1) => (Unfinished, w1)
      end.
Proof.
  simpl. unfold bind at 1. simpl.
  destruct (canceled (context w)); [reflexivity |].
  unfold bind at 1. unfold reporter at 1, modify at 1.
  fold (reportBenchmark START B w). unfold bind at 1.
  destruct (clientsLoop env fuel B cs (reportBenchmark START B w))
    as [[[]|e|] w1]; reflexivity.
Qed.

(** [await runClientBenchmark(...)] that returns: the pairing returned, and
    the suite was suspended once more. *)
Lemma awaitCall_inv env {A} (m : Async A) w a w1 :
  awaitCall env m w = (Returns a, w1) ->
  exists w', m w = (Returns a, w') /\ w1 = afterSuspend env w'.
Proof.
  unfold awaitCall. destruct (m w) as [[a'|e|] w']; simpl; intros H;
    inversion H; subst; eauto.
Qed.

Lemma awaitPairing_failure env fuel B C w r w1 :
  awaitCall env (runClientBenchmark env fuel B C) w = (Returns r, w1) ->
  failure (context w1) = None.
Proof.
  intros H. apply awaitCall_inv in H as (w' & H & ->).
  apply pairing_end in H as (w_end & _ & Hctx). simpl. rewrite Hctx.
  reflexivity.
Qed.

Lemma clientsLoop_failure env fuel B cs : forall w w1,
  clientsLoop env fuel B cs w = (Returns tt, w1) ->
  failure (context w) = None -> failure (context w1) = None.
Proof.
  induction cs as [|C cs IH]; intros w w1 H Hf.
  - inversion H; subst. exact Hf.
  - rewrite clientsLoop_step in H.
    destruct (canceled (context w)); [inversion H; subst; exact Hf |].
    destruct (awaitCall env (runClientBenchmark env fuel B C) w)
      as [[r|e|] w2] eqn:E; try discriminate.
    apply (IH w2 w1 H). eapply awaitPairing_failure; eassumption.
Qed.

Lemma clientsLoopStarts_failure env fuel B cs w C w0 :
  clientsLoopStarts env fuel B cs w C w0 ->
  failure (context w) = None -> failure (context w0) = None.
Proof.
  induction 1 as [| C cs w r w1 C' w0 Hc Hrun Hrest IH]; intros Hf; [exact Hf |].
  apply IH. eapply awaitPairing_failure; eassumption.
Qed.

Lemma benchmarksLoopStarts_failure env fuel cs bs w B C w0 :
  benchmarksLoopStarts env fuel cs bs w B C w0 ->
  failure (context w) = None -> failure (context w0) = None.
Proof.
  induction 1 as [B bs w C w0 Hc Hstart | B bs w w1 B' C w0 Hc Hrun Hrest IH];
    intros Hf.
  - eapply clientsLoopStarts_failure; [eassumption | exact Hf].
  - apply IH. simpl. eapply clientsLoop_failure; [eassumption | exact Hf].
Qed.

Lemma verifyPhase_suspendedOnce env B C event :
  cancelAt env 0 = true -> respects suspendedOnce (verifyPhase env B C event).
Proof.
  intros H0.
  assert (Hloop : forall ex n, respects suspendedOnce (verifyLoop env B C ex n)).
  { intros ex n w. rewrite verifyLoop_passLoop.
    apply passLoop_suspendedOnce. exact H0. }
  unfold verifyPhase.
  repeat first
    [ apply Hloop
    | apply respects_bind; [typeclasses eauto | | intros ?]
    | match goal with
      | |- respects _ (match ?x with _ => _ end) => destruct x
      end
    | frame ].
Qed.

Lemma clientsLoop_canceled env fuel B cs w :
  canceled (context w) = true -> clientsLoop env fuel B cs w = (Returns tt, w).
Proof.
  intros H. destruct cs; [reflexivity |].
  rewrite clientsLoop_step, H. reflexivity.
Qed.

Lemma benchmarksLoop_canceled env fuel bs cs w :
  canceled (context w) = true ->
  benchmarksLoop env fuel bs cs w = (Returns tt, w).
Proof.
  intros H. destruct bs; [reflexivity |].
  rewrite benchmarksLoop_step, H. reflexivity.
Qed.

(** A pairing started before the first suspension of a run that is
    canceled during that suspension: it goes through its VERIFY phase and
    nothing else. *)
Lemma pairing_canceled_at_once env fuel BenchmarkClass ClientClass w :
  let event := pairingEvent (eventCommon (context w)) BenchmarkClass ClientClass in
  cancelAt env 0 = true ->
  suspensions w = 0 ->
  c_new ClientClass (constructions w) = None ->
  exists st w' d f,
    runClientBenchmark env fuel BenchmarkClass ClientClass w = (Returns st, w')
    /\ reported w'
       = (reported w
          ++ [event CLIENT_BENCHMARK START None None None None;
              event CLIENT_BENCHMARK_PHASE START (Some VERIFY) None None None;
              event CLIENT_BENCHMARK_PHASE END (Some VERIFY) (Some d) None f;
              event CLIENT_BENCHMARK END None None (Some st) f])%list
    /\ canceled (context w') = true
    /\ sv_canceled (eventCommon (context w')) = true.
Proof.
  intros event H0 Hs Hc.
  pose proof (pairingStart_spec env BenchmarkClass ClientClass w)
    as (Hctx & Hrep0 & _ & Hsus0).
  destruct (verifyPhase_spec env BenchmarkClass ClientClass
              (eventCommon (context w))
              (pairingStart env BenchmarkClass ClientClass w))
    as (ex & wv & d & j & E & Hrep & _).
  assert (Hinv : canceledOnceSuspended (afterPause env 50 wv)).
  { pose proof (verifyPhase_suspendedOnce env BenchmarkClass ClientClass event
                  H0 (pairingStart env BenchmarkClass ClientClass w)) as [_ Hv].
    fold event in E. rewrite E in Hv. simpl in Hv.
    apply (afterSuspend_suspendedOnce env _ H0).
    intros Hpos. simpl in Hpos. apply Hv; [| exact Hpos].
    intros Hpos'. rewrite Hsus0, Hs in Hpos'. lia. }
  destruct (Hinv (afterSuspend_suspended env _)) as [Hcan Hsv].
  destruct (pairing_short env fuel BenchmarkClass ClientClass w ex wv Hc E)
    as (st & w' & Hrun & Hrep' & _ & _ & [Hst1 Hst2] & _).
  { unfold stopped. rewrite Hcan. reflexivity. }
  exists st, w', d, (failure (context wv)).
  split; [exact Hrun |]. split; [| auto].
  rewrite Hrep', Hrep, Hrep0, <- !app_assoc. reflexivity.
Qed.

(** The suite whose first client can be constructed, canceled right after
    [runSuite] has returned. *)
Lemma cancel_right_after_start_constructed env BenchmarkClass benchmarkClasses
    ClientClass clientClasses rawExample config fuel file :
  let r := runSuite env (BenchmarkClass :: benchmarkClasses)
             (ClientClass :: clientClasses) rawExample config fuel file in
  let c := Some (c_metadata ClientClass) in
  cancelAt env 0 = true ->
  c_new ClientClass 0 = None ->
  r.1 = Returns true
  /\ countEvents CLIENT_BENCHMARK START None (reported r.2) = 1
  /\ clientsOf (reported r.2) = [None; None; c; c; c; c; None; None]
  /\ exists f,
       outline (reported r.2)
       = [(SUITE, START, None, false, None);
          (BENCHMARK, START, None, false, None);
          (CLIENT_BENCHMARK, START, None, false, None);
          (CLIENT_BENCHMARK_PHASE, START, Some VERIFY, false, None);
          (CLIENT_BENCHMARK_PHASE, END, Some VERIFY, false, f);
          (CLIENT_BENCHMARK, END, None, false, f);
          (BENCHMARK, END, None, true, None);
          (SUITE, END, None, true, None)].
Proof.
  intros r c H0 Hc. subst r c. unfold runSuite.
  set (w0 := initialWorld _ file).
  cbv beta iota zeta delta [_runSuite bind gets reporter modify].
  rewrite benchmarksLoop_step. simpl canceled. cbv iota.
  rewrite clientsLoop_step. simpl canceled. cbv iota.
  match goal with
  | |- context [awaitCall env (runClientBenchmark env fuel ?B ?C) ?w] =>
      destruct (pairing_canceled_at_once env fuel B C w H0 eq_refl Hc)
        as (st & w' & d & f & Hrun & Hrep & Hcan & Hsv);
      rewrite (awaitCall_returns env _ w st) by (rewrite Hrun; reflexivity);
      rewrite Hrun
  end.
  assert (Hcan' : canceled (context (afterSuspend env w')) = true).
  { simpl. rewrite Hcan. destruct (cancelAt env (suspensions w')); reflexivity. }
  assert (Hsv' : sv_canceled (eventCommon (context (afterSuspend env w'))) = true).
  { simpl. rewrite Hsv. destruct (cancelAt env (suspensions w')); reflexivity. }
  simpl snd. rewrite clientsLoop_canceled by exact Hcan'.
  rewrite benchmarksLoop_canceled by exact Hcan'.
  cbv beta iota zeta delta [suspend bind gets modify ret].
  simpl. rewrite Hcan, Hsv, Hrep. simpl.
  unfold countEvents, clientsOf, outline.
  rewrite <- ?app_assoc. simpl.
  repeat match goal with
         | |- context [if ?b then _ else _] => destruct b; simpl
         end; eauto.
Qed.

(** The suite whose first client cannot be constructed. *)
Lemma suite_no_first_client env BenchmarkClass benchmarkClasses ClientClass
    clientClasses rawExample config fuel file e :
  let r := runSuite env (BenchmarkClass :: benchmarkClasses)
             (ClientClass :: clientClasses) rawExample config fuel file in
  c_new ClientClass 0 = Some e ->
  r.1 = Throws e
  /\ outline (reported r.2)
     = [(SUITE, START, None, false, None);
        (BENCHMARK, START, None, false, None);
        (CLIENT_BENCHMARK, START, None, false, None)]
  /\ clientsOf (reported r.2) = [None; None; Some (c_metadata ClientClass)]
  /\ countEvents CLIENT_BENCHMARK START None (reported r.2) = 1.
Proof.
  intros r Hc. subst r. unfold runSuite.
  cbv beta iota zeta delta [_runSuite bind gets reporter modify].
  rewrite benchmarksLoop_step, clientsLoop_step.
  unfold awaitCall. rewrite (pairing_no_client _ _ _ _ _ e) by exact Hc.
  unfold pairingStart, countEvents. simpl.
  destruct (gcAvailable env); simpl; auto.
Qed.

(** C6.  With at least one benchmark and one client, the pairing of the
    first benchmark with the first client has started before [runSuite]
    returns the handle.  When [cancel()] is called right then, exactly one
    CLIENT_BENCHMARK START is reported all the same, that of the first
    client.  When that client can be constructed, its pairing goes through
    its VERIFY phase and ends, no other pairing and no other benchmark is
    started, BENCHMARK END and SUITE END are reported with
    [canceled: true], and the promise resolves with [true].  When its
    constructor throws, the promise rejects with that error after the three
    START events, and no END is reported. *)
Theorem C6_cancel_right_after_start env BenchmarkClass benchmarkClasses
    ClientClass clientClasses rawExample config fuel file :
  let r := runSuite env (BenchmarkClass :: benchmarkClasses)
             (ClientClass :: clientClasses) rawExample config fuel file in
  let c := Some (c_metadata ClientClass) in
  cancelAt env 0 = true ->
  countEvents CLIENT_BENCHMARK START None (reported r.2) = 1
  /\ nth_error (clientsOf (reported r.2)) 2 = Some c
  /\ nth_error (outline (reported r.2)) 2
     = Some (CLIENT_BENCHMARK, START, None, false, None)
  /\ (c_new ClientClass 0 = None ->
      r.1 = Returns true
      /\ clientsOf (reported r.2) = [None; None; c; c; c; c; None; None]
      /\ exists f,
           outline (reported r.2)
           = [(SUITE, START, None, false, None);
              (BENCHMARK, START, None, false, None);
              (CLIENT_BENCHMARK, START, None, false, None);
              (CLIENT_BENCHMARK_PHASE, START, Some VERIFY, false, None);
              (CLIENT_BENCHMARK_PHASE, END, Some VERIFY, false, f);
              (CLIENT_BENCHMARK, END, None, false, f);
              (BENCHMARK, END, None, true, None);
              (SUITE, END, None, true, None)])
  /\ (forall e,
        c_new ClientClass 0 = Some e ->
        r.1 = Throws e
        /\ outline (reported r.2)
           = [(SUITE, START, None, false, None);
              (BENCHMARK, START, None, false, None);
              (CLIENT_BENCHMARK, START, None, false, None)]).
Proof.
  intros r c H0.
  destruct (c_new ClientClass 0) as [e|] eqn:Hc.
  - destruct (suite_no_first_client env BenchmarkClass benchmarkClasses
                ClientClass clientClasses rawExample config fuel file e Hc)
      as (Hr & Ho & Hcl & Hn).
    fold r in Hr, Ho, Hcl, Hn.
    split; [exact Hn |]. split; [rewrite Hcl; reflexivity |].
    split; [rewrite Ho; reflexivity |]. split; [discriminate |].
    intros e' He'. inversion He'; subst. split; assumption.
  - destruct (cancel_right_after_start_constructed env BenchmarkClass
                benchmarkClasses ClientClass clientClasses rawExample config fuel
                file H0 Hc) as (Hr & Hn & Hcl & f & Ho).
    fold r in Hr, Hn, Hcl, Ho. fold c in Hcl.
    split; [exact Hn |]. split; [rewrite Hcl; reflexivity |].
    split; [rewrite Ho; reflexivity |].
    split; [intros _; eauto | discriminate].
Qed.

Lemma C6_cancel_right_after_start_witness :
  let r := runSuite exampleEnvCanceled [exampleBenchmark; flakyBenchmark]
             [exampleClient; otherClient] exampleRaw None 5 NoFile in
  let c := Some (c_metadata exampleClient) in
  r.1 = Returns true
  /\ countEvents CLIENT_BENCHMARK START None (reported r.2) = 1
  /\ clientsOf (reported r.2) = [None; None; c; c; c; c; None; None]
  /\ exists f,
       outline (reported r.2)
       = [(SUITE, START, None, false, None);
          (BENCHMARK, START, None, false, None);
          (CLIENT_BENCHMARK, START, None, false, None);
          (CLIENT_BENCHMARK_PHASE, START, Some VERIFY, false, None);
          (CLIENT_BENCHMARK_PHASE, END, Some VERIFY, false, f);
          (CLIENT_BENCHMARK, END, None, false, f);
          (BENCHMARK, END, None, true, None);
          (SUITE, END, None, true, None)].
Proof.
  cbv zeta.
  destruct (C6_cancel_right_after_start exampleEnvCanceled exampleBenchmark
              [flakyBenchmark] exampleClient [otherClient] exampleRaw None 5
              NoFile eq_refl) as (Hn & _ & _ & Hok & _).
  destruct (Hok eq_refl) as (Hr & Hcl & Ho).
  auto.
Defined.

(** Two clients, [cancel()] called right after [runSuite] has returned: the
    first client's pairing was started all the same. *)
Lemma C6_counterexample :
  let r := runSuite exampleEnvCanceled [exampleBenchmark]
             [exampleClient; otherClient] exampleRaw None 5 NoFile in
  r.1 = Returns true
  /\ countEvents CLIENT_BENCHMARK START None (reported r.2) = 1
  /\ clientsOf (filter (isEvent CLIENT_BENCHMARK START None) (reported r.2))
     = [Some (c_metadata exampleClient)].
Proof. vm_compute. auto. Qed.

(** ** The events of the phases *)




(** ** A failure in the ITERATION phase *)

(** C1.  A benchmark whose [run] fulfils in the VERIFY pass and rejects in
    the first pass of the ITERATION phase: the failure is recorded in the
    context, but the promise of [runSuite] rejects with a [TypeError]; the
    START event of the ITERATION phase is the last one reported, and neither
    the phase, the pairing, the benchmark nor the suite gets its END. *)
Theorem C1_iteration_failure_rejects :
  let r := runSuite exampleEnv [flakyBenchmark] [exampleClient] exampleRaw
             None 5 NoFile in
  r.1 = Throws (TypeError "Cannot destructure property 'duration' of undefined")
  /\ failure (context r.2)
     = Some {| f_error := Thrown "boom"; f_phase := ITERATION |}
  /\ outline (reported r.2)
     = [(SUITE, START, None, false, None);
        (BENCHMARK, START, None, false, None);
        (CLIENT_BENCHMARK, START, None, false, None);
        (CLIENT_BENCHMARK_PHASE, START, Some VERIFY, false, None);
        (CLIENT_BENCHMARK_PHASE, END, Some VERIFY, false, None);
        (CLIENT_BENCHMARK_PHASE, START, Some WARMUP, false, None);
        (CLIENT_BENCHMARK_PHASE, END, Some WARMUP, false, None);
        (CLIENT_BENCHMARK_PHASE, START, Some ITERATION, false, None)]
  /\ invocations r.2 = [(VERIFY, true); (ITERATION, false)].
Proof. vm_compute. repeat split; reflexivity. Qed.

(** ** [toFixed] *)

Lemma string_of_uint_digits u :
  Forall (fun c => isDigit c = true)
    (list_ascii_of_string (NilEmpty.string_of_uint u)).
Proof. induction u; simpl; constructor; auto. Qed.

Lemma decimalDigits_digits n :
  Forall (fun c => isDigit c = true) (decimalDigits n).
Proof.
  unfold decimalDigits, NilZero.string_of_uint.
  destruct (N.to_uint (Z.to_N n)) eqn:E;
    try (rewrite <- E; apply string_of_uint_digits).
  simpl. repeat constructor.
Qed.

Lemma repeat_zero_digits k :
  Forall (fun c => isDigit c = true) (repeat "0"%char k).
Proof.
  induction k as [|k IH]; simpl; constructor; [reflexivity | exact IH].
Qed.

(** With a fraction, [fixedDigits] is a fixed-point numeral. *)
Lemma fixedDigits_fixedPoint n f : f <> 0 -> fixedPoint f (fixedDigits n f).
Proof.
  intros Hf. unfold fixedDigits. destruct f as [|f]; [congruence |].
  set (m := (repeat "0"%char (S f + 1 - length (decimalDigits n))
             ++ decimalDigits n)%list).
  assert (Hlen : S f + 1 <= length m).
  { subst m. rewrite length_app, repeat_length. lia. }
  assert (Hm : Forall (fun c => isDigit c = true) m).
  { subst m. apply Forall_app. split; [| apply decimalDigits_digits].
    apply repeat_zero_digits. }
  exists (firstn (length m - S f) m), (skipn (length m - S f) m).
  split; [reflexivity |]. split.
  - intros H. apply (f_equal (@length ascii)) in H.
    rewrite length_firstn in H. simpl in H. lia.
  - split; [rewrite length_skipn; lia |].
    rewrite firstn_skipn. exact Hm.
Qed.

(** [x.toFixed(3)] of a finite [x] of magnitude below 1e21: an optional
    minus sign and a numeral with exactly three digits after the point. *)
Lemma toFixed_3 big x :
  match Prim2SF x with
  | S754_zero _ => toFixed big x 3 = "0.000"
  | S754_finite s m e =>
      magnitudeAtLeast m e (10 ^ 21) = false ->
      exists l,
        toFixed big x 3 = (if s then "-" else "") ++ string_of_list_ascii l
        /\ fixedPoint 3 l
  | S754_nan => toFixed big x 3 = "NaN"
  | S754_infinity s => toFixed big x 3 = if s then "-Infinity" else "Infinity"
  end.
Proof.
  unfold toFixed. destruct (Prim2SF x) as [s|s| |s m e]; try reflexivity.
  intros H. rewrite H. eexists. split; [reflexivity |].
  apply fixedDigits_fixedPoint. discriminate.
Qed.

(** ** The persistence hook in a pairing *)


(** *** The value of the numeral *)






(** *** The samples that are saved *)






(** *** The callback of [readFile] *)

Lemma hasProperty_object env name members :
  hasProperty env name (JObject members)
  = Ok (match members !! name with
        | Some _ => true
        | None => objectPrototypeHas name
        end).
Proof.
  unfold hasProperty. destruct (members !! name).
  - rewrite bool_decide_true by eauto. reflexivity.
  - rewrite bool_decide_false by (intros [x Hx]; discriminate). reflexivity.
Qed.

Lemma callback_appends env name stat file old records :
  parsedObject file = Some old ->
  recordsUnder name old = Some records ->
  readFileCallback env name stat false file
  = Writes
      (JObject
         (<[name := JArray
                      (records
                       ++ [JString (toFixed (exponentialString env) stat 3)])]>
            old)).
Proof.
  intros Hf Hr. unfold readFileCallback.
  assert (E : match file with Findings data => data | _ => JObject ∅ end
              = JObject old).
  { destruct file as [| |[]]; simpl in Hf; congruence. }
  rewrite E, hasProperty_object. unfold recordsUnder in Hr.
  unfold pushRecord, ownProperty, setProperty.
  destruct (old !! name) as [[]|]; try discriminate.
  - inversion Hr; subst. reflexivity.
  - destruct (objectPrototypeHas name); [discriminate |].
    inversion Hr; subst. reflexivity.
Qed.





(** ** What holds all along a run *)

(** A preorder on worlds that the engine's primitive steps respect is
    respected by the single pass, the phases, the pairing and the suite,
    however they end.  The collector and the heap are only asked for under
    [global.gc]; the events reported are those of the phases, of the
    pairing, of the benchmark and of the suite, each at its level. *)
Section Everywhere.

Variable env : Env.
Context (R : relation World) `{!PreOrder R}.
Variable allowed : Event -> Prop.

Hypothesis allowed_phase : forall common B C t p d st f,
  allowed (pairingEvent common B C CLIENT_BENCHMARK_PHASE t p d st f).
Hypothesis allowed_pairing : forall common B C t p d st f,
  allowed (pairingEvent common B C CLIENT_BENCHMARK t p d st f).
Hypothesis allowed_benchmark : forall common t b,
  allowed (plainEvent common BENCHMARK t b).
Hypothesis allowed_suite : forall common t b,
  allowed (plainEvent common SUITE t b).

Hypothesis R_suspend : respects R (suspend env).
Hypothesis R_call :
  forall c, c <> GlobalGc -> c <> ProcessMemoryUsage -> respects R (call c).
Hypothesis R_gc : gcAvailable env = true -> respects R (call GlobalGc).
Hypothesis R_memoryUsage :
  gcAvailable env = true -> respects R (readMemoryUsage env).
Hypothesis R_reporter : forall e, allowed e -> respects R (reporter e).
Hypothesis R_consoleLog : forall l, respects R (consoleLog l).
Hypothesis R_clock : respects R (modify (set_clockReads S)).
Hypothesis R_constructions : respects R (modify (set_constructions S)).
Hypothesis R_invocations :
  forall x, respects R (modify (set_invocations (fun l => l ++ [x])%list)).
Hypothesis R_setFailure : forall f, respects R (setFailure f).
Hypothesis R_saveData : forall name stat, respects R (saveData env name stat).

Ltac everywhere :=
  repeat first
    [ assumption
    | solve [ auto 1 with nocore ]
    | apply R_suspend | apply R_consoleLog | apply R_clock
    | apply R_constructions | apply R_invocations | apply R_setFailure
    | apply R_saveData
    | apply R_reporter;
      first [ apply allowed_phase | apply allowed_pairing
            | apply allowed_benchmark | apply allowed_suite ]
    | apply R_gc; first [ assumption | reflexivity ]
    | apply R_memoryUsage; first [ assumption | reflexivity ]
    | apply R_call; discriminate
    | apply respects_ret; solve [ typeclasses eauto ]
    | apply respects_throw; solve [ typeclasses eauto ]
    | apply respects_unfinished; solve [ typeclasses eauto ]
    | apply respects_gets; solve [ typeclasses eauto ]
    | apply respects_bind; [ solve [ typeclasses eauto ] | | intros ? ]
    | apply respects_tryCatch; [ solve [ typeclasses eauto ] | | intros ? ]
    | apply respects_awaitCall; [ solve [ typeclasses eauto ] | | ]
    | match goal with
      | |- respects _ (match ?x with _ => _ end) => destruct x eqn:?
      end
    | progress cbv beta iota zeta delta
        [await pause performanceNow newClient newBenchmark destructure] ].

Lemma everywhere_pass B C ex ph v :
  respects R (runSingleBenchmarkPass env B C ex ph v).
Proof. unfold runSingleBenchmarkPass. everywhere. Qed.

Lemma everywhere_verifyLoop B C ex n : respects R (verifyLoop env B C ex n).
Proof.
  pose proof everywhere_pass.
  induction n as [|n IH]; simpl; everywhere.
Qed.

Lemma everywhere_warmupLoop B C ex n : respects R (warmupLoop env B C ex n).
Proof.
  pose proof everywhere_pass.
  induction n as [|n IH]; simpl; everywhere.
Qed.

Lemma everywhere_verifyPhase B C common :
  respects R (verifyPhase env B C (pairingEvent common B C)).
Proof.
  pose proof everywhere_verifyLoop. unfold verifyPhase. everywhere.
Qed.

Lemma everywhere_warmupPhase B C common ex :
  respects R (warmupPhase env B C (pairingEvent common B C) ex).
Proof.
  pose proof everywhere_warmupLoop. unfold warmupPhase. everywhere.
Qed.

Lemma everywhere_isFinalIteration cfg runStart samples :
  respects R (isFinalIteration env cfg runStart samples).
Proof. unfold isFinalIteration. everywhere. Qed.

Lemma everywhere_iterationRound B C common ex hub htb runStart s :
  respects R
    (iterationRound env B C (pairingEvent common B C) ex hub htb runStart s).
Proof.
  pose proof everywhere_pass. pose proof everywhere_isFinalIteration.
  unfold iterationRound. everywhere.
Qed.

Lemma everywhere_iterationLoop B C common fuel ex hub htb runStart : forall s,
  respects R
    (iterationLoop env B C (pairingEvent common B C) fuel ex hub htb runStart s).
Proof.
  pose proof everywhere_iterationRound.
  induction fuel as [|fuel IH]; intros s; simpl; everywhere.
Qed.

Lemma everywhere_iterationPhase B C common fuel ex hub htb :
  respects R
    (iterationPhase env B C (pairingEvent common B C) fuel ex hub htb).
Proof.
  pose proof everywhere_iterationLoop. unfold iterationPhase. everywhere.
Qed.

Lemma everywhere_runClientBenchmark fuel B C :
  respects R (runClientBenchmark env fuel B C).
Proof.
  pose proof everywhere_verifyPhase. pose proof everywhere_warmupPhase.
  pose proof everywhere_iterationPhase.
  unfold runClientBenchmark. everywhere.
Qed.

Lemma everywhere_clientsLoop fuel B cs : respects R (clientsLoop env fuel B cs).
Proof.
  pose proof everywhere_runClientBenchmark.
  induction cs as [|C cs IH]; simpl; everywhere.
Qed.

Lemma everywhere_benchmarksLoop fuel bs cs :
  respects R (benchmarksLoop env fuel bs cs).
Proof.
  pose proof everywhere_clientsLoop.
  induction bs as [|B bs IH]; simpl; everywhere.
Qed.

Lemma everywhere__runSuite fuel bs cs : respects R (_runSuite env fuel bs cs).
Proof.
  pose proof everywhere_benchmarksLoop. unfold _runSuite. everywhere.
Qed.

Lemma everywhere_runSuite bs cs raw cfg fuel file :
  R (initialWorld (initialContext bs cs raw (default customConfig cfg)) file)
    (runSuite env bs cs raw cfg fuel file).2.
Proof.
  pose proof everywhere__runSuite. unfold runSuite.
  match goal with
  | |- R ?w (?m ?w).2 => cut (respects R m); [intros Hm; apply Hm |]
  end.
  everywhere.
Qed.

End Everywhere.

(** *** The value of the promise *)

Lemma cancelCalled_split env a n m :
  cancelCalled env a (n + m)
  = cancelCalled env a n || cancelCalled env (a + n) m.
Proof. unfold cancelCalled. rewrite seq_app, existsb_app. reflexivity. Qed.

#[export] Instance cancelTracked_preorder env : PreOrder (cancelTracked env).
Proof.
  split.
  - intros w. unfold cancelTracked. rewrite Nat.sub_diag. simpl.
    rewrite !orb_false_r. auto.
  - intros a b c (Hab & Hc1 & Hs1) (Hbc & Hc2 & Hs2). unfold cancelTracked.
    split; [lia |].
    replace (suspensions c - suspensions a)
      with ((suspensions b - suspensions a) + (suspensions c - suspensions b))
      by lia.
    rewrite cancelCalled_split.
    replace (suspensions a + (suspensions b - suspensions a))
      with (suspensions b) by lia.
    rewrite Hc2, Hs2, Hc1, Hs1, !orb_assoc. auto.
Qed.

Lemma suspend_cancelTracked env : respects (cancelTracked env) (suspend env).
Proof.
  intros w. unfold cancelTracked. simpl.
  replace (S (suspensions w) - suspensions w) with 1 by lia.
  unfold cancelCalled. simpl. rewrite orb_false_r.
  destruct (cancelAt env (suspensions w));
    rewrite ?orb_true_r, ?orb_false_r; auto.
Qed.

Lemma saveData_cancelTracked env name stat :
  respects (cancelTracked env) (saveData env name stat).
Proof.
  intros w. destruct (saveData_spec env name stat w)
    as (w' & E & Hctx & _ & _ & _ & Hs).
  rewrite E. unfold cancelTracked. simpl. rewrite Hctx, Hs, Nat.sub_diag.
  simpl. rewrite !orb_false_r. auto.
Qed.

(** X1.  The promise of [runSuite], when it resolves, resolves with [true]
    exactly when [cancel()] was called during one of the run's suspensions;
    the [canceled] flag of the suite values is then set as well. *)
Theorem promise_tells_cancellation env benchmarkClasses clientClasses rawExample
    config fuel file b :
  let r := runSuite env benchmarkClasses clientClasses rawExample config fuel
             file in
  r.1 = Returns b ->
  b = cancelCalled env 0 (suspensions r.2)
  /\ sv_canceled (eventCommon (context r.2)) = b.
Proof.
  intros r Hb.
  assert (H : cancelTracked env
                (initialWorld
                   (initialContext benchmarkClasses clientClasses rawExample
                      (default customConfig config)) file) r.2).
  { apply (everywhere_runSuite env (cancelTracked env) (fun _ => True));
      try typeclasses eauto; intros; auto;
      first
        [ apply suspend_cancelTracked
        | apply saveData_cancelTracked
        | let w := fresh "w" in
          intro w; unfold cancelTracked;
          cbv [call reporter consoleLog setFailure readMemoryUsage modify bind
               gets ret];
          simpl; rewrite Nat.sub_diag; simpl; rewrite !orb_false_r; auto ]. }
  destruct H as (_ & Hc & Hs). simpl in Hc, Hs.
  rewrite Nat.sub_0_r in Hc, Hs.
  revert Hb Hc Hs. subst r. unfold runSuite.
  cbv beta iota zeta delta [bind suspend gets modify ret].
  destruct (_runSuite env fuel benchmarkClasses clientClasses _)
    as [[[]|e|] w1]; simpl; intros Hb Hc Hs; try discriminate.
  inversion Hb; subst b. rewrite Hs. auto.
Qed.

Lemma promise_tells_cancellation_witness :
  let r := runSuite exampleEnvCanceled [exampleBenchmark]
             [exampleClient; otherClient] exampleRaw None 5 NoFile in
  true = cancelCalled exampleEnvCanceled 0 (suspensions r.2)
  /\ sv_canceled (eventCommon (context r.2)) = true.
Proof.
  apply (promise_tells_cancellation exampleEnvCanceled [exampleBenchmark]
           [exampleClient; otherClient] exampleRaw None 5 NoFile true).
  vm_compute. reflexivity.
Defined.

(** *** Without the collector *)

#[export] Instance noCollector_preorder : PreOrder noCollector.
Proof.
  split.
  - intros w. unfold noCollector. auto.
  - intros a b c Hab Hbc. unfold noCollector in *.
    intuition congruence.
Qed.

(** X2.  Without [global.gc], a suite never reads the heap, never calls the
    collector and never touches the findings file, however it ends. *)
Theorem no_collector_no_memory_no_file env benchmarkClasses clientClasses
    rawExample config fuel file :
  let r := runSuite env benchmarkClasses clientClasses rawExample config fuel
             file in
  gcAvailable env = false ->
  heapReads r.2 = 0
  /\ fileOps r.2 = []
  /\ findings r.2 = file
  /\ existsb collectorCall (calls r.2) = false.
Proof.
  intros r Hgc.
  assert (H : noCollector
                (initialWorld
                   (initialContext benchmarkClasses clientClasses rawExample
                      (default customConfig config)) file) r.2).
  { apply (everywhere_runSuite env noCollector (fun _ => True));
      try typeclasses eauto; intros; auto;
      try congruence;
      try (let w := fresh "w" in
           intro w; unfold noCollector;
           cbv [suspend call reporter consoleLog setFailure modify bind gets ret];
           simpl; rewrite ?existsb_app; simpl;
           repeat split; auto;
           match goal with
           | c : Call |- _ =>
               destruct c; simpl; rewrite ?orb_false_r; auto; congruence
           end).
    intro w. unfold saveData. rewrite Hgc. simpl. unfold noCollector. auto. }
  destruct H as (Hh & _ & Ho & Hf & Hc). simpl in *.
  repeat split; auto.
Qed.

Lemma no_collector_no_memory_no_file_witness :
  let r := runSuite exampleEnv [exampleBenchmark; flakyBenchmark]
             [exampleClient; otherClient] exampleRaw None 5
             (Unparsable "garbage") in
  heapReads r.2 = 0
  /\ fileOps r.2 = []
  /\ findings r.2 = Unparsable "garbage"
  /\ existsb collectorCall (calls r.2) = false.
Proof.
  apply (no_collector_no_memory_no_file exampleEnv
           [exampleBenchmark; flakyBenchmark] [exampleClient; otherClient]
           exampleRaw None 5 (Unparsable "garbage")).
  reflexivity.
Defined.

(** *** START and END events *)

#[export] Instance phaseEventsOnly_preorder : PreOrder phaseEventsOnly.
Proof.
  split.
  - intros w s Hs. auto.
  - intros a b c Hab Hbc s Hs. destruct (Hab s Hs), (Hbc s Hs).
    split; congruence.
Qed.

#[export] Instance noSuiteEvent_preorder : PreOrder noSuiteEvent.
Proof.
  split.
  - intros w. split; reflexivity.
  - intros a b c [? ?] [? ?]. split; congruence.
Qed.

Lemma countEvents_snoc s t p l e :
  countEvents s t p (l ++ [e])
  = countEvents s t p l + (if isEvent s t p e then 1 else 0).
Proof.
  rewrite countEvents_app. unfold countEvents at 2.
  destruct (isEvent s t p e) eqn:E.
  - rewrite filter_cons_True by (rewrite E; exact I). reflexivity.
  - rewrite filter_cons_False by (rewrite E; intros []). reflexivity.
Qed.

Lemma isEvent_subject s t p e : isEvent s t p e = true -> ev_subject e = s.
Proof.
  unfold isEvent. destruct (ev_subject e), s; simpl; congruence.
Qed.

Lemma reporter_other_subject e s w :
  ev_subject e <> s ->
  started s (reporter e w).2 = started s w
  /\ ended s (reporter e w).2 = ended s w.
Proof.
  intros He. unfold started, ended. simpl. rewrite !countEvents_snoc.
  destruct (isEvent s START None e) eqn:E1;
    [apply isEvent_subject in E1; congruence |].
  destruct (isEvent s END None e) eqn:E2;
    [apply isEvent_subject in E2; congruence |].
  lia.
Qed.

(** A step that reports nothing. *)
Ltac silent_leaf :=
  let w := fresh "w" in
  intro w;
  cbv [suspend call reporter consoleLog setFailure readMemoryUsage modify bind
       gets ret];
  simpl.

Lemma saveData_reported env name stat w :
  reported (saveData env name stat w).2 = reported w.
Proof.
  destruct (saveData_spec env name stat w) as (w' & E & _ & H & _).
  rewrite E. exact H.
Qed.

Lemma phases_report_phase_events env B C common :
  respects phaseEventsOnly (verifyPhase env B C (pairingEvent common B C))
  /\ (forall ex,
        respects phaseEventsOnly
          (warmupPhase env B C (pairingEvent common B C) ex))
  /\ (forall fuel ex hub htb,
        respects phaseEventsOnly
          (iterationPhase env B C (pairingEvent common B C) fuel ex hub htb)).
Proof.
  assert (Hleaf : forall e,
            ev_subject e = CLIENT_BENCHMARK_PHASE ->
            respects phaseEventsOnly (reporter e)).
  { intros e He w s Hs. apply reporter_other_subject. congruence. }
  split; [| split]; intros;
    [ apply (everywhere_verifyPhase env phaseEventsOnly
               (fun e => ev_subject e = CLIENT_BENCHMARK_PHASE))
    | apply (everywhere_warmupPhase env phaseEventsOnly
               (fun e => ev_subject e = CLIENT_BENCHMARK_PHASE))
    | apply (everywhere_iterationPhase env phaseEventsOnly
               (fun e => ev_subject e = CLIENT_BENCHMARK_PHASE)) ];
    try typeclasses eauto; intros; auto;
    try (silent_leaf; intros s0 Hs0; split; reflexivity).
Qed.

(** A pairing reports its START, and its END exactly when it returns; it
    reports no event of a benchmark or of the suite. *)
Lemma pairing_tally env fuel BenchmarkClass ClientClass w :
  let r := runClientBenchmark env fuel BenchmarkClass ClientClass w in
  started CLIENT_BENCHMARK r.2 = S (started CLIENT_BENCHMARK w)
  /\ ended CLIENT_BENCHMARK r.2
     = ended CLIENT_BENCHMARK w
       + match r.1 with Returns _ => 1 | _ => 0 end
  /\ (forall s, s = BENCHMARK \/ s = SUITE ->
      started s r.2 = started s w /\ ended s r.2 = ended s w).
Proof.
  cbv zeta.
  destruct (c_new ClientClass (constructions w)) eqn:Hc.
  { rewrite (pairing_no_client _ _ _ _ _ _ Hc).
    pose proof (pairingStart_spec env BenchmarkClass ClientClass w)
      as (_ & Hrep & _).
    unfold started, ended. cbn [fst snd]. rewrite Hrep, !countEvents_snoc.
    simpl. split; [lia |]. split; [lia |].
    intros s [-> | ->]; rewrite !countEvents_snoc; simpl; lia. }
  destruct (phases_report_phase_events env BenchmarkClass ClientClass
              (eventCommon (context w))) as (Pv & Pw & Pi).
  destruct (gcAvailable env) eqn:Hgc; run_pairing; rewrite Hgc; run_pairing;
    rewrite Hc; run_pairing.
  all: match goal with
       | |- context [verifyPhase ?e ?B ?C (pairingEvent ?c _ _) ?w0] =>
           pose proof (Pv w0) as Hv;
           destruct (verifyPhase_spec e B C c w0) as (ex & wv & d & j & E & _);
           rewrite E in Hv |- *
       end; run_pairing.
  all: match goal with
       | |- context [warmupPhase ?e ?B ?C (pairingEvent ?c _ _) ?x ?w0] =>
           pose proof (Pw x w0) as Hw;
           destruct (warmupPhase_returns e B C c x w0) as (ww & Ew);
           rewrite Ew in Hw |- *
       end; run_pairing.
  all: match goal with
       | |- context [iterationPhase ?e ?B ?C (pairingEvent ?c _ _) ?f ?x ?hu ?ht ?w0] =>
           pose proof (Pi f x hu ht w0) as Hi;
           destruct (iterationPhase e B C (pairingEvent c B C) f x hu ht w0)
             as [[s|err|] wi]
       end; run_pairing.
  all: try match goal with
           | |- context [saveData ?e ?n ?x ?w0] =>
               destruct (saveData_spec e n x w0)
                 as (wf & Ef & _ & Hsave & _);
               rewrite Ef
           end.
  all: unfold phaseEventsOnly, started, ended in *; simpl in *.
  all: rewrite ?Hsave; simpl.
  all: pose proof (Hv CLIENT_BENCHMARK ltac:(discriminate)) as [Hv1 Hv2];
    pose proof (Hw CLIENT_BENCHMARK ltac:(discriminate)) as [Hw1 Hw2];
    pose proof (Hi CLIENT_BENCHMARK ltac:(discriminate)) as [Hi1 Hi2].
  all: rewrite ?countEvents_snoc in *; simpl in *.
  all: split; [lia |]; split; [lia |].
  all: intros s0 [-> | ->];
    match goal with
    | |- context [countEvents ?s _ _ _] =>
        pose proof (Hv s ltac:(discriminate)) as [Hv3 Hv4];
        pose proof (Hw s ltac:(discriminate)) as [Hw3 Hw4];
        pose proof (Hi s ltac:(discriminate)) as [Hi3 Hi4]
    end;
    rewrite ?countEvents_snoc in *; simpl in *; lia.
Qed.

Lemma awaitCall_outcome env {A} (m : Async A) w :
  pending (awaitCall env m w).1 = pending (m w).1
  /\ reported (awaitCall env m w).2 = reported (m w).2.
Proof.
  unfold awaitCall. destruct (m w) as [[a|e|] w1]; simpl; auto.
Qed.

Lemma clientsLoop_tally env fuel B cs : forall w,
  let r := clientsLoop env fuel B cs w in
  exists k,
    started CLIENT_BENCHMARK r.2 = started CLIENT_BENCHMARK w + k
    /\ ended CLIENT_BENCHMARK r.2 + pending r.1 = ended CLIENT_BENCHMARK w + k
    /\ (forall s, s = BENCHMARK \/ s = SUITE ->
        started s r.2 = started s w /\ ended s r.2 = ended s w).
Proof.
  induction cs as [|C cs IH]; intros w; cbv zeta.
  - exists 0. simpl. repeat split; lia.
  - rewrite clientsLoop_step.
    destruct (canceled (context w)).
    { exists 0. simpl. repeat split; lia. }
    pose proof (pairing_tally env fuel B C w) as (Hs & He & Ho).
    pose proof (awaitCall_outcome env (runClientBenchmark env fuel B C) w)
      as (Hp & Hr).
    destruct (awaitCall env (runClientBenchmark env fuel B C) w)
      as [o w1] eqn:Ea. simpl in Hp, Hr.
    assert (Hs1 : forall s, started s w1
                            = started s (runClientBenchmark env fuel B C w).2
                            /\ ended s w1
                               = ended s (runClientBenchmark env fuel B C w).2).
    { intros s. unfold started, ended. rewrite Hr. auto. }
    destruct o as [a|e|]; simpl in Hp.
    + destruct (IH w1) as (k & Hk1 & Hk2 & Hk3). exists (S k).
      destruct (runClientBenchmark env fuel B C w).1; simpl in *;
        try congruence.
      destruct (Hs1 CLIENT_BENCHMARK) as [H1 H2].
      split; [lia |]. split; [lia |].
      intros s Hsub. destruct (Hk3 s Hsub), (Ho s Hsub), (Hs1 s). lia.
    + exists 1. simpl.
      destruct (runClientBenchmark env fuel B C w).1; simpl in *;
        try congruence;
        destruct (Hs1 CLIENT_BENCHMARK) as [H1 H2];
        (split; [lia |]; split; [lia |];
         intros s Hsub; destruct (Ho s Hsub), (Hs1 s); lia).
    + exists 1. simpl.
      destruct (runClientBenchmark env fuel B C w).1; simpl in *;
        try congruence;
        destruct (Hs1 CLIENT_BENCHMARK) as [H1 H2];
        (split; [lia |]; split; [lia |];
         intros s Hsub; destruct (Ho s Hsub), (Hs1 s); lia).
Qed.

Lemma reportBenchmark_tally t B w s :
  started s (reportBenchmark t B w)
  = started s w
    + match s, t with BENCHMARK, START => 1 | _, _ => 0 end
  /\ ended s (reportBenchmark t B w)
     = ended s w + match s, t with BENCHMARK, END => 1 | _, _ => 0 end.
Proof.
  unfold started, ended, reportBenchmark. simpl. rewrite !countEvents_snoc.
  destruct s, t; simpl; auto.
Qed.

Lemma benchmarksLoop_tally env fuel cs bs : forall w,
  let r := benchmarksLoop env fuel bs cs w in
  exists kb kc,
    started BENCHMARK r.2 = started BENCHMARK w + kb
    /\ ended BENCHMARK r.2 + pending r.1 = ended BENCHMARK w + kb
    /\ started CLIENT_BENCHMARK r.2 = started CLIENT_BENCHMARK w + kc
    /\ ended CLIENT_BENCHMARK r.2 + pending r.1
       = ended CLIENT_BENCHMARK w + kc
    /\ started SUITE r.2 = started SUITE w
    /\ ended SUITE r.2 = ended SUITE w.
Proof.
  induction bs as [|B bs IH]; intros w; cbv zeta.
  - exists 0, 0. simpl. repeat split; lia.
  - rewrite benchmarksLoop_step.
    destruct (canceled (context w)).
    { exists 0, 0. simpl. repeat split; lia. }
    set (w0 := reportBenchmark START B w).
    destruct (clientsLoop_tally env fuel B cs w0) as (k & Hk1 & Hk2 & Hk3).
    destruct (Hk3 BENCHMARK (or_introl eq_refl)) as [Hb1 Hb2].
    destruct (Hk3 SUITE (or_intror eq_refl)) as [Hs1 Hs2].
    pose proof (reportBenchmark_tally START B w BENCHMARK) as [Ha1 Ha2].
    pose proof (reportBenchmark_tally START B w CLIENT_BENCHMARK) as [Ha3 Ha4].
    pose proof (reportBenchmark_tally START B w SUITE) as [Ha5 Ha6].
    fold w0 in Ha1, Ha2, Ha3, Ha4, Ha5, Ha6.
    destruct (clientsLoop env fuel B cs w0) as [[[]|e|] w1]; simpl in *.
    + destruct (IH (reportBenchmark END B w1)) as (kb & kc & H1 & H2 & H3 & H4 & H5 & H6).
      pose proof (reportBenchmark_tally END B w1 BENCHMARK) as [Hc1 Hc2].
      pose proof (reportBenchmark_tally END B w1 CLIENT_BENCHMARK) as [Hc3 Hc4].
      pose proof (reportBenchmark_tally END B w1 SUITE) as [Hc5 Hc6].
      simpl in *. exists (S kb), (k + kc). repeat split; lia.
    + exists 1, k. repeat split; lia.
    + exists 1, k. repeat split; lia.
Qed.

#[export] Instance eventsKept_preorder : PreOrder eventsKept.
Proof.
  split.
  - intros w. unfold eventsKept. reflexivity.
  - intros a b c Hab Hbc. unfold eventsKept in *. etransitivity; eauto.
Qed.

Lemma benchmarksLoop_eventsKept env fuel bs cs :
  respects eventsKept (benchmarksLoop env fuel bs cs).
Proof.
  apply (everywhere_benchmarksLoop env eventsKept (fun _ => True));
    try typeclasses eauto; intros; auto;
    try (silent_leaf; unfold eventsKept; simpl;
         first [reflexivity | apply prefix_app_r; reflexivity]).
  intro w. unfold eventsKept. rewrite saveData_reported. reflexivity.
Qed.

(** X3.  The suite's START is the first event and the only one of the suite
    until the promise resolves, which is when its END is reported.  When
    the promise resolves, every benchmark and every pairing that was started
    has ended; when it rejects, or the run is not over, the suite, one
    benchmark and one pairing are left without their END. *)
Theorem started_subjects_end_iff_resolved env benchmarkClasses clientClasses
    rawExample config fuel file :
  let r := runSuite env benchmarkClasses clientClasses rawExample config fuel
             file in
  started SUITE r.2 = 1
  /\ ended SUITE r.2 + pending r.1 = 1
  /\ ended BENCHMARK r.2 + pending r.1 = started BENCHMARK r.2
  /\ ended CLIENT_BENCHMARK r.2 + pending r.1 = started CLIENT_BENCHMARK r.2
  /\ head (reported r.2)
     = Some (plainEvent
               (eventCommon
                  (initialContext benchmarkClasses clientClasses rawExample
                     (default customConfig config)))
               SUITE START None).
Proof.
  cbv zeta. unfold runSuite.
  set (w0 := initialWorld _ file).
  cbv beta iota zeta delta [_runSuite bind gets reporter modify suspend ret].
  match goal with
  | |- context [benchmarksLoop env fuel ?bs ?cs ?w] =>
      destruct (benchmarksLoop_tally env fuel cs bs w)
        as (kb & kc & H1 & H2 & H3 & H4 & H5 & H6);
      pose proof (benchmarksLoop_eventsKept env fuel bs cs w) as Hhead;
      destruct (benchmarksLoop env fuel bs cs w) as [[[]|e|] w1]
  end.
  all: unfold started, ended, eventsKept in *; simpl in *.
  all: rewrite ?countEvents_snoc; simpl.
  all: destruct Hhead as [l Hl]; simpl in Hl.
  all: change (countEvents SUITE START None [_]) with 1 in H5.
  all: change (countEvents SUITE END None [_]) with 0 in H6.
  all: repeat split; try lia.
  all: rewrite Hl; reflexivity.
Qed.

(** *** Failures of a single pass *)

(** [pass w], unfolded down to the outcomes of the steps. *)
Ltac run_pass :=
  cbv beta iota zeta delta
    [runSingleBenchmarkPass tryCatch bind ret throw gets modify await suspend
     pause newClient newBenchmark performanceNow readMemoryUsage call
     setFailure consoleLog fst snd];
  simpl.

(** The pass failed at the step just destructed. *)
Ltac failed_here :=
  simpl; rewrite <- ?app_assoc; simpl;
  split; [reflexivity |]; split; [reflexivity |]; split; [reflexivity |];
  eexists; split; [reflexivity |];
  split; [eexists; simpl; reflexivity |];
  split; [simpl; intuition discriminate | simpl; intuition discriminate].

(** A pass by its first failing step. *)
Lemma pass_by_error env BenchmarkClass ClientClass example phase verify w :
  let k := length (invocations w) in
  let p := runSingleBenchmarkPass env BenchmarkClass ClientClass example phase
             verify w in
  match passError BenchmarkClass ClientClass verify (constructions w) k with
  | None => exists res, p.1 = Returns (Some res)
  | Some e =>
      p.1 = Returns None
      /\ failure (context p.2) = Some {| f_error := e; f_phase := phase |}
      /\ console p.2 = (console w ++ [LogPassError e])%list
      /\ exists l,
           calls p.2 = (calls w ++ l)%list
           /\ l `prefix_of` passCalls env BenchmarkClass ClientClass verify
           /\ (In Teardown l -> stepError (b_teardown BenchmarkClass k) = Some e)
           /\ ~ In (SetTimeout 0) l
  end.
Proof.
  unfold passError, passCalls. run_pass.
  destruct (c_new ClientClass _) eqn:Hc; run_pass; [failed_here |].
  destruct (b_new BenchmarkClass _) eqn:Hb; run_pass; [failed_here |].
  destruct (b_setup BenchmarkClass _) eqn:Hs; run_pass;
    [| destruct (gcAvailable env), verify; failed_here ..].
  destruct (gcAvailable env); run_pass.
  all: destruct (b_run BenchmarkClass _) eqn:Hr; run_pass;
    [| destruct verify; failed_here ..].
  all: destruct verify; run_pass.
  all: try (destruct (b_verify BenchmarkClass _) eqn:Hv; run_pass;
            [| failed_here ..]).
  all: destruct (b_teardown BenchmarkClass _) eqn:Ht; run_pass;
    [simpl; eauto | failed_here ..].
Qed.

(** X4.  A single pass in which a step fails (one of the two constructors,
    [setup], [run], [verify] when it is asked for, [teardown]) does not
    throw: it returns no result, records the error of the first step that
    failed with the phase of the pass, in place of whatever failure the
    context held, and logs that error to the console. *)
Theorem pass_records_first_failure env BenchmarkClass ClientClass example phase
    verify w e :
  let p := runSingleBenchmarkPass env BenchmarkClass ClientClass example phase
             verify w in
  passError BenchmarkClass ClientClass verify (constructions w)
    (length (invocations w)) = Some e ->
  p.1 = Returns None
  /\ failure (context p.2) = Some {| f_error := e; f_phase := phase |}
  /\ console p.2 = (console w ++ [LogPassError e])%list.
Proof.
  intros p He.
  pose proof (pass_by_error env BenchmarkClass ClientClass example phase verify
                w) as H.
  cbv zeta in H. rewrite He in H. fold p in H. tauto.
Qed.

Lemma pass_records_first_failure_witness :
  let p := runSingleBenchmarkPass exampleEnv brokenBenchmark exampleClient None
             WARMUP false failedWorld in
  p.1 = Returns None
  /\ failure (context p.2)
     = Some {| f_error := Thrown "boom"; f_phase := WARMUP |}
  /\ console p.2 = [LogPassError (Thrown "boom")].
Proof.
  apply (pass_records_first_failure exampleEnv brokenBenchmark exampleClient
           None WARMUP false failedWorld (Thrown "boom")).
  reflexivity.
Defined.

(** X5.  A pass without a result stopped at the step that failed: the calls it
    made are the first ones of a successful pass, [teardown] is among them
    only when [teardown] itself is what failed, and the pass did not yield
    the run loop. *)
Theorem failed_pass_skips_later_steps env BenchmarkClass ClientClass example
    phase verify w :
  let p := runSingleBenchmarkPass env BenchmarkClass ClientClass example phase
             verify w in
  p.1 = Returns None ->
  exists l,
    calls p.2 = (calls w ++ l)%list
    /\ l `prefix_of` passCalls env BenchmarkClass ClientClass verify
    /\ (In Teardown l ->
        b_teardown BenchmarkClass (length (invocations w)) <> Fulfils)
    /\ ~ In (SetTimeout 0) l.
Proof.
  intros p Hp.
  pose proof (pass_by_error env BenchmarkClass ClientClass example phase verify
                w) as H.
  cbv zeta in H. fold p in H.
  destruct (passError _ _ _ _ _) as [e|].
  - destruct H as (_ & _ & _ & l & Hc & Hpre & Ht & Hy).
    exists l. repeat split; auto.
    intros Hin Hf. specialize (Ht Hin). rewrite Hf in Ht. discriminate.
  - destruct H as [res Hres]. congruence.
Qed.

Lemma failed_pass_skips_later_steps_witness :
  let p := runSingleBenchmarkPass exampleEnvGc brokenBenchmark exampleClient
             None VERIFY true exampleWorld in
  exists l,
    calls p.2 = ([] ++ l)%list
    /\ l `prefix_of` passCalls exampleEnvGc brokenBenchmark exampleClient true
    /\ (In Teardown l -> b_teardown brokenBenchmark 0 <> Fulfils)
    /\ ~ In (SetTimeout 0) l.
Proof.
  apply (failed_pass_skips_later_steps exampleEnvGc brokenBenchmark
           exampleClient None VERIFY true exampleWorld).
  reflexivity.
Defined.

(** *** How a pairing throws *)

(** X6.  A pairing throws in two ways only.  Either [new ClientClass()], which
    is outside every [try], threw: then the error is the constructor's and
    the pairing's START is all that was reported, no pass was made, and the
    context's failure is as it was.  Or a pass of the ITERATION phase had
    no result: then the error is a [TypeError], and the failure of that
    pass stays in the context. *)
Theorem pairing_throws_in_two_ways env fuel BenchmarkClass ClientClass w e w' :
  runClientBenchmark env fuel BenchmarkClass ClientClass w = (Throws e, w') ->
  (c_new ClientClass (constructions w) = Some e
   /\ reported w'
      = (reported w
         ++ [pairingEvent (eventCommon (context w)) BenchmarkClass ClientClass
               CLIENT_BENCHMARK START None None None None])%list
   /\ invocations w' = invocations w
   /\ context w' = context w)
  \/ (c_new ClientClass (constructions w) = None
      /\ (exists msg, e = TypeError msg)
      /\ exists e', failure (context w')
                    = Some {| f_error := e'; f_phase := ITERATION |}).
Proof.
  intros H.
  destruct (c_new ClientClass (constructions w)) as [e0|] eqn:Hc.
  { rewrite (pairing_no_client _ _ _ _ _ _ Hc) in H.
    inversion H; subst. left.
    destruct (pairingStart_spec env BenchmarkClass ClientClass w)
      as (Hctx & Hrep & Hinv & _).
    auto. }
  right. split; [reflexivity |]. revert H.
  destruct (gcAvailable env) eqn:Hgc; run_pairing; rewrite Hgc; run_pairing;
    rewrite Hc; run_pairing.
  all: match goal with
       | |- context [verifyPhase ?e ?B ?C (pairingEvent ?c _ _) ?w0] =>
           destruct (verifyPhase_spec e B C c w0) as (ex & wv & d & j & E & _)
       end; rewrite E; run_pairing.
  all: match goal with
       | |- context [warmupPhase ?e ?B ?C (pairingEvent ?c _ _) ?x ?w0] =>
           destruct (warmupPhase_returns e B C c x w0) as (ww & Ew)
       end; rewrite Ew; run_pairing.
  all: rewrite iterationPhase_eq; cbv zeta.
  all: match goal with
       | |- context [stopped ?c] => destruct (stopped c)
       end.
  all: try (run_pairing;
            match goal with
            | |- context [saveData ?e ?n ?x ?w0] =>
                destruct (saveData_spec e n x w0) as (wf & Ef & _)
            end; rewrite Ef; simpl; discriminate).
  all: match goal with
       | |- context [iterationLoop ?e ?B ?C (pairingEvent ?c _ _) ?f ?x ?hu ?ht
                       ?rs ?s ?w0] =>
           pose proof (iterationLoop_spec e B C c x hu ht rs f s w0) as Hl;
           cbv zeta in Hl;
           destruct Hl as (evs & j' & _ & _ & _ & _ & _ & _ & Ho);
           destruct (iterationLoop e B C (pairingEvent c B C) f x hu ht rs s w0)
             as [[s'|err|] wi]
       end; run_pairing; simpl in Ho.
  all: try (match goal with
            | |- context [saveData ?e ?n ?x ?w0] =>
                destruct (saveData_spec e n x w0) as (wf & Ef & _)
            end; rewrite Ef; simpl; discriminate).
  all: try discriminate.
  all: intros H; inversion H; subst; tauto.
Qed.

Lemma pairing_throws_in_two_ways_witness :
  let r := runClientBenchmark exampleEnv 5 flakyBenchmark exampleClient
             exampleWorld in
  let e := TypeError "Cannot destructure property 'duration' of undefined" in
  (c_new exampleClient (constructions exampleWorld) = Some e
   /\ reported r.2
      = (reported exampleWorld
         ++ [pairingEvent (eventCommon (context exampleWorld)) flakyBenchmark
               exampleClient CLIENT_BENCHMARK START None None None None])%list
   /\ invocations r.2 = invocations exampleWorld
   /\ context r.2 = context exampleWorld)
  \/ (c_new exampleClient (constructions exampleWorld) = None
      /\ (exists msg, e = TypeError msg)
      /\ exists e', failure (context r.2)
                    = Some {| f_error := e'; f_phase := ITERATION |}).
Proof.
  apply (pairing_throws_in_two_ways exampleEnv 5 flakyBenchmark exampleClient
           exampleWorld).
  vm_compute. reflexivity.
Defined.

(** *** A client that cannot be constructed *)

(** X7.  When the constructor of the first client class throws the first time
    it is called, the promise of [runSuite] rejects with that error, whatever
    the benchmarks and the other clients: three START events were reported
    and no END, no pass was made, no failure is recorded in the context and
    nothing was logged. *)
Theorem first_client_constructor_throws env BenchmarkClass benchmarkClasses
    ClientClass clientClasses rawExample config fuel file e :
  let r := runSuite env (BenchmarkClass :: benchmarkClasses)
             (ClientClass :: clientClasses) rawExample config fuel file in
  c_new ClientClass 0 = Some e ->
  r.1 = Throws e
  /\ outline (reported r.2)
     = [(SUITE, START, None, false, None);
        (BENCHMARK, START, None, false, None);
        (CLIENT_BENCHMARK, START, None, false, None)]
  /\ invocations r.2 = []
  /\ failure (context r.2) = None
  /\ console r.2 = [].
Proof.
  intros r Hc. subst r. unfold runSuite.
  cbv beta iota zeta delta [_runSuite bind gets reporter modify].
  rewrite benchmarksLoop_step, clientsLoop_step.
  unfold awaitCall. rewrite (pairing_no_client _ _ _ _ _ e) by exact Hc.
  unfold pairingStart. simpl.
  destruct (gcAvailable env); simpl; auto.
Qed.

Lemma first_client_constructor_throws_witness :
  let r := runSuite exampleEnvGc [exampleBenchmark; flakyBenchmark]
             [brokenClient; exampleClient] exampleRaw None 5 NoFile in
  r.1 = Throws (Thrown "no client")
  /\ outline (reported r.2)
     = [(SUITE, START, None, false, None);
        (BENCHMARK, START, None, false, None);
        (CLIENT_BENCHMARK, START, None, false, None)]
  /\ invocations r.2 = []
  /\ failure (context r.2) = None
  /\ console r.2 = [].
Proof.
  apply (first_client_constructor_throws exampleEnvGc exampleBenchmark
           [flakyBenchmark] brokenClient [exampleClient] exampleRaw None 5
           NoFile (Thrown "no client")).
  reflexivity.
Defined.

(** *** A suite without clients *)

Lemma benchmarksLoop_no_clients env fuel bs : forall w,
  canceled (context w) = false ->
  benchmarksLoop env fuel bs [] w
  = (Returns tt,
     set_reported
       (fun l =>
          l ++ flat_map
                 (fun B =>
                    [plainEvent (eventCommon (context w)) BENCHMARK START
                       (Some (b_metadata B));
                     plainEvent (eventCommon (context w)) BENCHMARK END
                       (Some (b_metadata B))]) bs)%list w).
Proof.
  induction bs as [|B bs IH]; intros w Hc.
  - destruct w; unfold set_reported, ret; simpl. rewrite app_nil_r. reflexivity.
  - rewrite benchmarksLoop_step, Hc. simpl.
    rewrite IH by exact Hc. simpl. f_equal.
    destruct w; unfold set_reported; simpl. rewrite <- !app_assoc.
    reflexivity.
Qed.

(** X8.  With no client class, [runSuite] reports the suite's START, then for
    each benchmark class its START followed at once by its END, in the order
    of the list, then the suite's END.  It calls nothing, makes no pass, and
    the promise resolves; a [cancel()] called right after [runSuite]
    returned comes after all the events. *)
Theorem suite_without_clients env benchmarkClasses rawExample config fuel file :
  let r := runSuite env benchmarkClasses [] rawExample config fuel file in
  r.1 = Returns (cancelAt env 0)
  /\ map (fun e => (ev_subject e, ev_type e, ev_benchmark e,
                    sv_canceled (ev_common e)))
       (reported r.2)
     = ((SUITE, START, None, false)
        :: flat_map
             (fun B => [(BENCHMARK, START, Some (b_metadata B), false);
                        (BENCHMARK, END, Some (b_metadata B), false)])
             benchmarkClasses
        ++ [(SUITE, END, None, false)])%list
  /\ calls r.2 = []
  /\ invocations r.2 = []
  /\ suspensions r.2 = 1.
Proof.
  cbv zeta. unfold runSuite.
  cbv beta iota zeta delta [_runSuite bind gets reporter modify suspend ret].
  rewrite benchmarksLoop_no_clients by reflexivity. simpl.
  split; [destruct (cancelAt env 0); reflexivity |].
  split; [| auto].
  rewrite map_app. simpl. f_equal. f_equal.
  match goal with
  | |- context [plainEvent ?c BENCHMARK START _] =>
      assert (Hc : sv_canceled c = false) by reflexivity; revert Hc;
      generalize c
  end.
  intros common Hc.
  induction benchmarkClasses as [|B bs IH]; simpl; [reflexivity |].
  rewrite Hc, IH. reflexivity.
Qed.

(** *** The samples of the ITERATION phase *)

Lemma convergencePredicate_minSamples env cfg runStart samples now :
  convergencePredicate env cfg runStart samples now = true ->
  minSamples cfg <= length samples.
Proof.
  unfold convergencePredicate.
  destruct (length samples <? minSamples cfg)%nat eqn:E; [discriminate |].
  intros _. apply Nat.ltb_ge in E. exact E.
Qed.

Lemma iterationLoop_minSamples env B C common ex hub htb runStart fuel :
  forall s w s' w',
    iterationLoop env B C (pairingEvent common B C) fuel ex hub htb runStart s w
    = (Returns s', w') ->
    stopped (context w') = false ->
    minSamples (config (context w)) <= length (stats s').
Proof.
  induction fuel as [|fuel IH]; intros s w s' w' H Hst; [discriminate |].
  rewrite iterationLoop_step in H.
  destruct (stopped (context w)) eqn:Hw.
  { inversion H; subst. congruence. }
  pose proof (iterationRound_spec env B C common ex hub htb runStart s w)
    as (_ & Hcalm & Hout).
  cbv zeta in Hout.
  destruct (iterationRound env B C (pairingEvent common B C) ex hub htb
              runStart s w) as [[r|e|] w1]; try discriminate.
  simpl in *.
  destruct (runSingleBenchmarkPass env B C ex ITERATION false _).1
    as [[res|]| |]; try contradiction.
  - destruct Hout as (Hr & _). inversion Hr; subst; clear Hr. simpl in H.
    destruct (convergencePredicate _ _ _ _ _) eqn:Hp.
    + inversion H; subst.
      apply convergencePredicate_minSamples in Hp. exact Hp.
    + destruct Hcalm as (Hcfg & _). rewrite <- Hcfg.
      eapply IH; eassumption.
  - destruct Hout as ((msg & Hm) & _). discriminate.
Qed.

(** X9.  When the ITERATION phase returns and the run is then neither canceled
    nor failed, it has taken at least [minSamples] samples, one from each of
    its passes: the phase never converges on fewer, whatever the clock and
    the margin of error. *)
Theorem iteration_phase_takes_min_samples env BenchmarkClass ClientClass common
    fuel example heapUsedBase heapTotalBase w s w' :
  iterationPhase env BenchmarkClass ClientClass
    (pairingEvent common BenchmarkClass ClientClass) fuel example heapUsedBase
    heapTotalBase w = (Returns s, w') ->
  stopped (context w') = false ->
  minSamples (config (context w)) <= length (stats s)
  /\ invocations w'
     = (invocations w ++ repeat (ITERATION, false) (length (stats s)))%list.
Proof.
  rewrite iterationPhase_eq. cbv zeta.
  destruct (stopped (context w)) eqn:Hw.
  { intros H Hst. inversion H; subst. simpl in Hst. congruence. }
  intros H Hst. split.
  - apply (iterationLoop_minSamples _ _ _ _ _ _ _ _ _ _ _ _ _ H Hst).
  - match type of H with
    | iterationLoop ?e ?B ?C _ ?f ?x ?hu ?ht ?rs ?s0 ?w0 = _ =>
        pose proof (iterationLoop_spec e B C common x hu ht rs f s0 w0) as Hl
    end.
    cbv zeta in Hl. rewrite H in Hl.
    destruct Hl as (evs & j & _ & Hinv & _ & _ & _ & _ & _ & Hlen & _).
    simpl in *. subst j. exact Hinv.
Qed.

Lemma iteration_phase_takes_min_samples_witness :
  let r := iterationPhase exampleEnv exampleBenchmark exampleClient
             (pairingEvent (eventCommon exampleContext) exampleBenchmark
                exampleClient) 5 None None None exampleWorld in
  let s := match r.1 with Returns s => s | _ => noSamples end in
  minSamples (config (context exampleWorld)) <= length (stats s)
  /\ invocations r.2
     = (invocations exampleWorld
        ++ repeat (ITERATION, false) (length (stats s)))%list.
Proof.
  apply (iteration_phase_takes_min_samples exampleEnv exampleBenchmark
           exampleClient (eventCommon exampleContext) 5 None None None
           exampleWorld).
  - vm_compute. reflexivity.
  - vm_compute. reflexivity.
Defined.

(** *** The transformation of the raw example *)

Lemma mapTry_Ok {A B} (f : A -> Try B) l ys :
  mapTry f l = Ok ys <-> Forall2 (fun x y => f x = Ok y) l ys.
Proof.
  revert ys. induction l as [|x l IH]; intros ys; simpl.
  - split.
    + intros H. inversion H. constructor.
    + intros H. inversion H. reflexivity.
  - destruct (f x) as [y|e] eqn:Ex.
    + destruct (mapTry f l) as [zs|e].
      * split.
        -- intros H. inversion H; subst. constructor; [exact Ex |].
           apply IH. reflexivity.
        -- intros H. inversion H as [|? y' ? zs' Hy Hzs]; subst.
           apply IH in Hzs. congruence.
      * split; [discriminate |].
        intros H. inversion H as [|? y' ? zs' Hy Hzs]; subst.
        apply IH in Hzs. discriminate.
    + split; [discriminate |].
      intros H. inversion H; subst. congruence.
Qed.

Lemma mapTry_Err {A B} (f : A -> Try B) l e :
  mapTry f l = Err e
  <-> exists l1 x l2,
        l = (l1 ++ x :: l2)%list
        /\ Forall (fun x' => exists y, f x' = Ok y) l1
        /\ f x = Err e.
Proof.
  induction l as [|x l IH]; simpl.
  - split; [discriminate |].
    intros (l1 & x & l2 & H & _). destruct l1; discriminate.
  - destruct (f x) as [y|e'] eqn:Ex.
    + destruct (mapTry f l) as [zs|e''].
      * split; [discriminate |].
        intros (l1 & x' & l2 & H & Hall & Hx).
        destruct l1 as [|a l1]; simpl in H; inversion H; subst;
          [congruence |].
        inversion Hall; subst.
        assert (Ok zs = Err e :> Try (list B)); [| discriminate].
        apply IH. eauto 6.
      * split.
        -- intros H. inversion H; subst.
           destruct (proj1 IH eq_refl) as (l1 & x' & l2 & -> & Hall & Hx).
           exists (x :: l1), x', l2. repeat split; eauto.
        -- intros (l1 & x' & l2 & H & Hall & Hx).
           destruct l1 as [|a l1]; simpl in H; inversion H; subst;
             [congruence |].
           inversion Hall; subst. apply IH. eauto 6.
    + split.
      * intros H. inversion H; subst. exists [], x, l. repeat split; auto.
      * intros (l1 & x' & l2 & H & Hall & Hx).
        destruct l1 as [|a l1]; simpl in H; inversion H; subst;
          [congruence |].
        inversion Hall as [|? ? [y Hy] ?]; subst. congruence.
Qed.

(** X10.  The example a pairing works on.  The transformation succeeds exactly
    when the client transforms the raw example and each of its partials,
    taken with the schema of the raw example; the result keeps the title of
    the raw example and has one partial for each raw one, in order.  It
    fails with the error of the first of these that the client refuses: the
    raw example itself, else the first partial in order.  Partials of
    partials are not looked at. *)
Theorem transformExample_spec ClientClass raw :
  (forall example,
     transformExample ClientClass raw = Ok example
     <-> transformRawExample ClientClass raw = Ok (ex_root example)
         /\ ex_title example = raw_title raw
         /\ Forall2
              (fun p x =>
                 transformRawExample ClientClass
                   (with_schema p (raw_schema raw)) = Ok x)
              (raw_partials raw) (ex_partials example))
  /\ (forall e,
        transformExample ClientClass raw = Err e
        <-> transformRawExample ClientClass raw = Err e
            \/ ((exists root, transformRawExample ClientClass raw = Ok root)
                /\ exists l1 p l2,
                     raw_partials raw = (l1 ++ p :: l2)%list
                     /\ Forall
                          (fun q =>
                             exists x,
                               transformRawExample ClientClass
                                 (with_schema q (raw_schema raw)) = Ok x)
                          l1
                     /\ transformRawExample ClientClass
                          (with_schema p (raw_schema raw)) = Err e)).
Proof.
  unfold transformExample. split.
  - intros [root title partials]. simpl.
    destruct (transformRawExample ClientClass raw) as [r|e] eqn:Er.
    + destruct (mapTry _ (raw_partials raw)) as [ps|e] eqn:Em.
      * apply mapTry_Ok in Em. split.
        -- intros H. inversion H; subst. auto.
        -- intros (Hr & Ht & Hp). inversion Hr; subst.
           apply mapTry_Ok in Em, Hp. do 2 f_equal. congruence.
      * split; [discriminate |].
        intros (_ & _ & Hp). apply mapTry_Ok in Hp. congruence.
    + split; [discriminate | intros (H & _); discriminate].
  - intros e.
    destruct (transformRawExample ClientClass raw) as [r|e'] eqn:Er.
    + destruct (mapTry _ (raw_partials raw)) as [ps|e'] eqn:Em.
      * split; [discriminate |].
        intros [H | (_ & H)]; [discriminate |].
        apply mapTry_Err in H. congruence.
      * split.
        -- intros H. inversion H; subst. right. split; [eauto |].
           apply mapTry_Err. exact Em.
        -- intros [H | (_ & H)]; [discriminate |].
           apply mapTry_Err in H. congruence.
    + split.
      * intros H. inversion H; subst. auto.
      * intros [H | ((root & H) & _)]; congruence.
Qed.

(** *** The memory baseline *)

#[export] Instance callsKept_preorder : PreOrder callsKept.
Proof.
  split.
  - intros w. unfold callsKept. reflexivity.
  - intros a b c Hab Hbc. unfold callsKept in *. etransitivity; eauto.
Qed.

Lemma phases_callsKept env B C common :
  respects callsKept (verifyPhase env B C (pairingEvent common B C))
  /\ (forall ex,
        respects callsKept (warmupPhase env B C (pairingEvent common B C) ex))
  /\ (forall fuel ex hub htb,
        respects callsKept
          (iterationPhase env B C (pairingEvent common B C) fuel ex hub htb)).
Proof.
  split; [| split]; intros;
    [ apply (everywhere_verifyPhase env callsKept (fun _ => True))
    | apply (everywhere_warmupPhase env callsKept (fun _ => True))
    | apply (everywhere_iterationPhase env callsKept (fun _ => True)) ];
    try typeclasses eauto; intros; auto;
    try (silent_leaf; unfold callsKept; simpl;
         first [ reflexivity
               | apply prefix_app_r; reflexivity
               | rewrite <- app_assoc; apply prefix_app_r; reflexivity ]).
Qed.

(** X11.  With [global.gc], a pairing calls the collector and reads the heap
    before it constructs its client, and the statistics it returns carry
    that reading as [heapUsedBase] and [heapTotalBase]; without it, both are
    left undefined. *)
Theorem final_stats_carry_the_baseline env fuel BenchmarkClass ClientClass w st
    w' :
  runClientBenchmark env fuel BenchmarkClass ClientClass w = (Returns st, w') ->
  let base :=
    if gcAvailable env then Some (memoryAt env (heapReads w)) else None in
  hs_heapUsedBase (st_memoryUsage st) = heapUsed <$> base
  /\ hs_heapTotalBase (st_memoryUsage st) = heapTotal <$> base
  /\ (calls w
      ++ (if gcAvailable env then [GlobalGc; ProcessMemoryUsage] else [])
      ++ [NewClient (c_name ClientClass)])%list `prefix_of` calls w'.
Proof.
  intros H.
  destruct (c_new ClientClass (constructions w)) eqn:Hc.
  { rewrite (pairing_no_client _ _ _ _ _ _ Hc) in H. discriminate. }
  revert H.
  destruct (gcAvailable env) eqn:Hgc; run_pairing; rewrite Hgc; run_pairing;
    rewrite Hc; run_pairing.
  all: match goal with
       | |- context [verifyPhase ?e ?B ?C (pairingEvent ?c _ _) ?w0] =>
           pose proof (proj1 (phases_callsKept e B C c) w0) as Kv;
           destruct (verifyPhase_spec e B C c w0) as (ex & wv & d & j & E & _)
       end; rewrite E in *; run_pairing.
  all: match goal with
       | |- context [warmupPhase ?e ?B ?C (pairingEvent ?c _ _) ?x ?w0] =>
           pose proof (proj1 (proj2 (phases_callsKept e B C c)) x w0) as Kw;
           destruct (warmupPhase_returns e B C c x w0) as (ww & Ew)
       end; rewrite Ew in *; run_pairing.
  all: match goal with
       | |- context [iterationPhase ?e ?B ?C (pairingEvent ?c _ _) ?f ?x ?hu ?ht
                       ?w0] =>
           pose proof (proj2 (proj2 (phases_callsKept e B C c)) f x hu ht w0)
             as Ki;
           destruct (iterationPhase e B C (pairingEvent c B C) f x hu ht w0)
             as [[s|err|] wi]
       end; run_pairing; try discriminate.
  all: match goal with
       | |- context [saveData ?e ?n ?x ?w0] =>
           destruct (saveData_spec e n x w0) as (wf & Ef & _ & _ & Hcalls & _)
       end; rewrite Ef; simpl.
  all: intros H; inversion H; subst; clear H.
  all: unfold statsSummary; destruct (range env _); simpl.
  all: split; [reflexivity |]; split; [reflexivity |].
  all: rewrite Hcalls; simpl.
  all: unfold callsKept in *; simpl in *.
  all: rewrite <- ?app_assoc in *; simpl in *.
  all: apply prefix_app_r.
  all: apply prefix_app_l in Ki, Kw.
  all: etransitivity; [exact Kv |]; etransitivity; [exact Kw | exact Ki].
Qed.

Lemma final_stats_carry_the_baseline_witness :
  let r := runClientBenchmark exampleEnvGc 5 exampleBenchmark exampleClient
             exampleWorld in
  match r.1 with
  | Returns st =>
      hs_heapUsedBase (st_memoryUsage st) = Some 1000%float
      /\ hs_heapTotalBase (st_memoryUsage st) = Some 4096%float
      /\ [GlobalGc; ProcessMemoryUsage; NewClient "ExampleClient"]
         `prefix_of` calls r.2
  | _ => False
  end.
Proof.
  cbv zeta.
  pose proof (final_stats_carry_the_baseline exampleEnvGc 5 exampleBenchmark
                exampleClient exampleWorld) as H.
  destruct (runClientBenchmark exampleEnvGc 5 exampleBenchmark exampleClient
              exampleWorld) as [[st|e|] w'] eqn:E; simpl.
  - exact (H st w' eq_refl).
  - vm_compute in E. discriminate.
  - vm_compute in E. discriminate.
Defined.

(** *** The passes of a pairing *)

Lemma afterPause_running env ms w :
  stopped (context (afterPause env ms w)) = false ->
  stopped (context w) = false.
Proof.
  intros H. destruct (stopped (context w)) eqn:E; [| reflexivity].
  rewrite (afterPause_stopped env ms w E) in H. discriminate.
Qed.

Lemma iterationLoop_events env B C common ex hub htb runStart fuel :
  forall s w,
    let r := iterationLoop env B C (pairingEvent common B C) fuel ex hub htb
               runStart s w in
    exists evs,
      reported r.2 = (reported w ++ evs)%list
      /\ Forall (ofPairing common B C) evs.
Proof.
  induction fuel as [|fuel IH]; intros s w; cbv zeta.
  { exists []. simpl. rewrite app_nil_r. auto. }
  rewrite iterationLoop_step.
  destruct (stopped (context w)).
  { exists []. simpl. rewrite app_nil_r. auto. }
  pose proof (iterationRound_spec env B C common ex hub htb runStart s w)
    as (_ & _ & Hout).
  cbv zeta in Hout.
  destruct (iterationRound env B C (pairingEvent common B C) ex hub htb
              runStart s w) as [o w1].
  simpl in Hout.
  destruct (runSingleBenchmarkPass env B C ex ITERATION false _).1
    as [[res|]| |]; try contradiction.
  - destruct Hout as (-> & Hrep & _). simpl.
    destruct (convergencePredicate _ _ _ _ _).
    + eexists. split; [exact Hrep |]. repeat constructor.
    + destruct (IH (pushResult s res) w1) as (evs & Hr & Hall).
      eexists. rewrite Hr, Hrep, <- app_assoc. split; [reflexivity |].
      apply Forall_app. split; [repeat constructor | exact Hall].
  - destruct Hout as ((msg & ->) & Hrep & _). simpl.
    eexists. split; [exact Hrep |]. repeat constructor.
Qed.

(** A pairing, however it ends: the events it reported and the passes it
    made. *)
Lemma pairing_anatomy env fuel BenchmarkClass ClientClass w :
  let r := runClientBenchmark env fuel BenchmarkClass ClientClass w in
  let cfg := config (context w) in
  exists evs jv jw ji,
    reported r.2 = (reported w ++ evs)%list
    /\ Forall (ofPairing (eventCommon (context w)) BenchmarkClass ClientClass)
         evs
    /\ invocations r.2
       = (invocations w ++ repeat (VERIFY, true) jv
          ++ repeat (WARMUP, false) jw
          ++ repeat (ITERATION, false) ji)%list
    /\ jv <= verifyPasses cfg
    /\ jw <= warmups cfg
    /\ ji <= fuel
    /\ (0 < jw + ji -> jv = verifyPasses cfg)
    /\ (0 < ji -> jw = warmups cfg).
Proof.
  cbv zeta.
  destruct (c_new ClientClass (constructions w)) eqn:Hc.
  { rewrite (pairing_no_client _ _ _ _ _ _ Hc).
    destruct (pairingStart_spec env BenchmarkClass ClientClass w)
      as (_ & Hrep & Hinv & _).
    eexists _, 0, 0, 0. cbn [fst snd repeat app].
    split; [exact Hrep |]. split; [repeat constructor |].
    rewrite Hinv, app_nil_r. repeat split; lia. }
  assert (Hrun : runClientBenchmark env fuel BenchmarkClass ClientClass w
    = let event := pairingEvent (eventCommon (context w)) BenchmarkClass
                     ClientClass in
      match verifyPhase env BenchmarkClass ClientClass event
              (pairingStart env BenchmarkClass ClientClass w) with
      | (Returns ex, wv) =>
          match warmupPhase env BenchmarkClass ClientClass event ex
                  (afterPause env 50 wv) with
          | (Returns _, ww) =>
              match iterationPhase env BenchmarkClass ClientClass event fuel ex
                      (heapUsed <$>
                         (if gcAvailable env
                          then Some (memoryAt env (heapReads w)) else None))
                      (heapTotal <$>
                         (if gcAvailable env
                          then Some (memoryAt env (heapReads w)) else None))
                      (afterPause env 50 ww) with
              | (Returns s, wi) =>
                  runClientBenchmark env fuel BenchmarkClass ClientClass w
              | (Throws e, wi) => (Throws e, wi)
              | (Unfinished, wi) => (Unfinished, wi)
              end
          | (Throws e, ww) => (Throws e, ww)
          | (Unfinished, ww) => (Unfinished, ww)
          end
      | (Throws e, wv) => (Throws e, wv)
      | (Unfinished, wv) => (Unfinished, wv)
      end).
  { cbv zeta. unfold pairingStart.
    destruct (gcAvailable env) eqn:Hgc; run_pairing; rewrite Hgc; run_pairing;
      rewrite Hc; run_pairing; rewrite <- ?app_assoc; simpl.
    all: destruct (verifyPhase _ _ _ _ _) as [[ex|e|] wv]; try reflexivity.
    all: run_pairing.
    all: destruct (warmupPhase _ _ _ _ _ _) as [[[]|e|] ww]; try reflexivity.
    all: run_pairing.
    all: destruct (iterationPhase _ _ _ _ _ _ _ _ _) as [[s|e|] wi];
      reflexivity. }
  destruct (pairingStart_spec env BenchmarkClass ClientClass w)
    as (Hctx0 & Hrep0 & Hinv0 & _).
  destruct (verifyPhase_spec env BenchmarkClass ClientClass
              (eventCommon (context w))
              (pairingStart env BenchmarkClass ClientClass w))
    as (ex & wv & dv & jv & Ev & Hrepv & Hinvv & Hjv & Hcalmv & Hv).
  rewrite Hctx0 in Hjv.
  assert (Hallv : stopped (context wv) = false -> jv = verifyPasses (config (context w))).
  { intros Hst. rewrite Hctx0 in Hv.
    destruct (transformExample ClientClass (rawExample (context w))).
    - destruct Hv as (_ & Hall & _). auto.
    - destruct Hv as (_ & _ & Hf). unfold stopped in Hst. rewrite Hf in Hst.
      simpl in Hst. rewrite orb_true_r in Hst. discriminate. }
  assert (Hcfgv : config (context wv) = config (context w)).
  { destruct Hcalmv as (Hcfg & _). rewrite Hcfg, Hctx0. reflexivity. }
  cbv zeta in Hrun. rewrite Ev in Hrun.
  destruct (stopped (context (afterPause env 50 wv))) eqn:Hst1.
  - (* the run is stopped after the VERIFY phase *)
    rewrite warmupPhase_skipped in Hrun by exact Hst1.
    rewrite iterationPhase_eq in Hrun. cbv zeta in Hrun.
    rewrite (afterPause_stopped env 50 _ Hst1) in Hrun.
    destruct (pairing_short env fuel BenchmarkClass ClientClass w ex wv Hc Ev
                Hst1) as (st & w' & E & Hrep & Hinv & _).
    rewrite E. cbn [fst snd]. eexists _, jv, 0, 0.
    rewrite Hrep, Hrepv, Hrep0, <- !app_assoc.
    split; [reflexivity |]. split; [repeat constructor |].
    simpl. rewrite Hinv, Hinvv, Hinv0, app_nil_r.
    repeat split; auto; lia.
  - (* the WARMUP phase is run *)
    destruct (warmupPhase_spec env BenchmarkClass ClientClass
                (eventCommon (context w)) ex (afterPause env 50 wv) Hst1)
      as (ww & dw & jw & Ew & Hrepw & Hinvw & Hjw & Hallw & Hcalmw & _).
    simpl in Hrepw, Hinvw, Hjw, Hallw. rewrite Hcfgv in Hjw, Hallw.
    assert (Hcfgw : config (context ww) = config (context w)).
    { destruct Hcalmw as (Hcfg & _). rewrite Hcfg. simpl. exact Hcfgv. }
    rewrite Ew in Hrun.
    pose proof (Hallv (afterPause_running env 50 wv Hst1)) as Hjv'.
    rewrite iterationPhase_eq in Hrun. cbv zeta in Hrun.
    destruct (stopped (context (afterPause env 50 ww))) eqn:Hst2.
    + (* the run is stopped after the WARMUP phase *)
      revert Hrun.
      destruct (gcAvailable env) eqn:Hgc; run_pairing; rewrite Hgc;
        run_pairing; rewrite Hc; run_pairing; rewrite <- ?app_assoc; simpl.
      all: unfold pairingStart in Ev; rewrite Hgc in Ev; simpl in Ev;
        rewrite Ev; run_pairing.
      all: unfold afterPause, afterSuspend in Ew; simpl in Ew; rewrite Ew;
        run_pairing.
      all: rewrite iterationPhase_eq; cbv zeta.
      all: unfold afterPause, afterSuspend in Hst2; simpl in Hst2;
        simpl; rewrite Hst2; run_pairing.
      all: match goal with
           | |- context [saveData ?e ?n ?x ?w0] =>
               destruct (saveData_spec e n x w0)
                 as (wf & Ef & _ & Hrepf & _ & Hinvf & _)
           end; rewrite Ef; simpl; intros _.
      all: eexists _, jv, jw, 0; simpl.
      all: rewrite Hrepf; simpl; rewrite Hrepw, Hrepv, Hrep0, <- !app_assoc.
      all: split; [reflexivity |]; split; [repeat constructor |].
      all: rewrite Hinvf; simpl; rewrite Hinvw, Hinvv, Hinv0, app_nil_r,
        <- app_assoc.
      all: repeat split; auto; lia.
    + (* the ITERATION phase is run *)
      pose proof (Hallw (afterPause_running env 50 ww Hst2)) as Hjw'.
      match type of Hrun with
      | context [iterationLoop ?e ?B ?C _ ?f ?x ?hu ?ht ?rs ?s0 ?w0] =>
          pose proof (iterationLoop_spec e B C (eventCommon (context w)) x hu
                        ht rs f s0 w0) as Hl
      end.
      cbv zeta in Hl.
      destruct Hl as (evs & ji & Hrepi & Hinvi & _ & Hji & _).
      match type of Hrun with
      | context [iterationLoop ?e ?B ?C _ ?f ?x ?hu ?ht ?rs ?s0 ?w0] =>
          pose proof (iterationLoop_events e B C (eventCommon (context w)) x hu
                        ht rs f s0 w0) as Hl
      end.
      cbv zeta in Hl. destruct Hl as (evs' & Hrepi' & Halli).
      rewrite Hrepi in Hrepi'. apply app_inv_head in Hrepi'. subst evs'.
      simpl in Hinvi, Hrepi.
      destruct (iterationLoop _ _ _ _ _ _ _ _ _ _ _) as [[s|e|] wi] eqn:Ei.
      * (* the loop returned *)
        clear Hrun. simpl in Hinvi, Hrepi.
        destruct (gcAvailable env) eqn:Hgc; run_pairing; rewrite Hgc;
          run_pairing; rewrite Hc; run_pairing; rewrite <- ?app_assoc; simpl.
        all: unfold pairingStart in Ev; rewrite Hgc in Ev; simpl in Ev;
          rewrite Ev; run_pairing.
        all: unfold afterPause, afterSuspend in Ew; simpl in Ew; rewrite Ew;
          run_pairing.
        all: rewrite iterationPhase_eq; cbv zeta.
        all: unfold afterPause, afterSuspend in Hst2; simpl in Hst2;
          simpl; rewrite Hst2.
        all: unfold afterPause, afterSuspend in Ei; simpl in Ei; rewrite Ei;
          run_pairing.
        all: match goal with
             | |- context [saveData ?e ?n ?x ?w0] =>
                 destruct (saveData_spec e n x w0)
                   as (wf & Ef & _ & Hrepf & _ & Hinvf & _)
             end; rewrite Ef; simpl.
        all: eexists _, jv, jw, ji.
        all: rewrite Hrepf; simpl; rewrite Hrepi, Hrepw, Hrepv, Hrep0,
          <- !app_assoc.
        all: split; [reflexivity |].
        all: split;
          [repeat (apply Forall_app; split); auto; repeat constructor |].
        all: rewrite Hinvf; simpl; rewrite Hinvi, Hinvw, Hinvv, Hinv0,
          <- !app_assoc.
        all: repeat split; auto; lia.
      * rewrite Hrun. simpl in *. eexists _, jv, jw, ji.
        rewrite Hrepi, Hrepw, Hrepv, Hrep0, <- !app_assoc.
        split; [reflexivity |].
        split; [repeat (apply Forall_app; split); auto; repeat constructor |].
        rewrite Hinvi, Hinvw, Hinvv, Hinv0, <- !app_assoc.
        repeat split; auto; lia.
      * rewrite Hrun. simpl in *. eexists _, jv, jw, ji.
        rewrite Hrepi, Hrepw, Hrepv, Hrep0, <- !app_assoc.
        split; [reflexivity |].
        split; [repeat (apply Forall_app; split); auto; repeat constructor |].
        rewrite Hinvi, Hinvw, Hinvv, Hinv0, <- !app_assoc.
        repeat split; auto; lia.
Qed.

(** X12.  However a pairing ends, the passes it made come in the order of the
    phases: VERIFY passes with verification, at most [verifyPasses] of
    them, then WARMUP passes, at most [warmups], then the passes of the
    ITERATION phase, both without verification.  A later phase makes a pass
    only when the phases before it made all of theirs. *)
Theorem pairing_passes_in_phase_order env fuel BenchmarkClass ClientClass w :
  let r := runClientBenchmark env fuel BenchmarkClass ClientClass w in
  let cfg := config (context w) in
  exists jv jw ji,
    invocations r.2
    = (invocations w ++ repeat (VERIFY, true) jv ++ repeat (WARMUP, false) jw
       ++ repeat (ITERATION, false) ji)%list
    /\ jv <= verifyPasses cfg
    /\ jw <= warmups cfg
    /\ ji <= fuel
    /\ (0 < jw + ji -> jv = verifyPasses cfg)
    /\ (0 < ji -> jw = warmups cfg).
Proof.
  destruct (pairing_anatomy env fuel BenchmarkClass ClientClass w)
    as (evs & jv & jw & ji & _ & _ & H).
  exists jv, jw, ji. exact H.
Qed.

(** X13.  Every event a pairing reports, however the pairing ends, carries the
    metadata of its benchmark and of its client, and the suite's values as
    they were when the pairing started: the copy made then.  So the
    [canceled] flag of these events is the one the pairing started with; a
    [cancel()] called while the pairing runs does not show in its events,
    its END included. *)
Theorem pairing_events_carry_entry_values env fuel BenchmarkClass ClientClass w :
  let r := runClientBenchmark env fuel BenchmarkClass ClientClass w in
  exists evs,
    reported r.2 = (reported w ++ evs)%list
    /\ Forall
         (fun e =>
            ev_common e = eventCommon (context w)
            /\ ev_benchmark e = Some (b_metadata BenchmarkClass)
            /\ ev_client e = Some (c_metadata ClientClass))
         evs
    /\ evs <> [].
Proof.
  destruct (pairing_anatomy env fuel BenchmarkClass ClientClass w)
    as (evs & jv & jw & ji & Hrep & Hall & _).
  exists evs. split; [exact Hrep |]. split; [exact Hall |].
  intros ->. rewrite app_nil_r in Hrep.
  destruct (pairing_tally env fuel BenchmarkClass ClientClass w) as (Hs & _).
  unfold started in Hs. rewrite Hrep in Hs. lia.
Qed.

(** *** The failure that the END of a pairing carries *)

Lemma last_app_some {A} (a b : list A) :
  last (a ++ b) = match last b with
                  | Some x => Some x
                  | None => last a
                  end.
Proof.
  induction b as [|x b IH] using rev_ind.
  - rewrite app_nil_r. reflexivity.
  - rewrite app_assoc, !last_snoc. reflexivity.
Qed.

Lemma lastPhaseEnd_app l1 l2 :
  lastPhaseEnd (l1 ++ l2)
  = match lastPhaseEnd l2 with
    | Some e => Some e
    | None => lastPhaseEnd l1
    end.
Proof. unfold lastPhaseEnd. rewrite List.filter_app. apply last_app_some. Qed.

Lemma lastPhaseEnd_Forall (P : Event -> Prop) l e :
  Forall P l -> lastPhaseEnd l = Some e -> P e.
Proof.
  intros Hall H. unfold lastPhaseEnd in H.
  apply last_Some_elem_of, list_elem_of_In, List.filter_In in H as [H _].
  rewrite Forall_forall in Hall. apply Hall, list_elem_of_In, H.
Qed.

Lemma lastFailure_app l evs w w' :
  lastFailure l w ->
  failure (context w') = failure (context w) ->
  Forall (fun e => ev_failure e = failure (context w)) evs ->
  lastFailure (l ++ evs) w'.
Proof.
  unfold lastFailure. intros Hl Hf Hall. rewrite lastPhaseEnd_app, Hf.
  destruct (lastPhaseEnd evs) as [e|] eqn:E; [| exact Hl].
  simpl. f_equal. apply (lastPhaseEnd_Forall _ evs e Hall E).
Qed.

Lemma iterationLoop_failures env B C common ex hub htb runStart fuel :
  forall s w s' w',
    iterationLoop env B C (pairingEvent common B C) fuel ex hub htb runStart s w
    = (Returns s', w') ->
    exists evs,
      reported w' = (reported w ++ evs)%list
      /\ failure (context w') = failure (context w)
      /\ Forall (fun e => ev_failure e = failure (context w)) evs.
Proof.
  induction fuel as [|fuel IH]; intros s w s' w' H; [discriminate |].
  rewrite iterationLoop_step in H.
  destruct (stopped (context w)) eqn:Hst.
  { inversion H; subst. exists []. rewrite app_nil_r. auto. }
  assert (Hnone : failure (context w) = None).
  { unfold stopped in Hst. destruct (failure (context w)); [| reflexivity].
    simpl in Hst. rewrite orb_true_r in Hst. discriminate. }
  pose proof (iterationRound_spec env B C common ex hub htb runStart s w)
    as (_ & _ & Hout).
  cbv zeta in Hout.
  destruct (iterationRound env B C (pairingEvent common B C) ex hub htb
              runStart s w) as [[r|e|] w1]; try discriminate.
  simpl in Hout.
  destruct (runSingleBenchmarkPass env B C ex ITERATION false _).1
    as [[res|]| |]; try contradiction.
  - destruct Hout as (Hr & Hrep & Hf). inversion Hr; subst; clear Hr.
    simpl in H.
    assert (Hround : Forall (fun e => ev_failure e = failure (context w))
              [pairingEvent common B C CLIENT_BENCHMARK_PHASE START
                 (Some ITERATION) None None None;
               pairingEvent common B C CLIENT_BENCHMARK_PHASE END
                 (Some ITERATION) (Some (duration res))
                 (Some (statsSummary env (stats (pushResult s res))
                          (heapUsedStats (pushResult s res))
                          (heapTotalStats (pushResult s res)) hub htb))
                 (failure (context w))]).
    { repeat constructor. simpl. symmetry. exact Hnone. }
    destruct (convergencePredicate _ _ _ _ _).
    + inversion H; subst. eexists. split; [exact Hrep |]. split; assumption.
    + destruct (IH _ _ _ _ H) as (evs & Hr' & Hf' & Hall).
      eexists. rewrite Hr', Hrep, <- app_assoc. split; [reflexivity |].
      split; [congruence |].
      apply Forall_app. split; [exact Hround |].
      rewrite <- Hf. exact Hall.
  - destruct Hout as ((msg & Hm) & _). discriminate.
Qed.

Lemma iterationPhase_lastFailure env B C common fuel ex hub htb w l :
  let r := iterationPhase env B C (pairingEvent common B C) fuel ex hub htb w in
  lastFailure l w ->
  match r.1 with
  | Returns _ =>
      exists evs,
        reported r.2 = (reported w ++ evs)%list /\ lastFailure (l ++ evs) r.2
  | _ => True
  end.
Proof.
  cbv zeta. intros Hl. rewrite iterationPhase_eq. cbv zeta.
  destruct (stopped (context w)).
  { simpl. exists []. rewrite !app_nil_r. split; [reflexivity | exact Hl]. }
  destruct (iterationLoop _ _ _ _ _ _ _ _ _ _ _) as [[s|e|] wi] eqn:E;
    simpl; auto.
  destruct (iterationLoop_failures _ _ _ _ _ _ _ _ _ _ _ _ _ E)
    as (evs & Hrep & Hf & Hall).
  exists evs. split; [exact Hrep |].
  apply (lastFailure_app l evs
           (set_clockReads S
              (set_calls (fun c => c ++ [PerformanceNow])%list w)) wi);
    assumption.
Qed.

Lemma warmupPhase_lastFailure env B C common ex w l :
  lastFailure l w ->
  exists w' evs,
    warmupPhase env B C (pairingEvent common B C) ex w = (Returns tt, w')
    /\ reported w' = (reported w ++ evs)%list
    /\ lastFailure (l ++ evs) w'.
Proof.
  intros Hl. destruct (stopped (context w)) eqn:Hst.
  - exists w, []. rewrite !app_nil_r.
    split; [apply warmupPhase_skipped; exact Hst |]. split; [reflexivity | exact Hl].
  - destruct (warmupPhase_spec env B C common ex w Hst)
      as (w' & d & j & E & Hrep & _).
    exists w'. eexists. split; [exact E |]. split; [exact Hrep |].
    unfold lastFailure. rewrite lastPhaseEnd_app. reflexivity.
Qed.

(** A pairing that returns has reported its END last; the failure that
    this END carries is the one that the last END of a phase carried
    before it, and the context is left without failure. *)
Lemma pairing_end_failure env fuel BenchmarkClass ClientClass w st w' :
  runClientBenchmark env fuel BenchmarkClass ClientClass w = (Returns st, w') ->
  exists evs f,
    reported w'
    = (reported w ++ evs
       ++ [pairingEvent (eventCommon (context w)) BenchmarkClass ClientClass
             CLIENT_BENCHMARK END None None (Some st) f])%list
    /\ ev_failure <$> lastPhaseEnd evs = Some f
    /\ failure (context w') = None.
Proof.
  intros H.
  destruct (c_new ClientClass (constructions w)) eqn:Hc.
  { rewrite (pairing_no_client _ _ _ _ _ _ Hc) in H. discriminate. }
  revert H.
  destruct (gcAvailable env) eqn:Hgc; run_pairing; rewrite Hgc; run_pairing;
    rewrite Hc; run_pairing.
  all: match goal with
       | |- context [verifyPhase ?e ?B ?C (pairingEvent ?c _ _) ?w0] =>
           destruct (verifyPhase_spec e B C c w0)
             as (ex & wv & d & j & E & Hrepv & _)
       end; rewrite E; run_pairing.
  all: simpl in Hrepv.
  all: match goal with
       | |- context [warmupPhase ?e ?B ?C (pairingEvent ?c _ _) ?x ?w0] =>
           destruct (warmupPhase_lastFailure e B C c x w0
                       [pairingEvent c B C CLIENT_BENCHMARK START None None None
                          None;
                        pairingEvent c B C CLIENT_BENCHMARK_PHASE START
                          (Some VERIFY) None None None;
                        pairingEvent c B C CLIENT_BENCHMARK_PHASE END
                          (Some VERIFY) (Some d) None (failure (context wv))])
             as (ww & evw & Ew & Hrepw & Hlw); [reflexivity |]
       end; rewrite Ew; run_pairing.
  all: simpl in Hrepw.
  all: match goal with
       | |- context [iterationPhase ?e ?B ?C (pairingEvent ?c _ _) ?f ?x ?hu ?ht ?w0] =>
           pose proof (iterationPhase_lastFailure e B C c f x hu ht w0 _
                         (lastFailure_app _ [] ww w0 Hlw eq_refl
                            (List.Forall_nil _))) as Hi;
           cbv zeta in Hi;
           destruct (iterationPhase e B C (pairingEvent c B C) f x hu ht w0)
             as [[s|err|] wi]
       end; run_pairing; try discriminate.
  all: simpl in Hi; destruct Hi as (evi & Hrepi & Hli); simpl in Hrepi.
  all: match goal with
       | |- context [saveData ?e ?n ?x ?w0] =>
           destruct (saveData_spec e n x w0) as (wf & Ef & Hctxf & Hrepf & _);
           intros H; rewrite Ef in H; simpl in H; inversion H; subst
       end.
  all: simpl in Hrepf, Hctxf.
  all: match type of Hli with
       | lastFailure ?l _ => exists l, (failure (context wi))
       end.
  all: split; [| split; [exact Hli | rewrite Hctxf; reflexivity]].
  all: rewrite Hrepf, Hrepi, Hrepw, Hrepv, ?app_nil_r, <- ?app_assoc.
  all: simpl; rewrite <- ?app_assoc; reflexivity.
Qed.

(** C8.  A pairing that returns has reported its END event last, carrying
    the failure that was recorded: the one the context held when the END
    was reported, which is the one that the last END of a phase before it
    carried (a failed VERIFY or WARMUP phase reports its failure, and what
    the pairing's END carries is that failure, not a cleared one); and it
    has left the context as it was at that moment but with no failure.
    Every pairing that [runSuite] starts is started with no failure in the
    context. *)
Theorem C8_failure_is_cleared env :
  (forall fuel BenchmarkClass ClientClass w st w',
     runClientBenchmark env fuel BenchmarkClass ClientClass w = (Returns st, w') ->
     exists evs f,
       reported w'
       = (reported w ++ evs
          ++ [pairingEvent (eventCommon (context w)) BenchmarkClass ClientClass
                CLIENT_BENCHMARK END None None (Some st) f])%list
       /\ ev_failure <$> lastPhaseEnd evs = Some f
       /\ failure (context w') = None
       /\ exists w_end,
            reported w_end = (reported w ++ evs)%list
            /\ failure (context w_end) = f
            /\ context w' = set_failure None (context w_end))
  /\ (forall benchmarkClasses clientClasses rawExample config fuel file B C w0,
        suiteStarts env benchmarkClasses clientClasses rawExample config fuel
          file B C w0 ->
        failure (context w0) = None).
Proof.
  split.
  - intros fuel BenchmarkClass ClientClass w st w' H.
    destruct (pairing_end_failure _ _ _ _ _ _ _ H)
      as (evs & f & Hrep & Hlast & Hf).
    destruct (pairing_end _ _ _ _ _ _ _ H) as (w_end & Hrep' & Hctx).
    exists evs, f. split; [exact Hrep |]. split; [exact Hlast |].
    split; [exact Hf |]. exists w_end.
    rewrite Hrep, app_assoc in Hrep'.
    apply app_inj_tail in Hrep' as [Hpre Hev].
    split; [symmetry; exact Hpre |]. split; [| exact Hctx].
    unfold pairingEvent in Hev. injection Hev as Hev. symmetry. exact Hev.
  - intros bs cs raw cfg fuel file B C w0 H.
    eapply benchmarksLoopStarts_failure; [exact H | reflexivity].
Qed.

Lemma C8_failure_is_cleared_witness :
  let r := runClientBenchmark exampleEnv 5 brokenBenchmark exampleClient
             exampleWorld in
  let started :=
    reportBenchmark START brokenBenchmark
      (reportSuite START
         (initialWorld
            (initialContext [brokenBenchmark] [exampleClient; otherClient]
               exampleRaw customConfig) NoFile)) in
  let w0 :=
    (awaitCall exampleEnv
       (runClientBenchmark exampleEnv 5 brokenBenchmark exampleClient)
       started).2 in
  (exists st evs f,
     r.1 = Returns st
     /\ reported r.2
        = (evs
           ++ [pairingEvent (eventCommon exampleContext) brokenBenchmark
                 exampleClient CLIENT_BENCHMARK END None None (Some st) f])%list
     /\ ev_failure <$> lastPhaseEnd evs = Some f)
  /\ last (outline (reported r.2))
     = Some (CLIENT_BENCHMARK, END, None, false,
             Some {| f_error := Thrown "boom"; f_phase := VERIFY |})
  /\ failure (context r.2) = None
  /\ suiteStarts exampleEnv [brokenBenchmark] [exampleClient; otherClient]
       exampleRaw None 5 NoFile brokenBenchmark otherClient w0
  /\ failure (context w0) = None.
Proof.
  cbv zeta.
  set (r := runClientBenchmark exampleEnv 5 brokenBenchmark exampleClient
              exampleWorld).
  assert (E : exists st, r = (Returns st, r.2)) by (vm_compute; eauto).
  destruct E as [st E].
  destruct (proj1 (C8_failure_is_cleared exampleEnv) _ _ _ _ _ _ E)
    as (evs & f & Hrep & Hlast & Hf & _).
  split.
  { exists st, evs, f. split; [rewrite E; reflexivity |].
    split; [exact Hrep | exact Hlast]. }
  split; [vm_compute; reflexivity |].
  split; [exact Hf |].
  match goal with |- ?S /\ _ => assert (Hs : S) end.
  { unfold suiteStarts. apply starts_here; [reflexivity |].
    eapply starts_later; [reflexivity | | apply starts_first; reflexivity].
    vm_compute. reflexivity. }
  split; [exact Hs |].
  exact (proj2 (C8_failure_is_cleared exampleEnv) _ _ _ _ _ _ _ _ _ Hs).
Defined.

(** *** What a stopped pairing saves *)

Lemma pairing_short_saves env fuel BenchmarkClass ClientClass w example wv :
  c_new ClientClass (constructions w) = None ->
  verifyPhase env BenchmarkClass ClientClass
    (pairingEvent (eventCommon (context w)) BenchmarkClass ClientClass)
    (pairingStart env BenchmarkClass ClientClass w) = (Returns example, wv) ->
  stopped (context (afterPause env 50 wv)) = true ->
  exists w_save,
    (runClientBenchmark env fuel BenchmarkClass ClientClass w).2
    = (saveData env (c_name ClientClass) (amean env []) w_save).2
    /\ fileReads w_save = fileReads wv
    /\ fileOps w_save = fileOps wv
    /\ findings w_save = findings wv.
Proof.
  intros Hc Hv Hst. unfold pairingStart in Hv.
  pose proof (afterPause_stopped env 50 _ Hst) as Hst2.
  destruct (gcAvailable env) eqn:Hgc; run_pairing; rewrite Hgc; run_pairing;
    rewrite Hc; run_pairing; simpl in Hv; rewrite <- ?app_assoc; simpl;
    rewrite Hv; run_pairing.
  all: rewrite warmupPhase_skipped by exact Hst; run_pairing.
  all: rewrite iterationPhase_eq; cbv zeta.
  all: match goal with
       | |- context [stopped ?c] =>
           replace (stopped c) with true by (symmetry; exact Hst2)
       end.
  all: run_pairing.
  all: match goal with
       | |- context [saveData ?e ?n ?x ?w0] =>
           exists w0; destruct (saveData_spec e n x w0) as (wf & Ef & _)
       end.
  all: rewrite Ef; simpl; auto.
Qed.

(** X14.  A pairing whose example cannot be transformed has no sample, and
    still calls [saveData].  With [global.gc], the file read and written
    before the run goes on, and a file whose text parses to an object (or
    is absent, or does not parse) in which the name of the client's class
    is an own key holding an array, or a key it neither has nor inherits:
    one more record is appended under that name, the mean of no samples in
    fixed notation; that record is [NaN] when this mean is not a number. *)
Theorem failed_pairing_still_saves env fuel BenchmarkClass ClientClass w e old
    records :
  let name := c_name ClientClass in
  let record := toFixed (exponentialString env) (amean env []) 3 in
  let r := runClientBenchmark env fuel BenchmarkClass ClientClass w in
  c_new ClientClass (constructions w) = None ->
  transformExample ClientClass (rawExample (context w)) = Err e ->
  gcAvailable env = true ->
  readFails env (fileReads w) = false ->
  writeFails env (fileReads w) = false ->
  parsedObject (findings w) = Some old ->
  recordsUnder name old = Some records ->
  (exists data,
     findings r.2 = Findings (JObject data)
     /\ data !! name
        = Some (JArray (map reparsed records ++ [JString record]))
     /\ forall other, other <> name ->
          data !! other = reparsed <$> old !! other)
  /\ (Prim2SF (amean env []) = S754_nan -> record = "NaN").
Proof.
  intros name record r Hc Ht Hgc Hr Hw Hold Hrec.
  split; [| intros Hnan; subst record; unfold toFixed; rewrite Hnan; reflexivity].
  pose proof (pairingStart_spec env BenchmarkClass ClientClass w)
    as (Hctx & _).
  assert (Hfile : fileReads (pairingStart env BenchmarkClass ClientClass w)
                  = fileReads w
                  /\ findings (pairingStart env BenchmarkClass ClientClass w)
                     = findings w).
  { unfold pairingStart. destruct (gcAvailable env); simpl; auto. }
  destruct Hfile as [Hfr0 Hfi0].
  destruct (verifyPhase_spec env BenchmarkClass ClientClass
              (eventCommon (context w))
              (pairingStart env BenchmarkClass ClientClass w))
    as (ex & wv & d & j & E & _ & _ & _ & Hcalm & Hcase).
  rewrite Hctx, Ht in Hcase. destruct Hcase as (-> & -> & Hf).
  destruct (pairing_short_saves env fuel BenchmarkClass ClientClass w None wv
              Hc E) as (w_save & Hrun & Hfr & _ & Hfi).
  { apply afterPause_stopped. unfold stopped. rewrite Hf. apply orb_true_r. }
  destruct Hcalm as (_ & _ & Hfrv & _ & Hfiv & _).
  subst r. rewrite Hrun. unfold saveData. rewrite Hgc.
  cbv beta iota zeta delta [negb bind gets modify consoleLog]. simpl.
  rewrite Hfr, Hfrv, Hfr0, Hr, Hfi, Hfiv, Hfi0.
  rewrite (callback_appends env (c_name ClientClass) (amean env [])
             (findings w) old records Hold Hrec).
  simpl. rewrite Hw. simpl.
  eexists. split; [reflexivity |]. fold name record. split.
  - rewrite lookup_fmap, lookup_insert_eq. simpl. rewrite map_app. reflexivity.
  - intros other Hne. rewrite lookup_fmap, lookup_insert_ne by congruence.
    reflexivity.
Qed.

Lemma failed_pairing_still_saves_witness :
  let r := runClientBenchmark exampleEnvGc 5 exampleBenchmark pickyClient
             exampleWorld in
  exists data,
    findings r.2 = Findings (JObject data)
    /\ data !! "PickyClient" = Some (JArray [JString "NaN"]).
Proof.
  cbv zeta.
  destruct (failed_pairing_still_saves exampleEnvGc 5 exampleBenchmark
              pickyClient exampleWorld (Thrown "unsupported fragment") ∅ []
              eq_refl eq_refl eq_refl eq_refl eq_refl eq_refl eq_refl)
    as [(data & Hf & Hd & _) Hnan].
  exists data. split; [exact Hf |].
  rewrite (Hnan eq_refl) in Hd. exact Hd.
Defined.

(** *** A failed pass ends the loop *)

Lemma passLoop_first_failure env B C ph v ex n w e :
  stopped (context w) = false ->
  passError B C v (constructions w) (length (invocations w)) = Some e ->
  let r := passLoop env B C ph v ex (S n) w in
  r.1 = Returns tt
  /\ invocations r.2 = (invocations w ++ [(ph, v)])%list
  /\ failure (context r.2) = Some {| f_error := e; f_phase := ph |}.
Proof.
  intros Hst He. cbv zeta.
  rewrite passLoop_step by exact Hst.
  pose proof (pass_by_error env B C ex ph v w) as Hp.
  cbv zeta in Hp. rewrite He in Hp. destruct Hp as (_ & Hf & _).
  pose proof (pass_outcome env B C ex ph v w) as [Hinv _].
  rewrite passLoop_stopped.
  - simpl. rewrite Hinv, Hf. auto.
  - unfold stopped. simpl. rewrite Hf. apply orb_true_r.
Qed.

(** X15.  In the loops of the VERIFY and of the WARMUP phase, a pass in which a
    step fails is the last one: however many passes were still to be made,
    the loop returns after this one, with the failure of the pass, tagged
    with the phase, in the context. *)
Theorem loops_stop_at_first_failure env BenchmarkClass ClientClass example n w :
  stopped (context w) = false ->
  let k := length (invocations w) in
  let v := verifyLoop env BenchmarkClass ClientClass example (S n) w in
  let u := warmupLoop env BenchmarkClass ClientClass example (S n) w in
  (forall e,
     passError BenchmarkClass ClientClass true (constructions w) k = Some e ->
     v.1 = Returns tt
     /\ invocations v.2 = (invocations w ++ [(VERIFY, true)])%list
     /\ failure (context v.2) = Some {| f_error := e; f_phase := VERIFY |})
  /\ (forall e,
        passError BenchmarkClass ClientClass false (constructions w) k = Some e ->
        u.1 = Returns tt
        /\ invocations u.2 = (invocations w ++ [(WARMUP, false)])%list
        /\ failure (context u.2) = Some {| f_error := e; f_phase := WARMUP |}).
Proof.
  intros Hst k v u. subst v u. split; intros e He.
  - rewrite verifyLoop_passLoop. apply passLoop_first_failure; assumption.
  - rewrite warmupLoop_passLoop. apply passLoop_first_failure; assumption.
Qed.

Lemma loops_stop_at_first_failure_witness :
  let v := verifyLoop exampleEnv brokenBenchmark exampleClient None 3
             exampleWorld in
  let u := warmupLoop exampleEnv brokenBenchmark exampleClient None 3
             exampleWorld in
  (v.1 = Returns tt
   /\ invocations v.2 = [(VERIFY, true)]
   /\ failure (context v.2)
      = Some {| f_error := Thrown "boom"; f_phase := VERIFY |})
  /\ (u.1 = Returns tt
      /\ invocations u.2 = [(WARMUP, false)]
      /\ failure (context u.2)
         = Some {| f_error := Thrown "boom"; f_phase := WARMUP |}).
Proof.
  destruct (loops_stop_at_first_failure exampleEnv brokenBenchmark exampleClient
              None 2 exampleWorld eq_refl) as [Hv Hu].
  split; [apply (Hv (Thrown "boom") eq_refl) | apply (Hu (Thrown "boom") eq_refl)].
Defined.

(** *** Errors of the persistence hook *)

(** X16.  Errors of the file system are logged, not thrown: with
    [global.gc], [saveData] returns normally and calls [readFile] once.  The
    callbacks being run before the run goes on: an error of [readFile] is
    logged and nothing else is done; otherwise the callback either throws,
    after which nothing is written and nothing logged, or calls [writeFile]
    once, whose error is logged; with no error nothing is logged.  The
    context and the events of the run are as they were. *)
Theorem saveData_logs_io_errors env name stat w :
  let r := saveData env name stat w in
  let k := fileReads w in
  gcAvailable env = true ->
  r.1 = Returns tt
  /\ (exists ops,
        fileOps r.2 = (fileOps w ++ ReadFile :: ops)%list
        /\ if readFails env k
           then ops = [] /\ console r.2 = (console w ++ [LogReadError])%list
           else
             (exists e, ops = [CallbackThrows e] /\ console r.2 = console w)
             \/ (exists data,
                   ops = [WriteFile data]
                   /\ console r.2
                      = (console w
                         ++ (if writeFails env k then [LogWriteError]
                             else []))%list))
  /\ fileReads r.2 = S k
  /\ context r.2 = context w
  /\ reported r.2 = reported w.
Proof.
  intros r k Hgc. subst r k. unfold saveData. rewrite Hgc.
  cbv beta iota zeta delta [negb bind gets modify consoleLog]. simpl.
  unfold readFileCallback.
  destruct (readFails env (fileReads w)); simpl.
  { split; [reflexivity |]. split; [exists []; auto | auto]. }
  assert (Hwrite : forall data : Json,
    let r := (if writeFails env (fileReads w)
              then fun w1 : World =>
                     (Returns tt,
                      set_console (fun c => c ++ [LogWriteError])%list
                        (set_file id id (fileAfterError env (fileReads w)) w1))
              else fun w1 : World =>
                     (Returns tt,
                      set_file id id (fun _ => Findings (reparsed data)) w1))
               (set_file id (fun l => l ++ [WriteFile data])%list id
                  (set_file S (fun l => l ++ [ReadFile])%list id w)) in
    r.1 = Returns tt
    /\ (exists ops,
          fileOps r.2 = (fileOps w ++ ReadFile :: ops)%list
          /\ ((exists e, ops = [CallbackThrows e] /\ console r.2 = console w)
              \/ (exists data,
                    ops = [WriteFile data]
                    /\ console r.2
                       = (console w
                          ++ (if writeFails env (fileReads w)
                              then [LogWriteError] else []))%list)))
    /\ fileReads r.2 = S (fileReads w)
    /\ context r.2 = context w
    /\ reported r.2 = reported w).
  { intros data. cbv zeta.
    destruct (writeFails env (fileReads w)); simpl;
      (split; [reflexivity |]);
      (split; [| auto]);
      exists [WriteFile data]; rewrite <- app_assoc; simpl;
      (split; [reflexivity |]); right; exists data;
      rewrite ?app_nil_r; auto. }
  destruct (hasProperty env name _) as [[]|e]; simpl.
  - destruct (pushRecord name _ _) as [data|e]; simpl.
    + apply Hwrite.
    + split; [reflexivity |]. split; [| auto].
      exists [CallbackThrows e]. rewrite <- app_assoc. simpl.
      split; [reflexivity |]. left. eauto.
  - apply Hwrite.
  - split; [reflexivity |]. split; [| auto].
    exists [CallbackThrows e]. rewrite <- app_assoc. simpl.
    split; [reflexivity |]. left. eauto.
Qed.

Lemma saveData_logs_io_errors_witness :
  let r := saveData exampleEnvUnreadable "ExampleClient" 1.5%float
             exampleWorld in
  r.1 = Returns tt
  /\ (exists ops,
        fileOps r.2 = ReadFile :: ops
        /\ ops = [] /\ console r.2 = [LogReadError])
  /\ fileReads r.2 = 1
  /\ context r.2 = context exampleWorld
  /\ reported r.2 = [].
Proof.
  apply (saveData_logs_io_errors exampleEnvUnreadable "ExampleClient"
           1.5%float exampleWorld).
  reflexivity.
Defined.

(** *** The running statistics of the ITERATION phase *)

Lemma endIterations_app l1 l2 :
  endIterations (l1 ++ l2) = (endIterations l1 ++ endIterations l2)%list.
Proof. unfold endIterations. rewrite filter_app, map_app. reflexivity. Qed.

Lemma statsSummary_iterations env a b c hub htb :
  iterations (statsSummary env a b c hub htb) = length a.
Proof. unfold statsSummary. destruct (range env a). reflexivity. Qed.

Lemma iterationLoop_endIterations env B C common ex hub htb runStart fuel :
  forall s w,
    let r := iterationLoop env B C (pairingEvent common B C) fuel ex hub htb
               runStart s w in
    exists evs,
      reported r.2 = (reported w ++ evs)%list
      /\ endIterations evs
         = map Some
             (seq (S (length (stats s)))
                (countEvents CLIENT_BENCHMARK_PHASE END (Some ITERATION) evs)).
Proof.
  induction fuel as [|fuel IH]; intros s w; cbv zeta.
  { exists []. simpl. rewrite app_nil_r. auto. }
  rewrite iterationLoop_step.
  destruct (stopped (context w)).
  { exists []. simpl. rewrite app_nil_r. auto. }
  pose proof (iterationRound_spec env B C common ex hub htb runStart s w)
    as (_ & _ & Hout).
  cbv zeta in Hout.
  destruct (iterationRound env B C (pairingEvent common B C) ex hub htb
              runStart s w) as [o w1].
  simpl in Hout.
  destruct (runSingleBenchmarkPass env B C ex ITERATION false _).1
    as [[res|]| |]; try contradiction.
  - destruct Hout as (-> & Hrep & _). simpl.
    assert (Hone : forall f,
      endIterations
        [pairingEvent common B C CLIENT_BENCHMARK_PHASE START (Some ITERATION)
           None None None;
         pairingEvent common B C CLIENT_BENCHMARK_PHASE END (Some ITERATION)
           (Some (duration res))
           (Some (statsSummary env (stats s ++ [duration res])
                    (pushSample (heapUsedStats s) (heapUsed <$> memoryUsage res))
                    (pushSample (heapTotalStats s)
                       (heapTotal <$> memoryUsage res)) hub htb)) f]
      = [Some (S (length (stats s)))]).
    { intros f. unfold endIterations. simpl.
      rewrite statsSummary_iterations, length_app. simpl.
      do 2 f_equal. lia. }
    destruct (convergencePredicate _ _ _ _ _).
    + eexists. split; [exact Hrep |]. rewrite Hone. reflexivity.
    + destruct (IH (pushResult s res) w1) as (evs & Hr & Hall).
      eexists. rewrite Hr, Hrep, <- app_assoc. split; [reflexivity |].
      rewrite endIterations_app, countEvents_app, Hone, Hall. simpl.
      rewrite length_app. simpl.
      replace (length (stats s) + 1) with (S (length (stats s))) by lia.
      reflexivity.
  - destruct Hout as ((msg & ->) & Hrep & _). simpl.
    eexists. split; [exact Hrep |]. reflexivity.
Qed.

(** X17.  The END events of the ITERATION phase carry running statistics: the
    first one counts one iteration, the second two, and so on, however the
    phase ends. *)
Theorem iteration_events_count_up env BenchmarkClass ClientClass common fuel
    example heapUsedBase heapTotalBase w :
  let r := iterationPhase env BenchmarkClass ClientClass
             (pairingEvent common BenchmarkClass ClientClass) fuel example
             heapUsedBase heapTotalBase w in
  exists evs,
    reported r.2 = (reported w ++ evs)%list
    /\ endIterations evs
       = map Some
           (seq 1 (countEvents CLIENT_BENCHMARK_PHASE END (Some ITERATION) evs)).
Proof.
  cbv zeta. rewrite iterationPhase_eq. cbv zeta.
  destruct (stopped (context w)).
  { exists []. simpl. rewrite app_nil_r. auto. }
  match goal with
  | |- context [iterationLoop ?e ?B ?C _ ?f ?x ?hu ?ht ?rs ?s0 ?w0] =>
      destruct (iterationLoop_endIterations e B C common x hu ht rs f s0 w0)
        as (evs & Hrep & Hall)
  end.
  exists evs. split; [exact Hrep | exact Hall].
Qed.

(** *** The final statistics and the saved mean *)

(** X18.  A pairing that returns computes two means from the same samples: the
    statistics it returns, and reports in its END event, are taken after
    the outliers are removed ([iqr]); the mean it hands to [saveData] is
    the mean of all the samples. *)
Theorem returned_mean_is_filtered_saved_mean_is_not env fuel BenchmarkClass
    ClientClass w st w' :
  runClientBenchmark env fuel BenchmarkClass ClientClass w = (Returns st, w') ->
  exists s w_save,
    st_mean st = amean env (iqr env (stats s))
    /\ iterations st = length (iqr env (stats s))
    /\ marginOfError st = moe env (iqr env (stats s))
    /\ hs_heapUsed (st_memoryUsage st) = amean env (iqr env (heapUsedStats s))
    /\ hs_heapTotal (st_memoryUsage st) = amean env (iqr env (heapTotalStats s))
    /\ saveData env (c_name ClientClass) (amean env (stats s)) w_save
       = (Returns tt, w').
Proof.
  intros H.
  destruct (c_new ClientClass (constructions w)) eqn:Hc.
  { rewrite (pairing_no_client _ _ _ _ _ _ Hc) in H. discriminate. }
  revert H.
  destruct (gcAvailable env) eqn:Hgc; run_pairing; rewrite Hgc; run_pairing;
    rewrite Hc; run_pairing.
  all: match goal with
       | |- context [verifyPhase ?e ?B ?C (pairingEvent ?c _ _) ?w0] =>
           destruct (verifyPhase_spec e B C c w0) as (ex & wv & d & j & E & _)
       end; rewrite E; run_pairing.
  all: match goal with
       | |- context [warmupPhase ?e ?B ?C (pairingEvent ?c _ _) ?x ?w0] =>
           destruct (warmupPhase_returns e B C c x w0) as (ww & Ew)
       end; rewrite Ew; run_pairing.
  all: match goal with
       | |- context [iterationPhase ?e ?B ?C ?ev ?f ?x ?hu ?ht ?w0] =>
           destruct (iterationPhase e B C ev f x hu ht w0) as [[s|err|] wi]
       end; run_pairing; try discriminate.
  all: match goal with
       | |- context [saveData ?e ?n ?x ?w0] =>
           destruct (saveData_spec e n x w0) as (wf & Ef & _);
           intros H; rewrite Ef in H; simpl in H; inversion H; subst;
           exists s, w0
       end.
  all: repeat split; try exact Ef.
  all: unfold statsSummary; destruct (range env _); reflexivity.
Qed.

Lemma returned_mean_is_filtered_saved_mean_is_not_witness :
  let r := runClientBenchmark exampleEnvGc 5 exampleBenchmark exampleClient
             exampleWorld in
  match r.1 with
  | Returns st =>
      exists s w_save,
        st_mean st = amean exampleEnvGc (iqr exampleEnvGc (stats s))
        /\ iterations st = length (iqr exampleEnvGc (stats s))
        /\ marginOfError st = moe exampleEnvGc (iqr exampleEnvGc (stats s))
        /\ hs_heapUsed (st_memoryUsage st)
           = amean exampleEnvGc (iqr exampleEnvGc (heapUsedStats s))
        /\ hs_heapTotal (st_memoryUsage st)
           = amean exampleEnvGc (iqr exampleEnvGc (heapTotalStats s))
        /\ saveData exampleEnvGc "ExampleClient"
             (amean exampleEnvGc (stats s)) w_save
           = (Returns tt, r.2)
  | _ => False
  end.
Proof.
  cbv zeta.
  pose proof (returned_mean_is_filtered_saved_mean_is_not exampleEnvGc 5
                exampleBenchmark exampleClient exampleWorld) as H.
  destruct (runClientBenchmark exampleEnvGc 5 exampleBenchmark exampleClient
              exampleWorld) as [[st|e|] w'] eqn:E; simpl.
  - exact (H st w' eq_refl).
  - vm_compute in E. discriminate.
  - vm_compute in E. discriminate.
Defined.

(** *** What a run leaves alone *)

(** X19.  A run never changes its configuration or its raw example, nor the
    clients, the benchmarks and the example of the suite's values; of the
    context only [canceled], [failure] and the [canceled] flag of the
    suite's values change. *)
Theorem run_keeps_its_inputs env benchmarkClasses clientClasses rawExample
    config fuel file :
  let r := runSuite env benchmarkClasses clientClasses rawExample config fuel
             file in
  inputsOf (context r.2)
  = (default customConfig config, rawExample,
     map c_metadata clientClasses, map b_metadata benchmarkClasses, rawExample).
Proof.
  intros r.
  assert (H : keeps (fun w => inputsOf (context w))
                (initialWorld
                   (initialContext benchmarkClasses clientClasses rawExample
                      (default customConfig config)) file) r.2).
  { apply (everywhere_runSuite env (keeps (fun w => inputsOf (context w)))
             (fun _ => True));
      try typeclasses eauto; intros; auto;
      try (silent_leaf; unfold keeps; reflexivity).
    intro w. unfold keeps.
    destruct (saveData_spec env name stat w) as (w' & E & Hctx & _).
    rewrite E. simpl. rewrite Hctx. reflexivity. }
  exact H.
Qed.

(** *** Cancellation and the pass under way *)

(** X20.  [cancel()] does not interrupt a pass: whenever it is called, or not at
    all, the pass made from a given state makes the same calls, is
    suspended as often, reads the clock as often, and ends with the same
    result and the same failure. *)
Theorem cancel_does_not_interrupt_a_pass env f BenchmarkClass ClientClass
    example phase verify w :
  let p := runSingleBenchmarkPass env BenchmarkClass ClientClass example phase
             verify w in
  let q := runSingleBenchmarkPass (withCancelAt env f) BenchmarkClass
             ClientClass example phase verify w in
  p.1 = q.1
  /\ calls p.2 = calls q.2
  /\ suspensions p.2 = suspensions q.2
  /\ clockReads p.2 = clockReads q.2
  /\ console p.2 = console q.2
  /\ failure (context p.2) = failure (context q.2).
Proof.
  unfold withCancelAt. run_pass.
  destruct (c_new ClientClass _); run_pass; [simpl; auto 10 |].
  destruct (b_new BenchmarkClass _); run_pass; [simpl; auto 10 |].
  destruct (b_setup BenchmarkClass _); run_pass; [| simpl; auto 10 ..].
  destruct (gcAvailable env); run_pass.
  all: destruct (b_run BenchmarkClass _); run_pass; [| simpl; auto 10 ..].
  all: destruct verify; run_pass.
  all: try (destruct (b_verify BenchmarkClass _); run_pass;
            [| simpl; auto 10 ..]).
  all: destruct (b_teardown BenchmarkClass _); run_pass; simpl; auto 10.
Qed.

Lemma pass_cancelTracked env B C ex ph v :
  respects (cancelTracked env) (runSingleBenchmarkPass env B C ex ph v).
Proof.
  apply (everywhere_pass env (cancelTracked env));
    try typeclasses eauto; intros; auto;
    first
      [ apply suspend_cancelTracked
      | let w := fresh "w" in
        intro w; unfold cancelTracked;
        cbv [call reporter consoleLog setFailure readMemoryUsage modify bind
             gets ret];
        simpl; rewrite Nat.sub_diag; simpl; rewrite !orb_false_r; auto ].
Qed.

Lemma passLoop_canceled_meanwhile env B C ph v ex n w :
  stopped (context w) = false ->
  let a := awaitCall env (runSingleBenchmarkPass env B C ex ph v) w in
  cancelCalled env (suspensions w) (suspensions a.2 - suspensions w) = true ->
  passLoop env B C ph v ex (S n) w = (Returns tt, a.2)
  /\ canceled (context a.2) = true.
Proof.
  intros Hst a Hc.
  assert (Ht : cancelTracked env w a.2).
  { apply (respects_awaitCall (cancelTracked env) env).
    - apply pass_cancelTracked.
    - apply suspend_cancelTracked. }
  destruct Ht as (_ & Hcan & _). rewrite Hc, orb_true_r in Hcan.
  split; [| exact Hcan].
  rewrite passLoop_step by exact Hst.
  destruct (pass_returns env B C ex ph v w) as [r Hr].
  assert (Ha : a.2 = afterSuspend env (runSingleBenchmarkPass env B C ex ph v w).2).
  { subst a. rewrite (awaitCall_returns env _ w r Hr). reflexivity. }
  rewrite <- Ha. apply passLoop_stopped.
  unfold stopped. rewrite Hcan. reflexivity.
Qed.

(** X21.  In the loops of the VERIFY and of the WARMUP phase, the pass during
    which [cancel()] is called, or after which it is called while the loop
    awaits it, is the last one: the loop returns once that pass is over,
    however many passes were still to be made. *)
Theorem loops_stop_after_the_canceled_pass env BenchmarkClass ClientClass
    example n w :
  let a := awaitCall env
             (runSingleBenchmarkPass env BenchmarkClass ClientClass example
                VERIFY true) w in
  let b := awaitCall env
             (runSingleBenchmarkPass env BenchmarkClass ClientClass example
                WARMUP false) w in
  stopped (context w) = false ->
  (cancelCalled env (suspensions w) (suspensions a.2 - suspensions w) = true ->
   verifyLoop env BenchmarkClass ClientClass example (S n) w = (Returns tt, a.2)
   /\ canceled (context a.2) = true)
  /\ (cancelCalled env (suspensions w) (suspensions b.2 - suspensions w) = true ->
      warmupLoop env BenchmarkClass ClientClass example (S n) w
      = (Returns tt, b.2)
      /\ canceled (context b.2) = true).
Proof.
  intros a b Hst. split; intros Hc.
  - rewrite verifyLoop_passLoop. apply passLoop_canceled_meanwhile; assumption.
  - rewrite warmupLoop_passLoop. apply passLoop_canceled_meanwhile; assumption.
Qed.

Lemma loops_stop_after_the_canceled_pass_witness :
  let a := awaitCall exampleEnvCanceled
             (runSingleBenchmarkPass exampleEnvCanceled exampleBenchmark
                exampleClient None VERIFY true) exampleWorld in
  let b := awaitCall exampleEnvCanceled
             (runSingleBenchmarkPass exampleEnvCanceled exampleBenchmark
                exampleClient None WARMUP false) exampleWorld in
  (verifyLoop exampleEnvCanceled exampleBenchmark exampleClient None 3
     exampleWorld = (Returns tt, a.2)
   /\ canceled (context a.2) = true)
  /\ (warmupLoop exampleEnvCanceled exampleBenchmark exampleClient None 3
        exampleWorld = (Returns tt, b.2)
      /\ canceled (context b.2) = true).
Proof.
  destruct (loops_stop_after_the_canceled_pass exampleEnvCanceled
              exampleBenchmark exampleClient None 2 exampleWorld eq_refl)
    as [Hv Hw].
  split; [apply Hv | apply Hw]; reflexivity.
Defined.
